(** * The tool invocation coordinator of the MCP client, embedded and verified

    The development follows the TypeScript sources:
    - [app/utils/storage.ts]          (configuration store, tool selection)
    - [app/actions/mcp.ts]            (remote capability client, server actions)
    - [app/utils/mcp-client-hooks.ts] (client side wrappers)
    - [app/utils/tool-registry.ts]    (schema translation, risk levels, registry)
    - [app/utils/tool-permissions.ts] (permission gate)
    - [app/actions/summarize.ts]      (summaries of tool results)
    - [app/utils/use-chat.ts]         (invocation coordinator)
    - [app/api/chat/route.ts]         (server side tool table)
    - [app/utils/tool-filter.ts]      (ranking of the tools for a message)
    - [components/tool-interface.tsx] (form that runs a tool by hand)
    - [components/chat-panel.tsx]     (card of a tool invocation)

    A string is the UTF-8 encoding of the JavaScript string it stands for.
    [trim] and the splitting at white space know the white space of
    Unicode, and lengths are counted in UTF-16 code units.  [Js.toLowerCase]
    maps the letters of the ASCII range; the risk levels search its result
    for ASCII words whose letters no character outside ASCII maps to, so
    there it decides as the case mapping of Unicode does.  The ranking of
    the tools compares arbitrary words and takes the case mapping as a
    variable.  JSON text kept in the browser storage is represented by the
    value it parses to.  Asynchronous code is sequentialised: an [await] is a bind of
    the monad [M] below, and every interaction with the outside (the remote
    server, the language model) is answered by an oracle indexed by a logical
    clock, so that the theorems quantify over all behaviours of the outside. *)

From Stdlib Require Import String Ascii List Bool Arith Lia.
From stdpp Require Import base option list gmap strings fin_maps pretty.

Import ListNotations.
Local Open Scope string_scope.
#[local] Set Warnings "-register-all".

(* ===================================================================== *)
(** * Part I: definitions                                                 *)
(* ===================================================================== *)

(** ** JavaScript string primitives used by the sources *)

Module Js.

(** [s.startsWith(p)] *)
Definition startsWith (s p : string) : bool := String.prefix p s.

(** [s.includes(sub)]: [sub] occurs at some position of [s]. *)
Fixpoint includes (s sub : string) : bool :=
  String.prefix sub s ||
  match s with
  | EmptyString => false
  | String _ rest => includes rest sub
  end.

Fixpoint drop (n : nat) (s : string) : string :=
  match n, s with
  | O, _ => s
  | S _, EmptyString => EmptyString
  | S k, String _ rest => drop k rest
  end.

(** [s.replace(pat, rep)] with a string pattern: only the first occurrence
    is replaced.  The sources always pass [rep = ''], so the dollar
    patterns of the replacement string never matter. *)
Fixpoint replace (s pat rep : string) : string :=
  if String.prefix pat s then rep ++ drop (String.length pat) s
  else match s with
       | EmptyString => EmptyString
       | String c rest => String c (replace rest pat rep)
       end.

Definition lower (c : ascii) : ascii :=
  let n := nat_of_ascii c in
  if ((65 <=? n) && (n <=? 90))%nat then ascii_of_nat (n + 32) else c.

(** [s.toLowerCase()] *)
Fixpoint toLowerCase (s : string) : string :=
  match s with
  | EmptyString => EmptyString
  | String c rest => String (lower c) (toLowerCase rest)
  end.

Definition isSpace (c : ascii) : bool :=
  let n := nat_of_ascii c in
  (((9 <=? n) && (n <=? 13)) || (n =? 32))%nat.

(** The number of bytes of the white space character at the start of
    [s], and 0 when [s] starts with none.  White space is what
    [String.prototype.trim] strips and [\s] matches: U+0009 to U+000D,
    U+0020, U+00A0, U+1680, U+2000 to U+200A, U+2028, U+2029, U+202F,
    U+205F, U+3000 and U+FEFF, here in their UTF-8 encodings. *)
Definition wsLen (s : string) : nat :=
  match s with
  | String a rest =>
      let n := nat_of_ascii a in
      if isSpace a then 1
      else
        match rest with
        | String b rest' =>
            let m := nat_of_ascii b in
            if ((n =? 194) && (m =? 160))%nat then 2
            else
              match rest' with
              | String c _ =>
                  let k := nat_of_ascii c in
                  if ((n =? 225) && (m =? 154) && (k =? 128))%nat then 3
                  else if ((n =? 226) && (m =? 128) &&
                           (((128 <=? k) && (k <=? 138)) || (k =? 168)
                            || (k =? 169) || (k =? 175)))%nat then 3
                  else if ((n =? 226) && (m =? 129) && (k =? 159))%nat then 3
                  else if ((n =? 227) && (m =? 128) && (k =? 128))%nat then 3
                  else if ((n =? 239) && (m =? 187) && (k =? 191))%nat then 3
                  else 0
              | EmptyString => 0
              end
        | EmptyString => 0
        end
  | EmptyString => 0
  end.

(** [skip] bytes of a white space character are still to be dropped. *)
Fixpoint trimStartFrom (skip : nat) (s : string) : string :=
  match s with
  | EmptyString => EmptyString
  | String _ rest =>
      match skip with
      | S k => trimStartFrom k rest
      | O =>
          match wsLen s with
          | O => s
          | S k => trimStartFrom k rest
          end
      end
  end.

Definition trimStart (s : string) : string := trimStartFrom 0 s.

(** [s] consists of white space, after [skip] bytes that belong to a
    white space character. *)
Fixpoint allWhiteFrom (skip : nat) (s : string) : bool :=
  match s with
  | EmptyString => match skip with O => true | S _ => false end
  | String _ rest =>
      match skip with
      | S k => allWhiteFrom k rest
      | O =>
          match wsLen s with
          | O => false
          | S k => allWhiteFrom k rest
          end
      end
  end.

(** The longest suffix that consists of white space is cut. *)
Fixpoint trimEnd (s : string) : string :=
  match s with
  | EmptyString => EmptyString
  | String c rest =>
      if allWhiteFrom 0 s then EmptyString else String c (trimEnd rest)
  end.

(** [s.trim()] *)
Definition trim (s : string) : string := trimEnd (trimStart s).

(** [s.length]: the number of UTF-16 code units of the text, one for a
    character of one to three bytes and two for a character of four. *)
Fixpoint utf16Length (s : string) : nat :=
  match s with
  | EmptyString => 0
  | String c rest =>
      let n := nat_of_ascii c in
      (if (n <? 128)%nat then 1
       else if (n <? 192)%nat then 0
       else if (n <? 240)%nat then 1
       else 2) + utf16Length rest
  end.

Definition isContinuation (s : string) : bool :=
  match s with
  | String c _ =>
      let n := nat_of_ascii c in ((128 <=? n) && (n <? 192))%nat
  | EmptyString => false
  end.

(** The characters of a text, each with the bytes of its encoding. *)
Fixpoint utf8Chars (s : string) : list string :=
  match s with
  | EmptyString => []
  | String c rest =>
      match utf8Chars rest with
      | piece :: pieces =>
          if isContinuation piece then String c piece :: pieces
          else String c EmptyString :: piece :: pieces
      | [] => [String c EmptyString]
      end
  end.

(** A code unit in the range of the surrogates, as three bytes. *)
Definition surrogateBytes (x : N) : string :=
  String (ascii_of_N (224 + x / 4096))
    (String (ascii_of_N (128 + (x / 64) mod 64))
       (String (ascii_of_N (128 + x mod 64)) EmptyString))%N.

(** The UTF-16 code units of a character: itself, or the two surrogates
    of a character of four bytes. *)
Definition unitsOfChar (char : string) : list string :=
  match char with
  | String b0 (String b1 (String b2 (String b3 EmptyString))) =>
      let cp :=
        ((N_of_ascii b0 mod 8) * 262144 + (N_of_ascii b1 mod 64) * 4096
         + (N_of_ascii b2 mod 64) * 64 + N_of_ascii b3 mod 64)%N in
      if (65536 <=? cp)%N then
        [surrogateBytes (55296 + (cp - 65536) / 1024)%N;
         surrogateBytes (56320 + (cp - 65536) mod 1024)%N]
      else [char]
  | _ => [char]
  end.

(** The code units of a text, which are the indexed elements of the
    string. *)
Definition codeUnits (s : string) : list string :=
  List.concat (List.map unitsOfChar (utf8Chars s)).

Fixpoint prefixUnits (sub s : list string) : bool :=
  match sub, s with
  | [], _ => true
  | _ :: _, [] => false
  | u :: sub', v :: s' => String.eqb u v && prefixUnits sub' s'
  end.

Fixpoint includesUnitsOf (s sub : list string) : bool :=
  prefixUnits sub s ||
  match s with
  | [] => false
  | _ :: rest => includesUnitsOf rest sub
  end.

(** [s.includes(sub)] for a [sub] that may begin or end with one half of
    a character of four bytes: the comparison runs over the code
    units. *)
Definition includesUnits (s sub : string) : bool :=
  includesUnitsOf (codeUnits s) (codeUnits sub).

(** Truthiness of a string: the empty string is falsy. *)
Definition truthy (s : string) : bool :=
  match s with EmptyString => false | _ => true end.

(** Decimal rendering of a number inside a template literal. *)
Definition ofNat (n : nat) : string := pretty n.

End Js.

(** ** Risk levels: [determineToolRiskLevel] (tool-registry.ts) and
       [determineRiskLevel] (tool-permissions.ts) *)

Inductive RiskLevel := low | medium | high.

Module Risk.
Import Js.

(** tool-registry.ts, [determineToolRiskLevel] *)
Definition determineToolRiskLevel (toolName : string) : RiskLevel :=
  let name := toLowerCase toolName in
  if includes name "delete" ||
     includes name "remove" ||
     includes name "destroy" ||
     includes name "create" ||
     includes name "update" ||
     includes name "modify" ||
     includes name "merge" ||
     includes name "close" ||
     includes name "approve"
  then high
  else
  if includes name "write" ||
     includes name "send" ||
     includes name "execute" ||
     includes name "run" ||
     includes name "upload" ||
     includes name "post" ||
     includes name "put" ||
     includes name "patch" ||
     includes name "comment" ||
     includes name "assign"
  then medium
  else low.

(** The word lists as the specification gives them. *)
Definition high_words : list string :=
  ["delete"; "remove"; "destroy"; "create"; "update"; "modify"; "merge";
   "close"; "approve"].

Definition medium_words : list string :=
  ["write"; "send"; "execute"; "run"; "upload"; "post"; "put"; "patch";
   "comment"; "assign"].

(** The classifier read off the specification: case-insensitive substring
    match, high before medium before low. *)
Definition classify (toolName : string) : RiskLevel :=
  let name := toLowerCase toolName in
  if existsb (includes name) high_words then high
  else if existsb (includes name) medium_words then medium
  else low.

End Risk.

(** ** JSON values

    Everything that crosses the storage, the wire to the remote server or
    the server-action boundary is a JSON value.  Numbers are integers here;
    no source function computes with them. *)

Inductive json :=
| JNull
| JBool (b : bool)
| JNum (n : Z)
| JStr (s : string)
| JArr (items : list json)
| JObj (fields : list (string * json)).

Module Json.

(** Lookup in the list of fields of an object. *)
Fixpoint assoc {A} (k : string) (l : list (string * A)) : option A :=
  match l with
  | [] => None
  | (k', v) :: rest => if String.eqb k k' then Some v else assoc k rest
  end.

(** Assignment [o[k] = v] on the fields of an object: an existing key keeps
    its place, a new key goes last. *)
Fixpoint assign {A} (k : string) (v : A) (l : list (string * A))
  : list (string * A) :=
  match l with
  | [] => [(k, v)]
  | (k', v') :: rest =>
      if String.eqb k k' then (k, v) :: rest else (k', v') :: assign k v rest
  end.

(** Property read [v.k] or [v[k]] on a value that is not null, with
    [None] for undefined.  The keys read by the sources are [url],
    [bearerToken] and tool ids of the form [service:tool]; none of them is
    a member of a string, an array, a number or a boolean. *)
Definition field (v : json) (k : string) : option json :=
  match v with
  | JObj fields => assoc k fields
  | _ => None
  end.

(** JavaScript truthiness. *)
Definition truthy (v : json) : bool :=
  match v with
  | JNull => false
  | JBool b => b
  | JNum n => negb (n =? 0)%Z
  | JStr s => Js.truthy s
  | JArr _ | JObj _ => true
  end.

(** [v === 's'] for a string literal ['s'], as the cases of a [switch]
    compare. *)
Definition eqStr (v : option json) (s : string) : bool :=
  match v with
  | Some (JStr t) => String.eqb t s
  | _ => false
  end.

(** Truthiness of a possibly undefined value. *)
Definition truthy_opt (v : option json) : bool :=
  match v with Some x => truthy x | None => false end.

(** The assignment [obj[key] = value] on an object made by a literal
    [{}]: the key [__proto__] names the prototype of the object, and
    assigning to it adds no property. *)
Definition setProperty {A} (key : string) (value : A) (obj : gmap string A)
  : gmap string A :=
  if String.eqb key "__proto__" then obj else <[key := value]> obj.

(** The own enumerable properties of a value, which an object spread
    copies: the fields of an object, the indexed elements of an array,
    the indexed code units of a string, and nothing for the rest. *)
Definition ownProperties (v : json) : list (string * json) :=
  match v with
  | JObj fields => fields
  | JArr items => imap (fun i item => (pretty i, item)) items
  | JStr s => imap (fun i unit => (pretty i, JStr unit)) (Js.codeUnits s)
  | _ => []
  end.

End Json.

(** ** Exceptions *)

(** A thrown value: an [Error] with its message, or something that is not
    an instance of [Error]. *)
Inductive Exn :=
| Error (message : string)
| NonError.

Inductive Res (A : Type) :=
| Val (a : A)
| Thrown (e : Exn).
Arguments Val {A} a.
Arguments Thrown {A} e.

(** ** Pure code that can throw *)

Module ResM.

Definition bind {A B} (r : Res A) (k : A -> Res B) : Res B :=
  match r with
  | Val a => k a
  | Thrown e => Thrown e
  end.

(** [l.filter(p)] with a predicate that can throw. *)
Fixpoint filter {A} (p : A -> Res bool) (l : list A) : Res (list A) :=
  match l with
  | [] => Val []
  | x :: rest =>
      bind (p x) (fun keep =>
      bind (filter p rest) (fun rest' =>
      Val (if keep then x :: rest' else rest')))
  end.

(** [l.map(f)] with a function that can throw. *)
Fixpoint map {A B} (f : A -> Res B) (l : list A) : Res (list B) :=
  match l with
  | [] => Val []
  | x :: rest =>
      bind (f x) (fun y =>
      bind (map f rest) (fun rest' =>
      Val (y :: rest')))
  end.

(** Property read on a value that may be null. *)
Definition prop (v : json) (k : string) : Res (option json) :=
  match v with
  | JNull => Thrown (Error ("Cannot read properties of null (reading '" ++ k ++ "')"))
  | _ => Val (Json.field v k)
  end.

End ResM.

Declare Scope res_scope.
Delimit Scope res_scope with res.
Notation "'let*' x ':=' m 'in' k" := (ResM.bind m (fun x => k))
  (at level 10, x pattern, m at level 100, k at level 200) : res_scope.

(** ** The configuration store (storage.ts) *)

(** A string held by [localStorage], classified by what [JSON.parse] does
    with it. *)
Inductive Stored :=
| SEmpty                (* the empty string *)
| SMalformed            (* a non-empty string that JSON.parse rejects *)
| SJson (v : json).     (* the text JSON.stringify(v); JSON.parse gives v *)

(** [localStorage]: the items in the order in which [key(i)] enumerates
    them. *)
Definition Storage := list (string * Stored).

(** [window]: [None] when the code runs outside a browser
    ([typeof window === 'undefined']). *)
Definition Window := option Storage.

Module StorageTs.
Import Js Json.

Definition STORAGE_PREFIX : string := "mcp-client".

Definition getItem (ls : Storage) (key : string) : option Stored :=
  assoc key ls.

Definition setItem (ls : Storage) (key : string) (v : Stored) : Storage :=
  assign key v ls.

Definition removeItem (ls : Storage) (key : string) : Storage :=
  List.filter (fun kv => negb (String.eqb key (fst kv))) ls.

(** [JSON.parse(stored)] guarded by [if (stored)]: [None] stands for the
    guard failing, [Some None] for a SyntaxError. *)
Definition parseStored (stored : Stored) : option (option json) :=
  match stored with
  | SEmpty => None
  | SMalformed => Some None
  | SJson v => Some (Some v)
  end.

Definition getStorageKey (serviceId : string) : string :=
  STORAGE_PREFIX ++ "-" ++ serviceId.

(** [saveServiceConfig] *)
Definition saveServiceConfig (window : Window) (serviceId : string)
    (config : json) : Window :=
  match window with
  | None => None
  | Some ls => Some (setItem ls (getStorageKey serviceId) (SJson config))
  end.

(** [loadServiceConfig]: [None] is [null]. *)
Definition loadServiceConfig (window : Window) (serviceId : string)
  : option json :=
  match window with
  | None => None
  | Some ls =>
      let key := getStorageKey serviceId in
      match getItem ls key with
      | Some stored =>
          match parseStored stored with
          | Some (Some v) => Some v
          | Some None => None        (* caught, logged *)
          | None => None
          end
      | None => None
      end
  end.

(** [removeServiceConfig] *)
Definition removeServiceConfig (window : Window) (serviceId : string)
  : Window :=
  match window with
  | None => None
  | Some ls => Some (removeItem ls (getStorageKey serviceId))
  end.

(** The body of the loop of [getAllServiceConfigs]. *)
Definition getAll_step (window : Window) (configs : gmap string json)
    (kv : string * Stored) : gmap string json :=
  let key := fst kv in
  if Js.truthy key && startsWith key STORAGE_PREFIX then
    let serviceId := replace key (STORAGE_PREFIX ++ "-") "" in
    match loadServiceConfig window serviceId with
    | Some config =>
        if truthy config then <[serviceId := config]> configs else configs
    | None => configs
    end
  else configs.

(** [getAllServiceConfigs]: the loop over [localStorage.key(i)]. *)
Definition getAllServiceConfigs (window : Window) : gmap string json :=
  match window with
  | None => ∅
  | Some ls => fold_left (getAll_step window) ls ∅
  end.

(** The body of the loop of [loadAllServiceConfigs]; [None] when
    [JSON.parse] throws, which leaves the loop. *)
Definition loadAll_step (ls : Storage) (acc : option (gmap string json))
    (kv : string * Stored) : option (gmap string json) :=
  match acc with
  | None => None
  | Some configs =>
      let key := fst kv in
      if Js.truthy key && startsWith key (STORAGE_PREFIX ++ "-")
         && negb (includes key "-tool-selection") then
        let serviceId := replace key (STORAGE_PREFIX ++ "-") "" in
        match getItem ls key with
        | Some stored =>
            match parseStored stored with
            | Some (Some v) => Some (<[serviceId := v]> configs)
            | Some None => None
            | None => Some configs
            end
        | None => Some configs
        end
      else Some configs
  end.

(** [loadAllServiceConfigs] *)
Definition loadAllServiceConfigs (window : Window) : gmap string json :=
  match window with
  | None => ∅
  | Some ls =>
      match fold_left (loadAll_step ls) ls (Some ∅) with
      | Some configs => configs
      | None => ∅                  (* catch: return {} *)
      end
  end.

(** [getServiceIds] *)
Definition getServiceIds (window : Window) : list string :=
  match window with
  | None => []
  | Some ls =>
      fold_left
        (fun (serviceIds : list string) (kv : string * Stored) =>
           let key := fst kv in
           if Js.truthy key && startsWith key STORAGE_PREFIX then
             let serviceId := replace key (STORAGE_PREFIX ++ "-") "" in
             (serviceIds ++ [serviceId])%list
           else serviceIds)
        ls []
  end.

(** [clearAllConfigs] *)
Definition clearAllConfigs (window : Window) : Window :=
  match window with
  | None => None
  | Some ls =>
      let keysToRemove :=
        List.filter
          (fun key => Js.truthy key && startsWith key STORAGE_PREFIX)
          (map fst ls) in
      Some (fold_left removeItem keysToRemove ls)
  end.

Definition TOOL_SELECTION_KEY : string := STORAGE_PREFIX ++ "-tool-selection".

(** [ToolSelectionState]: tool id to boolean, as the interface declares
    it, and the object that [JSON.stringify] and [JSON.parse] exchange for
    it. *)
Definition ToolSelectionState := list (string * bool).

Definition selection_json (sel : ToolSelectionState) : json :=
  JObj (map (fun kv => (fst kv, JBool (snd kv))) sel).

(** [saveToolSelection]: the write; the same-tab event it dispatches is
    [localStorageChange] with this key. *)
Definition saveToolSelection (window : Window) (toolSelections : json)
  : Window :=
  match window with
  | None => None
  | Some ls => Some (setItem ls TOOL_SELECTION_KEY (SJson toolSelections))
  end.

(** [loadToolSelection]: the parsed object, [{}] when nothing usable is
    stored. *)
Definition loadToolSelection (window : Window) : json :=
  match window with
  | None => JObj []
  | Some ls =>
      match getItem ls TOOL_SELECTION_KEY with
      | Some stored =>
          match parseStored stored with
          | Some (Some v) => v
          | _ => JObj []
          end
      | None => JObj []
      end
  end.

(** [`${serviceId}:${toolName}`] *)
Definition toolId (serviceId toolName : string) : string :=
  serviceId ++ ":" ++ toolName.

(** [selection[toolId] ?? true], read as a condition: undefined and null
    select the tool, any other value counts by its truthiness.  Indexing
    null throws. *)
Definition selectedIn (selection : json) (id : string) : Res bool :=
  (let* v := ResM.prop selection id in
   Val match v with
       | None | Some JNull => true
       | Some x => truthy x
       end)%res.

(** [isToolSelected] *)
Definition isToolSelected (window : Window) (serviceId toolName : string)
  : Res bool :=
  selectedIn (loadToolSelection window) (toolId serviceId toolName).

(** The object spread [{...currentSelection, [toolId]: v}]. *)
Definition spreadWith (currentSelection : json) (id : string) (v : json)
  : json :=
  JObj (assign id v (ownProperties currentSelection)).

(** [toggleToolSelection] *)
Definition toggleToolSelection (window : Window)
    (serviceId toolName : string) : Res Window :=
  (let id := toolId serviceId toolName in
   let currentSelection := loadToolSelection window in
   let* currentValue := selectedIn currentSelection id in
   Val (saveToolSelection window
          (spreadWith currentSelection id (JBool (negb currentValue)))))%res.

(** [setToolSelection] *)
Definition setToolSelection (window : Window)
    (serviceId toolName : string) (selected : bool) : Window :=
  let id := toolId serviceId toolName in
  let currentSelection := loadToolSelection window in
  saveToolSelection window (spreadWith currentSelection id (JBool selected)).

End StorageTs.

(** ** Tool descriptions and schemas (tool-registry.ts, route.ts) *)

(** [inputSchema] of a tool.  The property schemas are unknown values. *)
Record InputSchema := {
  type : string;
  properties : option (gmap string json);
  required : option (list string);
}.

(** A tool as [list_tools] returns it: the shape the cast in [refreshTools]
    reads. *)
Record RemoteTool := {
  t_name : string;
  t_description : option string;
  t_inputSchema : option InputSchema;
}.

(** [MCPToolDefinition] *)
Record MCPToolDefinition := {
  name : string;
  description : option string;
  serviceId : string;
  inputSchema : option InputSchema;
}.

(** The Zod schemas the sources build. *)
Inductive ZodType :=
| ZString                                   (* z.string() *)
| ZNumber                                   (* z.number() *)
| ZBoolean                                  (* z.boolean() *)
| ZArray (item : ZodType)                   (* z.array(item) *)
| ZUnknown                                  (* z.unknown() *)
| ZAny                                      (* z.any() *)
| ZOptional (inner : ZodType)               (* inner.optional() *)
| ZDescribed (inner : ZodType) (text : json).  (* inner.describe(text) *)

(** [z.object(fields)] *)
Definition ZodObject := gmap string ZodType.

(** One entry of [jsonProperties]: [{type, items?, description}]. *)
Record JsonProperty := {
  jp_type : string;
  jp_items : option string;            (* items: { type: ... } *)
  jp_description : option json;
}.

(** The [jsonSchema] of an [AISDKTool]. *)
Record JsonSchema := {
  js_type : string;
  js_properties : gmap string JsonProperty;
  js_required : list string;
}.

(** [AISDKTool]; its [execute] closure is [execute] in [Registry]. *)
Record AISDKTool := {
  ai_name : string;
  ai_description : string;
  parameters : ZodObject;
  jsonSchema : JsonSchema;
  ai_serviceId : string;
  riskLevel : RiskLevel;
}.

(** ** The remote capability client (actions/mcp.ts) *)

(** The result objects of the server actions: [{success: true, ...payload}]
    or [{success: false, error}]. *)
Inductive ActionResult (A : Type) :=
| Success (payload : A)
| Failure (error : string).
Arguments Success {A} payload.
Arguments Failure {A} error.

Inductive ChatModel := claude | gemini.

(** The responses of the protocol, as the SDK client hands them over. *)
Record CallToolResponse := {
  r_content : option json;
  r_isError : option json;
}.

Record PromptResponse := {
  p_description : option string;
  p_messages : option (list json);
}.

Record ResourceResponse := {
  rr_contents : list json;
}.

(** What [summarizeToolResult] puts into its prompt. *)
Record SummarizeToolResultParams := {
  originalQuestion : string;
  sp_toolName : string;
  toolArgs : json;
  rawResult : list json;
  sp_model : ChatModel;
}.

(** One protocol request on a connection. *)
Inductive Request :=
| ReqListTools
| ReqCallTool (name : string) (arguments : json)
| ReqListPrompts
| ReqGetPrompt (name : string) (arguments : json)
| ReqListResources
| ReqReadResource (uri : string).

(** The outside world.  Every answer is indexed by the logical clock of the
    interaction, so an oracle can answer the same question differently at
    different times.  [inl e] is a rejection with [e]. *)
Record World := {
  URL_ok : option json -> bool;                 (* new URL(x) does not throw *)
  sdk_connect : nat -> option json * option json -> option Exn;
                                                (* client.connect(transport) *)
  sdk_close : nat -> option Exn;                (* client.close() *)
  sdk_listTools : nat -> Exn + option (list RemoteTool);
  sdk_callTool : nat -> string -> json -> Exn + CallToolResponse;
  sdk_listPrompts : nat -> Exn + option (list json);
  sdk_getPrompt : nat -> string -> json -> Exn + PromptResponse;
  sdk_listResources : nat -> Exn + option (list json);
  sdk_readResource : nat -> string -> Exn + ResourceResponse;
  provider_fails : ChatModel -> option Exn;     (* getModelProvider throws *)
  generateText : nat -> SummarizeToolResultParams -> Exn + string;
}.

(** What the run of the program does to the outside, in order. *)
Inductive Event :=
| EvNew (c : nat)                              (* new MCPServerClient *)
| EvConnect (c : nat) (ok : bool)              (* transport connect *)
| EvRequest (c : nat) (r : Request) (ok : bool)
| EvDisconnect (c : nat)                       (* disconnect() entered *)
| EvClose (c : nat) (ok : bool)                (* client.close() *)
| EvGenerateText (ok : bool).

(** An instance of [MCPServerClient]. *)
Record Client := {
  config : json;
  isConnected : bool;
}.

(** The state of the server: the instances of [MCPServerClient] by
    allocation number, the module level [clientPool], the variable [client]
    of the server action in progress, the clock and the events so far. *)
Record Sys := {
  clock : nat;
  clients : list Client;
  clientPool : gmap string nat;
  client_var : option nat;
  trace : list Event;
}.

Definition M (A : Type) : Type := Sys -> Res A * Sys.

Module Monad.

Definition ret {A} (a : A) : M A := fun s => (Val a, s).

Definition throw {A} (e : Exn) : M A := fun s => (Thrown e, s).

Definition bind {A B} (m : M A) (k : A -> M B) : M B :=
  fun s =>
    match m s with
    | (Val a, s') => k a s'
    | (Thrown e, s') => (Thrown e, s')
    end.

(** [try { m } catch (error) { handler }] *)
Definition try_catch {A} (m : M A) (handler : Exn -> M A) : M A :=
  fun s =>
    match m s with
    | (Val a, s') => (Val a, s')
    | (Thrown e, s') => handler e s'
    end.

(** [try { m } finally { fin }]: [fin] runs on every exit of [m]; what it
    throws replaces the outcome of [m]. *)
Definition try_finally {A} (m : M A) (fin : M unit) : M A :=
  fun s =>
    match m s with
    | (r, s') =>
        match fin s' with
        | (Val _, s'') => (r, s'')
        | (Thrown e, s'') => (Thrown e, s'')
        end
    end.

Definition get : M Sys := fun s => (Val s, s).

(** Pure code that can throw, as a step of [M]. *)
Definition lift {A} (r : Res A) : M A := fun s => (r, s).

Definition emit (e : Event) : M unit :=
  fun s => (Val tt,
            {| clock := clock s; clients := clients s;
               clientPool := clientPool s; client_var := client_var s;
               trace := (trace s ++ [e])%list |}).

(** The clock value of an interaction; the clock advances. *)
Definition tick : M nat :=
  fun s => (Val (clock s),
            {| clock := S (clock s); clients := clients s;
               clientPool := clientPool s; client_var := client_var s;
               trace := trace s |}).

Definition set_clients (cs : list Client) : M unit :=
  fun s => (Val tt,
            {| clock := clock s; clients := cs;
               clientPool := clientPool s; client_var := client_var s;
               trace := trace s |}).

Definition set_clientPool (p : gmap string nat) : M unit :=
  fun s => (Val tt,
            {| clock := clock s; clients := clients s;
               clientPool := p; client_var := client_var s;
               trace := trace s |}).

(** Assignment to the variable [client] of the running action. *)
Definition set_client_var (c : option nat) : M unit :=
  fun s => (Val tt,
            {| clock := clock s; clients := clients s;
               clientPool := clientPool s; client_var := c;
               trace := trace s |}).

(** [error instanceof Error ? error.message : dflt] *)
Definition messageOr (error : Exn) (dflt : string) : string :=
  match error with
  | Error message => message
  | NonError => dflt
  end.

End Monad.

Declare Scope js_scope.
Delimit Scope js_scope with js.
Notation "'let*' x ':=' m 'in' k" := (Monad.bind m (fun x => k))
  (at level 10, x pattern, m at level 100, k at level 200) : js_scope.
Notation "m ';;' k" := (Monad.bind m (fun _ => k))
  (at level 100, k at level 200, right associativity) : js_scope.

Module McpTs.
Import Js Json Monad.
Local Open Scope js_scope.

Section WithWorld.
Context (w : World).

(** Property read [v.k] on a value that may be null: reading a property
    of null is a TypeError. *)
Definition prop (v : json) (k : string) : M (option json) :=
  match v with
  | JNull => throw (Error ("Cannot read properties of null (reading '" ++ k ++ "')"))
  | _ => ret (field v k)
  end.

(** *** class MCPServerClient *)

(** [new MCPServerClient(config)] *)
Definition newClient (cfg : json) : M nat :=
  let* s := get in
  let c := length (clients s) in
  set_clients (clients s ++ [{| config := cfg; isConnected := false |}])%list ;;
  emit (EvNew c) ;;
  ret c.

(** The instance a method runs on.  The handles in use come from
    [newClient], so the instance is there. *)
Definition this (c : nat) : M Client :=
  let* s := get in
  match clients s !! c with
  | Some cl => ret cl
  | None => throw (Error "Cannot read properties of undefined")
  end.

Definition set_isConnected (c : nat) (b : bool) : M unit :=
  let* s := get in
  let* cl := this c in
  set_clients (<[c := {| config := config cl; isConnected := b |}]> (clients s)).

(** [createTransport]: the transport, given by the url and, when it is
    truthy, the bearer token of its [Authorization] header. *)
Definition createTransport (c : nat) : M (option json * option json) :=
  let* cl := this c in
  let* bearerToken := prop (config cl) "bearerToken" in
  let authorization :=
    if truthy_opt bearerToken then bearerToken else None in
  let* url := prop (config cl) "url" in
  if URL_ok w url then ret (url, authorization)
  else throw (Error "Invalid URL").

(** [connect] *)
Definition connect (c : nat) : M unit :=
  try_catch
    (let* transport := createTransport c in
     let* t := tick in
     match sdk_connect w t transport with
     | None => emit (EvConnect c true) ;; set_isConnected c true
     | Some e => emit (EvConnect c false) ;; throw e
     end)
    (fun error =>
       throw (Error ("MCP connection failed: " ++ messageOr error "Unknown error"))).

(** [disconnect] *)
Definition disconnect (c : nat) : M unit :=
  emit (EvDisconnect c) ;;
  try_catch
    (let* cl := this c in
     if isConnected cl then
       let* t := tick in
       match sdk_close w t with
       | None => emit (EvClose c true) ;; set_isConnected c false
       | Some e => emit (EvClose c false) ;; throw e
       end
     else ret tt)
    (fun _ => ret tt).

(** [ensureConnected] *)
Definition ensureConnected (c : nat) : M unit :=
  let* cl := this c in
  if negb (isConnected cl)
  then throw (Error "MCP Client is not connected. Call connect() first.")
  else ret tt.

(** One request through the SDK client: the answer of the world, with the
    event recorded. *)
Definition request {A} (c : nat) (r : Request) (answer : nat -> Exn + A)
  : M A :=
  let* t := tick in
  match answer t with
  | inr a => emit (EvRequest c r true) ;; ret a
  | inl e => emit (EvRequest c r false) ;; throw e
  end.

(** [request.arguments || {}] *)
Definition orEmpty (arguments : json) : json :=
  if truthy arguments then arguments else JObj [].

(** [response.tools || []] and its siblings *)
Definition orNil {A} (l : option (list A)) : list A :=
  match l with Some x => x | None => [] end.

(** [listTools] *)
Definition listTools (c : nat) : M (list RemoteTool) :=
  ensureConnected c ;;
  try_catch
    (let* response := request c ReqListTools (sdk_listTools w) in
     ret (orNil response))
    (fun error =>
       throw (Error ("Failed to list tools: " ++ messageOr error "Unknown error"))).

(** [callTool]: the content when it is an array, else [[]]; the flag when
    it is a boolean, else [false]. *)
Definition callTool (c : nat) (name : string) (arguments : json)
  : M (list json * bool) :=
  ensureConnected c ;;
  try_catch
    (let* response :=
       request c (ReqCallTool name (orEmpty arguments))
               (fun t => sdk_callTool w t name (orEmpty arguments)) in
     ret (match r_content response with
          | Some (JArr content) => content
          | _ => []
          end,
          match r_isError response with
          | Some (JBool b) => b
          | _ => false
          end))
    (fun error =>
       throw (Error ("Failed to call tool: " ++ messageOr error "Unknown error"))).

(** [listPrompts] *)
Definition listPrompts (c : nat) : M (list json) :=
  ensureConnected c ;;
  try_catch
    (let* response := request c ReqListPrompts (sdk_listPrompts w) in
     ret (orNil response))
    (fun error =>
       throw (Error ("Failed to list prompts: " ++ messageOr error "Unknown error"))).

(** [getPrompt] *)
Definition getPrompt (c : nat) (name : string) (arguments : json)
  : M PromptResponse :=
  ensureConnected c ;;
  try_catch
    (request c (ReqGetPrompt name (orEmpty arguments))
             (fun t => sdk_getPrompt w t name (orEmpty arguments)))
    (fun error =>
       throw (Error ("Failed to get prompt: " ++ messageOr error "Unknown error"))).

(** [listResources] *)
Definition listResources (c : nat) : M (list json) :=
  ensureConnected c ;;
  try_catch
    (let* response := request c ReqListResources (sdk_listResources w) in
     ret (orNil response))
    (fun error =>
       throw (Error ("Failed to list resources: " ++ messageOr error "Unknown error"))).

(** [readResource] *)
Definition readResource (c : nat) (uri : string) : M ResourceResponse :=
  ensureConnected c ;;
  try_catch
    (request c (ReqReadResource uri) (fun t => sdk_readResource w t uri))
    (fun error =>
       throw (Error ("Failed to read resource: " ++ messageOr error "Unknown error"))).

End WithWorld.
End McpTs.

Module Actions.
Import Js Json Monad McpTs.
Local Open Scope js_scope.

(** String conversion of a value inside a template literal. *)
Fixpoint toString (v : json) : string :=
  match v with
  | JNull => "null"
  | JBool true => "true"
  | JBool false => "false"
  | JNum n => pretty n
  | JStr s => s
  | JArr items =>
      String.concat ","
        (map (fun x => match x with JNull => "" | _ => toString x end) items)
  | JObj _ => "[object Object]"
  end.

Definition toString_opt (v : option json) : string :=
  match v with Some x => toString x | None => "undefined" end.

Section WithWorld.
Context (w : World).

(** The condition [!config.url || config.url.trim() === '']. *)
Definition urlMissing (cfg : json) : M bool :=
  let* url := prop cfg "url" in
  if negb (truthy_opt url) then ret true
  else match url with
       | Some (JStr u) => ret (String.eqb (trim u) "")
       | _ => throw (Error "config.url.trim is not a function")
       end.

(** The block [finally { if (client) { try { await client.disconnect() }
    catch { ... } } }] that closes the actions below. *)
Definition finally_disconnect : M unit :=
  let* s := get in
  match client_var s with
  | Some c => try_catch (disconnect w c) (fun _ => ret tt)
  | None => ret tt
  end.

Definition nl : string := String (ascii_of_nat 10) EmptyString.

(** The text shown when the server cannot be reached: a template literal
    that runs over five lines of the source. *)
Definition cannot_reach (url : string) : string :=
  "Cannot reach server at " ++ url ++ ". Please check:" ++ nl ++
  "        • Server is running and accessible" ++ nl ++
  "        • URL is correct (including protocol)" ++ nl ++
  "        • No CORS restrictions" ++ nl ++
  "        • Network connectivity".

(** The message chosen in the [catch] block of [testMCPConnection]. *)
Definition connectionErrorMessage (cfg : json) (error : Exn) : M string :=
  match error with
  | Error message =>
      if includes message "Failed to fetch" then
        let* url := prop cfg "url" in
        ret (cannot_reach (toString_opt url))
      else if includes message "CORS" then
        ret "CORS error: The server needs to allow requests from this domain."
      else if includes message "NetworkError" then
        let* url := prop cfg "url" in
        ret ("Network error: Cannot connect to " ++ toString_opt url
             ++ ". Check if the server is running.")
      else ret message
  | NonError => ret "Unknown connection error"
  end.

(** [testMCPConnection] *)
Definition testMCPConnection (cfg : json)
  : M (ActionResult (list RemoteTool)) :=
  set_client_var None ;;
  try_finally
    (try_catch
       (let* missing := urlMissing cfg in
        if missing then ret (Failure "URL is required for HTTP transport")
        else
          let* url := prop cfg "url" in
          if negb (URL_ok w url)
          then ret (Failure ("Invalid URL format: " ++ toString_opt url))
          else
            let* c := newClient cfg in
            set_client_var (Some c) ;;
            connect w c ;;
            let* tools := listTools w c in
            ret (Success tools))
       (fun error =>
          let* errorMessage := connectionErrorMessage cfg error in
          ret (Failure errorMessage)))
    finally_disconnect.

(** [connectToMCPServer] *)
Definition connectToMCPServer (serviceId : string) (cfg : json)
  : M (ActionResult (list RemoteTool)) :=
  try_catch
    (let* s := get in
     match clientPool s !! serviceId with
     | Some existingClient =>
         disconnect w existingClient ;;
         let* s' := get in
         set_clientPool (delete serviceId (clientPool s'))
     | None => ret tt
     end ;;
     let* c := newClient cfg in
     connect w c ;;
     let* s' := get in
     set_clientPool (<[serviceId := c]> (clientPool s')) ;;
     let* tools := listTools w c in
     ret (Success tools))
    (fun error => ret (Failure (messageOr error "Connection failed"))).

(** [disconnectFromMCPServer] *)
Definition disconnectFromMCPServer (serviceId : string)
  : M (ActionResult unit) :=
  try_catch
    (let* s := get in
     match clientPool s !! serviceId with
     | Some c =>
         disconnect w c ;;
         let* s' := get in
         set_clientPool (delete serviceId (clientPool s'))
     | None => ret tt
     end ;;
     ret (Success tt))
    (fun error => ret (Failure (messageOr error "Disconnect failed"))).

(** [callMCPTool], the action that works on the pool *)
Definition callMCPTool (serviceId toolName : string) (arguments_ : json)
  : M (ActionResult (list json * bool)) :=
  try_catch
    (let* s := get in
     match clientPool s !! serviceId with
     | Some clientFromPool =>
         let* result := callTool w clientFromPool toolName arguments_ in
         ret (Success result)
     | None =>
         ret (Failure ("No active connection for service " ++ serviceId
              ++ ". Please test connection first or use the stateless callMCPToolWithConfig function."))
     end)
    (fun error => ret (Failure (messageOr error "Tool call failed"))).

(** [callMCPToolWithConfig] *)
Definition callMCPToolWithConfig (cfg : json) (toolName : string)
    (arguments_ : json) : M (ActionResult (list json * bool)) :=
  set_client_var None ;;
  try_finally
    (try_catch
       (let* c := newClient cfg in
        set_client_var (Some c) ;;
        connect w c ;;
        let* result := callTool w c toolName arguments_ in
        ret (Success result))
       (fun error => ret (Failure (messageOr error "Tool call failed"))))
    finally_disconnect.

(** [listMCPTools]: with a configuration, a fresh connection; without
    one, the pooled connection of the service. *)
Definition listMCPTools (serviceId : string) (cfg : option json)
  : M (ActionResult (list RemoteTool)) :=
  set_client_var None ;;
  try_finally
    (try_catch
       (let fallback :=
          let* s := get in
          match clientPool s !! serviceId with
          | None =>
              ret (Failure ("No configuration provided and no active connection for service "
                            ++ serviceId))
          | Some poolClient =>
              let* tools := listTools w poolClient in
              ret (Success tools)
          end in
        match cfg with
        | Some cf =>
            if truthy cf then
              let* missing := urlMissing cf in
              if missing then ret (Failure "URL is required for HTTP transport")
              else
                let* url := prop cf "url" in
                if negb (URL_ok w url)
                then ret (Failure ("Invalid URL format: " ++ toString_opt url))
                else
                  let* c := newClient cf in
                  set_client_var (Some c) ;;
                  connect w c ;;
                  let* tools := listTools w c in
                  ret (Success tools)
            else fallback
        | None => fallback
        end)
       (fun error => ret (Failure (messageOr error "List tools failed"))))
    finally_disconnect.

(** [getMCPPrompt]: not converted, answers with an error. *)
Definition getMCPPrompt (serviceId promptName : string) (arguments_ : json)
  : M (ActionResult (option string * option (list json))) :=
  ret (Failure "getMCPPrompt not yet converted to stateless. Use getMCPPromptWithConfig instead.").

(** [getMCPPromptWithConfig] *)
Definition getMCPPromptWithConfig (cfg : json) (promptName : string)
    (arguments_ : json)
  : M (ActionResult (option string * option (list json))) :=
  set_client_var None ;;
  try_finally
    (try_catch
       (let* c := newClient cfg in
        set_client_var (Some c) ;;
        connect w c ;;
        let* result := getPrompt w c promptName arguments_ in
        ret (Success (p_description result, p_messages result)))
       (fun error => ret (Failure (messageOr error "Get prompt failed"))))
    finally_disconnect.

(** [listMCPPrompts] *)
Definition listMCPPrompts (serviceId : string) (cfg : option json)
  : M (ActionResult (list json)) :=
  set_client_var None ;;
  try_finally
    (try_catch
       (let fallback :=
          let* s := get in
          match clientPool s !! serviceId with
          | None =>
              ret (Failure ("No configuration provided and no active connection for service "
                            ++ serviceId))
          | Some poolClient =>
              let* prompts := listPrompts w poolClient in
              ret (Success prompts)
          end in
        match cfg with
        | Some cf =>
            if truthy cf then
              let* missing := urlMissing cf in
              if missing then ret (Failure "URL is required for HTTP transport")
              else
                let* c := newClient cf in
                set_client_var (Some c) ;;
                connect w c ;;
                let* prompts := listPrompts w c in
                ret (Success prompts)
            else fallback
        | None => fallback
        end)
       (fun error => ret (Failure (messageOr error "List prompts failed"))))
    finally_disconnect.

(** [readMCPResource]: not converted, answers with an error. *)
Definition readMCPResource (serviceId uri : string)
  : M (ActionResult (list json)) :=
  ret (Failure "readMCPResource not yet converted to stateless. Use readMCPResourceWithConfig instead.").

(** [readMCPResourceWithConfig] *)
Definition readMCPResourceWithConfig (cfg : json) (uri : string)
  : M (ActionResult (list json)) :=
  set_client_var None ;;
  try_finally
    (try_catch
       (let* c := newClient cfg in
        set_client_var (Some c) ;;
        connect w c ;;
        let* result := readResource w c uri in
        ret (Success (rr_contents result)))
       (fun error => ret (Failure (messageOr error "Read resource failed"))))
    finally_disconnect.

(** [listMCPResources] *)
Definition listMCPResources (serviceId : string) (cfg : option json)
  : M (ActionResult (list json)) :=
  set_client_var None ;;
  try_finally
    (try_catch
       (let fallback :=
          let* s := get in
          match clientPool s !! serviceId with
          | None =>
              ret (Failure ("No configuration provided and no active connection for service "
                            ++ serviceId))
          | Some poolClient =>
              let* resources := listResources w poolClient in
              ret (Success resources)
          end in
        match cfg with
        | Some cf =>
            if truthy cf then
              let* missing := urlMissing cf in
              if missing then ret (Failure "URL is required for HTTP transport")
              else
                let* c := newClient cf in
                set_client_var (Some c) ;;
                connect w c ;;
                let* resources := listResources w c in
                ret (Success resources)
            else fallback
        | None => fallback
        end)
       (fun error => ret (Failure (messageOr error "List resources failed"))))
    finally_disconnect.

End WithWorld.
End Actions.

(** ** The client side wrappers (utils/mcp-client-hooks.ts)

    Each wrapper loads the configuration of the service from the storage and
    calls the action with it. *)

Module Hooks.
Import Js Json Monad StorageTs.
Local Open Scope js_scope.

Section WithWorld.
Context (w : World) (window : Window).

Definition noConfiguration {A} (serviceId : string) : ActionResult A :=
  Failure ("No configuration found for service " ++ serviceId
           ++ ". Please configure the service first.").

(** [const config = loadServiceConfig(serviceId); if (!config) ...] *)
Definition withConfig {A} (serviceId : string)
    (action : json -> M (ActionResult A)) : M (ActionResult A) :=
  match loadServiceConfig window serviceId with
  | Some cfg =>
      if truthy cfg then action cfg else ret (noConfiguration serviceId)
  | None => ret (noConfiguration serviceId)
  end.

Definition testMCPConnection (cfg : json) := Actions.testMCPConnection w cfg.

Definition connectToMCPServer (serviceId : string) (cfg : json) :=
  Actions.connectToMCPServer w serviceId cfg.

Definition disconnectFromMCPServer (serviceId : string) :=
  Actions.disconnectFromMCPServer w serviceId.

Definition callMCPTool (serviceId toolName : string) (arguments_ : json) :=
  withConfig serviceId
    (fun cfg => Actions.callMCPToolWithConfig w cfg toolName arguments_).

Definition listMCPTools (serviceId : string) :=
  withConfig serviceId
    (fun cfg => Actions.listMCPTools w serviceId (Some cfg)).

Definition getMCPPrompt (serviceId promptName : string) (arguments_ : json) :=
  withConfig serviceId
    (fun cfg => Actions.getMCPPromptWithConfig w cfg promptName arguments_).

Definition listMCPPrompts (serviceId : string) :=
  withConfig serviceId
    (fun cfg => Actions.listMCPPrompts w serviceId (Some cfg)).

Definition readMCPResource (serviceId uri : string) :=
  withConfig serviceId
    (fun cfg => Actions.readMCPResourceWithConfig w cfg uri).

Definition listMCPResources (serviceId : string) :=
  withConfig serviceId
    (fun cfg => Actions.listMCPResources w serviceId (Some cfg)).

End WithWorld.
End Hooks.

(** ** Schema translation and the registry (tool-registry.ts) *)

Module Registry.
Import Js Json StorageTs.

(** [zodType.describe(description)] under [if (propSchema.description)] *)
Definition describeIf (description : option json) (z : ZodType) : ZodType :=
  match description with
  | Some text => if truthy text then ZDescribed z text else z
  | None => z
  end.

(** The body of the loop of [convertToZodSchema] for one property. *)
Definition zodField (required : list string) (key : string)
    (propSchema : json) : Res ZodType :=
  (let* ty := ResM.prop propSchema "type" in
   let* description := ResM.prop propSchema "description" in
   let zodType :=
     if eqStr ty "string" then describeIf description ZString
     else if eqStr ty "number" then describeIf description ZNumber
     else if eqStr ty "boolean" then describeIf description ZBoolean
     else if eqStr ty "array" then describeIf description (ZArray ZUnknown)
     else describeIf description ZUnknown in
   Val (if negb (bool_decide (key ∈ required)) then ZOptional zodType
        else zodType))%res.

(** [convertToZodSchema] *)
Definition convertToZodSchema (inputSchema : option InputSchema)
  : Res ZodObject :=
  match inputSchema with
  | None => Val ∅
  | Some schema =>
      if negb (String.eqb (type schema) "object") then Val ∅
      else
        let properties := default ∅ (properties schema) in
        let required := default [] (required schema) in
        map_fold
          (fun key prop (acc : Res ZodObject) =>
             (let* zodFields := acc in
              let* zodType := zodField required key prop in
              Val (setProperty key zodType zodFields))%res)
          (Val ∅) properties
  end.

(** The body of the loop of [convertToJsonSchema] for one property. *)
Definition jsonField (propSchema : json) : Res JsonProperty :=
  (let* ty := ResM.prop propSchema "type" in
   let* description := ResM.prop propSchema "description" in
   Val (if eqStr ty "string" then
          {| jp_type := "string"; jp_items := None;
             jp_description := description |}
        else if eqStr ty "number" then
          {| jp_type := "number"; jp_items := None;
             jp_description := description |}
        else if eqStr ty "boolean" then
          {| jp_type := "boolean"; jp_items := None;
             jp_description := description |}
        else if eqStr ty "array" then
          {| jp_type := "array"; jp_items := Some "string";
             jp_description := description |}
        else
          {| jp_type := "string"; jp_items := None;       (* default to string *)
             jp_description := description |}))%res.

Definition emptyJsonSchema : JsonSchema :=
  {| js_type := "object"; js_properties := ∅; js_required := [] |}.

(** [convertToJsonSchema] *)
Definition convertToJsonSchema (inputSchema : option InputSchema)
  : Res JsonSchema :=
  match inputSchema with
  | None => Val emptyJsonSchema
  | Some schema =>
      if negb (String.eqb (type schema) "object") then Val emptyJsonSchema
      else
        let properties := default ∅ (properties schema) in
        let required := default [] (required schema) in
        (let* jsonProperties :=
           map_fold
             (fun key prop (acc : Res (gmap string JsonProperty)) =>
                let* jsonProperties := acc in
                let* p := jsonField prop in
                Val (setProperty key p jsonProperties))
             (Val ∅) properties in
         Val {| js_type := "object"; js_properties := jsonProperties;
                js_required := required |})%res
  end.

(** [convertToAISDKTool] *)
Definition convertToAISDKTool (mcpTool : MCPToolDefinition) : Res AISDKTool :=
  (let* parameters := convertToZodSchema (inputSchema mcpTool) in
   let* jsonSchema := convertToJsonSchema (inputSchema mcpTool) in
   let riskLevel := Risk.determineToolRiskLevel (name mcpTool) in
   Val {| ai_name := name mcpTool;
          ai_description :=
            match description mcpTool with
            | Some d => if Js.truthy d then d else "MCP tool"
            | None => "MCP tool"
            end;
          parameters := parameters;
          jsonSchema := jsonSchema;
          ai_serviceId := serviceId mcpTool;
          riskLevel := riskLevel |})%res.

(** [ToolRegistryState]; the time stamp [lastUpdated] is left out. *)
Record ToolRegistryState := {
  tools : list MCPToolDefinition;
  aiTools : list AISDKTool;
  isLoading : bool;
  error : option string;
}.

Definition initialState : ToolRegistryState :=
  {| tools := []; aiTools := []; isLoading := false; error := None |}.

(** The predicate of the filter: [toolSelection[toolId] ?? true]. *)
Definition isSelected (toolSelection : json) (tool : MCPToolDefinition)
  : Res bool :=
  selectedIn toolSelection (toolId (serviceId tool) (name tool)).

(** The selection filter and the conversion of [refreshTools]. *)
Definition selectTools (toolSelection : json)
    (allTools : list MCPToolDefinition) : Res (list AISDKTool) :=
  (let* selected := ResM.filter (isSelected toolSelection) allTools in
   ResM.map convertToAISDKTool selected)%res.

Section WithWorld.
Context (w : World) (window : Window).
Import Monad.
Local Open Scope js_scope.

(** The cast of one listed tool, tagged with its service. *)
Definition asDefinition (sid : string) (t : RemoteTool) : MCPToolDefinition :=
  {| name := t_name t; description := t_description t; serviceId := sid;
     inputSchema := t_inputSchema t |}.

(** The body of the loop over the service ids. *)
Definition fetchService (allTools : list MCPToolDefinition) (sid : string)
  : M (list MCPToolDefinition) :=
  match loadServiceConfig window sid with
  | None => ret allTools                           (* continue *)
  | Some cfg =>
      if negb (truthy cfg) then ret allTools       (* continue *)
      else
        try_catch
          (let* result := Hooks.listMCPTools w window sid in
           match result with
           | Success tools =>
               ret (allTools ++ List.map (asDefinition sid) tools)%list
           | Failure _ => ret allTools
           end)
          (fun _ => ret allTools)                  (* console.warn *)
  end.

Fixpoint fetchAll (allTools : list MCPToolDefinition)
    (serviceIds : list string) : M (list MCPToolDefinition) :=
  match serviceIds with
  | [] => ret allTools
  | sid :: rest =>
      let* allTools' := fetchService allTools sid in
      fetchAll allTools' rest
  end.

(** [refreshTools]: the registry state it publishes, from the state
    [prev] it found. *)
Definition refreshTools (prev : ToolRegistryState) : M ToolRegistryState :=
  try_catch
    (let serviceIds := getServiceIds window in
     let* allTools := fetchAll [] serviceIds in
     let toolSelection := loadToolSelection window in
     let* aiTools := lift (selectTools toolSelection allTools) in
     ret {| tools := allTools; aiTools := aiTools; isLoading := false;
            error := None |})
    (fun error =>
       ret {| tools := tools prev; aiTools := aiTools prev;
              isLoading := false;
              error := Some (messageOr error "Failed to load tools") |}).

(** [getToolByName] *)
Definition getToolByName (state : ToolRegistryState) (n : string)
  : option AISDKTool :=
  List.find (fun tool => String.eqb (ai_name tool) n) (aiTools state).

(** [getToolsByService] *)
Definition getToolsByService (state : ToolRegistryState) (sid : string)
  : list AISDKTool :=
  List.filter (fun tool => String.eqb (ai_serviceId tool) sid) (aiTools state).

(** The [execute] closure of an [AISDKTool]. *)
Definition execute (tool : AISDKTool) (args : json) : M (list json) :=
  let* result := Hooks.callMCPTool w window (ai_serviceId tool) (ai_name tool) args in
  match result with
  | Success (content, _) => ret content
  | Failure e =>
      throw (Error (if Js.truthy e then e else "Tool execution failed"))
  end.

End WithWorld.
End Registry.

(** ** The permission gate (utils/tool-permissions.ts, types/chat-types.ts) *)

Inductive ToolCallStatus :=
| pending | approved | denied | executing | completed | errored.

(** [ToolCall]; the result, error and time stamp fields are left out. *)
Record ToolCall := {
tc_id : string;
tc_name : string;
tc_arguments : json;
tc_serviceId : string;
tc_status : ToolCallStatus;
}.

(** [ToolPermissionRequest].  Its callbacks [onApprove] and [onDeny] are the
    functions of the same name below, applied to the request. *)
Record ToolPermissionRequest := {
toolCall : ToolCall;
toolDescription : option string;
pr_riskLevel : RiskLevel;
}.

(** [PermissionState] *)
Record PermissionState := {
pendingRequests : list ToolPermissionRequest;
approvedTools : gset string;
deniedTools : gset string;
sessionPermissions : gmap string bool;
}.

Module Permissions.
Import Js.

Definition initialState : PermissionState :=
  {| pendingRequests := []; approvedTools := ∅; deniedTools := ∅;
     sessionPermissions := ∅ |}.

(** [determineRiskLevel] *)
Definition determineRiskLevel (toolCall : ToolCall) : RiskLevel :=
  let name := tc_name toolCall in
  if includes name "delete" ||
     includes name "remove" ||
     includes name "destroy" ||
     includes name "create" ||
     includes name "update" ||
     includes name "modify"
  then high
  else
  if includes name "write" ||
     includes name "send" ||
     includes name "execute" ||
     includes name "run" ||
     includes name "upload"
  then medium
  else low.

(** [new Map(prev.sessionPermissions).set(name, b)] *)
Definition remember (name : string) (b : bool) (st : PermissionState)
  : PermissionState :=
  {| pendingRequests := pendingRequests st;
     approvedTools := approvedTools st;
     deniedTools := deniedTools st;
     sessionPermissions := <[name := b]> (sessionPermissions st) |}.

(** [requestPermission].  The function is made by [useCallback] at a
    render and reads the session permissions and the two lists from the
    state of that render, [captured]; it resolves the promise from what it
    reads there.  What it writes, it writes through
    [setState(prev => ...)], to the state [prev] the update meets.  The
    result is the state after the update and the value the promise has
    resolved to, [None] while it waits for the user.  For the instance
    of the latest render, called before anything else happens,
    [captured] and [prev] are the same state. *)
Definition requestPermission (captured : PermissionState)
    (toolCall : ToolCall) (toolDescription : option string)
    (prev : PermissionState) : PermissionState * option bool :=
  match sessionPermissions captured !! tc_name toolCall with
  | Some sessionPermission => (prev, Some sessionPermission)
  | None =>
      if bool_decide (tc_name toolCall ∈ approvedTools captured) then
        (remember (tc_name toolCall) true prev, Some true)
      else if bool_decide (tc_name toolCall ∈ deniedTools captured) then
        (remember (tc_name toolCall) false prev, Some false)
      else
        let riskLevel := determineRiskLevel toolCall in
        let request :=
          {| toolCall := toolCall; toolDescription := toolDescription;
             pr_riskLevel := riskLevel |} in
        ({| pendingRequests := (pendingRequests prev ++ [request])%list;
            approvedTools := approvedTools prev;
            deniedTools := deniedTools prev;
            sessionPermissions := sessionPermissions prev |}, None)
  end.

(** The state update shared by [onApprove] and [onDeny]. *)
Definition settle (request : ToolPermissionRequest) (b : bool)
    (st : PermissionState) : PermissionState :=
  {| pendingRequests :=
       List.filter
         (fun r => negb (String.eqb (tc_id (toolCall r))
                                    (tc_id (toolCall request))))
         (pendingRequests st);
     approvedTools := approvedTools st;
     deniedTools := deniedTools st;
     sessionPermissions :=
       <[tc_name (toolCall request) := b]> (sessionPermissions st) |}.

(** [onApprove] of a request: the new state; the promise resolves to
    [true]. *)
Definition onApprove (request : ToolPermissionRequest) (st : PermissionState)
  : PermissionState * bool := (settle request true st, true).

(** [onDeny] of a request: the new state; the promise resolves to
    [false]. *)
Definition onDeny (request : ToolPermissionRequest) (st : PermissionState)
  : PermissionState * bool := (settle request false st, false).

(** [setAutoApprove] *)
Definition setAutoApprove (toolName : string) (approve : bool)
    (st : PermissionState) : PermissionState :=
  let newApproved :=
    if approve then {[toolName]} ∪ approvedTools st
    else approvedTools st ∖ {[toolName]} in
  let newDenied :=
    if approve then deniedTools st ∖ {[toolName]}
    else {[toolName]} ∪ deniedTools st in
  {| pendingRequests := pendingRequests st;
     approvedTools := newApproved;
     deniedTools := newDenied;
     sessionPermissions := sessionPermissions st |}.

(** [clearSessionPermissions] *)
Definition clearSessionPermissions (st : PermissionState) : PermissionState :=
  {| pendingRequests := [];
     approvedTools := approvedTools st;
     deniedTools := deniedTools st;
     sessionPermissions := ∅ |}.

(** What can happen to the gate during a session. *)
Inductive Action :=
| ARequest (captured : PermissionState) (toolCall : ToolCall)
    (toolDescription : option string)
| AApprove (request : ToolPermissionRequest)
| ADeny (request : ToolPermissionRequest)
| ASetAutoApprove (toolName : string) (approve : bool)
| AClear.

Definition step (st : PermissionState) (a : Action) : PermissionState :=
  match a with
  | ARequest captured tc d => fst (requestPermission captured tc d st)
  | AApprove r => fst (onApprove r st)
  | ADeny r => fst (onDeny r st)
  | ASetAutoApprove n b => setAutoApprove n b st
  | AClear => clearSessionPermissions st
  end.

Definition run (st : PermissionState) (actions : list Action)
  : PermissionState := fold_left step actions st.


End Permissions.

(** ** Summaries (actions/summarize.ts) *)

Module Summarize.
Import Js Monad.
Local Open Scope js_scope.

Section WithWorld.
Context (w : World).

(** [getModelProvider(model)] as far as the action is concerned: it returns
    or throws. *)
Definition getModelProvider (model : ChatModel) : M unit :=
  match provider_fails w model with
  | Some e => throw e
  | None => ret tt
  end.

(** [summarizeToolResult].  The prompts are built from the fields of the
    parameter; the model sees them all. *)
Definition summarizeToolResult (params : SummarizeToolResultParams)
  : M (ActionResult string) :=
  try_catch
    (getModelProvider (sp_model params) ;;
     let* t := tick in
     let* text :=
       match generateText w t params with
       | inr text => emit (EvGenerateText true) ;; ret text
       | inl e => emit (EvGenerateText false) ;; throw e
       end in
     ret (Success (trim text)))
    (fun error =>
       ret (Failure (messageOr error "Unknown error during summarization"))).

End WithWorld.
End Summarize.

(** ** The invocation coordinator (utils/use-chat.ts) *)

(** An entry of [toolsForAI], the manifest sent with a chat request. *)
Record ToolForAI := {
tf_name : string;
tf_description : string;
tf_parameters : JsonSchema;
tf_serviceId : string;
}.

(** A tool call proposed by the model. *)
Record ModelToolCall := {
toolCallId : string;
toolName : string;
args : json;
}.

(** What [onToolCall] returns to the conversation: [{ error }], or
    [{ result, summary, rawResult }] where the last two may be missing. *)
Inductive ToolCallReturn :=
| RetError (error : string)
| RetResult (result : list json) (summary : option string)
    (rawResult : option (list json)).

(** What [handleSubmit] does. *)
Inductive SubmitOutcome :=
| ToastWarning (message : string)            (* toast.warning, no request *)
| Submitted (model : ChatModel) (tools : list ToolForAI).
                                             (* chat.handleSubmit(e) *)

Module UseChat.
Import Js Json Monad.
Local Open Scope js_scope.

Definition MAX_TOOLS_PER_REQUEST : nat := 30.

(** [toolsForAI] *)
Definition toolsForAI (aiTools : list AISDKTool) : list ToolForAI :=
  map (fun tool =>
         {| tf_name := ai_name tool;
            tf_description := ai_description tool;
            tf_parameters := jsonSchema tool;
            tf_serviceId := ai_serviceId tool |})
      aiTools.

(** [handleSubmit] *)
Definition handleSubmit (initialModel : ChatModel) (aiTools : list AISDKTool)
  : SubmitOutcome :=
  let tools := toolsForAI aiTools in
  if (MAX_TOOLS_PER_REQUEST <? length tools)%nat then
    ToastWarning
      ("Tool limit exceeded: " ++ ofNat (length tools)
       ++ " tools available, but only " ++ ofNat MAX_TOOLS_PER_REQUEST
       ++ " tools can be used per request. Please disable some tools in Available Actions.")
  else Submitted initialModel tools.

Section WithWorld.
Context (w : World).

(** The closure of the hook: the tools of the registry, the service
    configurations loaded when the hook was mounted, the messages of the
    conversation (their contents) and the model. *)
Context (aiTools : list AISDKTool).
Context (serviceConfigs : gmap string json).
Context (messages : list string).
Context (initialModel : ChatModel).

(** [lastMessage?.content || ''] *)
Definition lastContent : string :=
  match last (A := string) messages with
  | Some content => content
  | None => ""
  end.

(** [onToolCall] *)
Definition onToolCall (tc : ModelToolCall) : M ToolCallReturn :=
  match List.find (fun t => String.eqb (ai_name t) (toolName tc)) aiTools with
  | None => ret (RetError "Tool not found")
  | Some tool =>
      match serviceConfigs !! ai_serviceId tool with
      | None => ret (RetError "Service configuration not found")
      | Some serviceConfig =>
          if negb (truthy serviceConfig)
          then ret (RetError "Service configuration not found")
          else
            try_catch
              (let* result :=
                 Actions.callMCPToolWithConfig w serviceConfig (toolName tc)
                                               (args tc) in
               match result with
               | Success (content, _) =>
                   let originalQuestion := lastContent in
                   let* summaryResult :=
                     Summarize.summarizeToolResult w
                       {| originalQuestion := originalQuestion;
                          sp_toolName := toolName tc;
                          toolArgs := args tc;
                          rawResult := content;
                          sp_model := initialModel |} in
                   match summaryResult with
                   | Success summary =>
                       if Js.truthy summary
                       then ret (RetResult content (Some summary) (Some content))
                       else ret (RetResult content None None)
                   | Failure _ => ret (RetResult content None None)
                   end
               | Failure e => ret (RetError e)
               end)
              (fun error => ret (RetError (messageOr error "Unknown error")))
      end
  end.

End WithWorld.
End UseChat.

(** ** The chat route (api/chat/route.ts): the tool table of the server *)

(** An entry of the object [aiTools] the route hands to the model. *)
Record ServerTool := {
st_description : string;
st_parameters : ZodObject;
}.

Module Route.
Import Js Json.

(** The first loop of [jsonSchemaToZod] for one property. *)
Definition shapeOf (prop : JsonProperty) : ZodType :=
  let base :=
    if String.eqb (jp_type prop) "string" then ZOptional ZString
    else if String.eqb (jp_type prop) "number" then ZOptional ZNumber
    else if String.eqb (jp_type prop) "boolean" then ZOptional ZBoolean
    else if String.eqb (jp_type prop) "array" then ZOptional (ZArray ZAny)
    else ZOptional ZAny in
  match jp_description prop with
  | Some (JStr text) =>
      if Js.truthy text then ZDescribed base (JStr text) else base
  | _ => base
  end.

(** [schema instanceof z.ZodOptional ? schema.unwrap() : schema]: a
    description sits on the optional wrapper and goes with it. *)
Definition unwrapOptional (schema : ZodType) : ZodType :=
  match schema with
  | ZOptional inner => inner
  | ZDescribed (ZOptional inner) _ => inner
  | _ => schema
  end.

(** [jsonSchemaToZod] *)
Definition jsonSchemaToZod (schema : JsonSchema) : ZodObject :=
  if String.eqb (js_type schema) "object" then
    let shape := shapeOf <$> js_properties schema in
    map_imap
      (fun key zod =>
         Some (if bool_decide (key ∈ js_required schema)
               then unwrapOptional zod else zod))
      shape
  else ∅.

(** [Object.fromEntries(entries)]: a later entry overwrites an earlier one
    with the same key. *)
Definition fromEntries {A} (entries : list (string * A)) : gmap string A :=
  fold_left (fun acc kv => <[fst kv := snd kv]> acc) entries ∅.

(** The object [aiTools] of [POST]. *)
Definition aiTools (tools : list ToolForAI) : gmap string ServerTool :=
  fromEntries
    (map (fun tool =>
            (tf_name tool,
             {| st_description := tf_description tool;
                st_parameters := jsonSchemaToZod (tf_parameters tool) |}))
         tools).

End Route.

(** ** Sample inputs used by the examples and witnesses *)

(** A tool call with a given name. *)
Definition callNamed (n : string) : ToolCall :=
  {| tc_id := "call-1"; tc_name := n; tc_arguments := JObj [];
     tc_serviceId := "github"; tc_status := pending |}.

(** A registered tool without parameters. *)
Definition sampleTool (n : string) : AISDKTool :=
  {| ai_name := n; ai_description := "MCP tool"; parameters := ∅;
     jsonSchema := Registry.emptyJsonSchema; ai_serviceId := "github";
     riskLevel := low |}.


(** A configuration of a service, as [saveServiceConfig] stores it. *)
Definition sampleConfig : json :=
  JObj [("url", JStr "https://mcp.example.com/mcp");
        ("bearerToken", JStr "secret")].

(** The storage after one service was configured and [delete_repo] was
    switched off. *)
Definition sampleStore : Storage :=
  [("mcp-client-github", SJson sampleConfig);
   ("mcp-client-tool-selection",
    SJson (StorageTs.selection_json [("github:delete_repo", false)]))].

(** The tool of scenarios A and B. *)
Definition delete_repo : RemoteTool :=
  {| t_name := "delete_repo"; t_description := Some "Delete a repository";
     t_inputSchema :=
       Some {| type := "object";
               properties := Some {[ "repo" := JObj [("type", JStr "string")] ]};
               required := Some ["repo"] |} |}.

(** A world in which the server is reachable, lists [delete_repo], answers
    every call, and the model writes a summary. *)
Definition sampleWorld : World :=
  {| URL_ok := fun _ => true;
     sdk_connect := fun _ _ => None;
     sdk_close := fun _ => None;
     sdk_listTools := fun _ => inr (Some [delete_repo]);
     sdk_callTool := fun _ _ _ =>
       inr {| r_content := Some (JArr [JStr "done"]); r_isError := Some (JBool false) |};
     sdk_listPrompts := fun _ => inr (Some []);
     sdk_getPrompt := fun _ _ _ =>
       inr {| p_description := None; p_messages := None |};
     sdk_listResources := fun _ => inr (Some []);
     sdk_readResource := fun _ _ => inr {| rr_contents := [] |};
     provider_fails := fun _ => None;
     generateText := fun _ _ => inr "The repository was deleted." |}.

(** The server before anything has happened. *)
Definition sampleSys : Sys :=
  {| clock := 0; clients := []; clientPool := ∅; client_var := None;
     trace := [] |}.


(** ** Vocabulary of the statements about schemas and selections *)

(** The type a Zod schema checks, under its [optional] and [describe]
    wrappers. *)
Fixpoint stripped (z : ZodType) : ZodType :=
  match z with
  | ZOptional inner => stripped inner
  | ZDescribed inner _ => stripped inner
  | _ => z
  end.

(** The schema admits a missing value. *)
Fixpoint isOptional (z : ZodType) : bool :=
  match z with
  | ZOptional _ => true
  | ZDescribed inner _ => isOptional inner
  | _ => false
  end.

(** The description a schema carries; [optional()] hands the description
    of the schema it wraps on to the wrapper. *)
Fixpoint descriptionOf (z : ZodType) : option json :=
  match z with
  | ZDescribed _ text => Some text
  | ZOptional inner => descriptionOf inner
  | _ => None
  end.

(** The description [describe] is called with: the declared one when it
    is truthy. *)
Definition truthyDescription (p : json) : option json :=
  match Json.field p "description" with
  | Some text => if Json.truthy text then Some text else None
  | None => None
  end.

(** The declared type is one of the four the translation knows. *)
Definition recognized (ty : option json) : bool :=
  Json.eqStr ty "string" || Json.eqStr ty "number" || Json.eqStr ty "boolean"
  || Json.eqStr ty "array".

(** No property schema of the descriptor is null. *)
Definition nonNullProperties (schema : InputSchema) : Prop :=
  forall key p, default ∅ (properties schema) !! key = Some p -> p <> JNull.



(** The parameter schema of [delete_repo]. *)
Definition repoSchema : InputSchema :=
  {| type := "object";
     properties := Some {[ "repo" := JObj [("type", JStr "string")] ]};
     required := Some ["repo"] |}.

(** A parameter schema with the single property [count]. *)
Definition schemaWith (propSchema : json) : InputSchema :=
  {| type := "object";
     properties := Some {[ "count" := propSchema ]};
     required := None |}.


(** Two tools of the service [github], as the registry holds them. *)
Definition toolDeleteRepo : MCPToolDefinition :=
  {| name := "delete_repo"; description := Some "Delete a repository";
     serviceId := "github"; inputSchema := Some repoSchema |}.

Definition toolListRepos : MCPToolDefinition :=
  {| name := "list_repos"; description := None; serviceId := "github";
     inputSchema := None |}.


(** ** Vocabulary of the statement about the permission cache *)


(** The pending request the gate creates for a call. *)
Definition requestFor (tc : ToolCall) : ToolPermissionRequest :=
  {| toolCall := tc; toolDescription := None;
     pr_riskLevel := Permissions.determineRiskLevel tc |}.


(** ** Sample inputs for duplicate tool names *)

(** Two configured services. *)
Definition twoServicesStore : Storage :=
  [("mcp-client-github", SJson sampleConfig);
   ("mcp-client-gitlab",
    SJson (JObj [("url", JStr "https://gitlab.example.com/mcp")]))].

(** A world in which the server asked first and the server asked second
    both list a tool called [delete_repo], with different descriptions. *)
Definition twoServicesWorld : World :=
  {| URL_ok := fun _ => true;
     sdk_connect := fun _ _ => None;
     sdk_close := fun _ => None;
     sdk_listTools := fun t =>
       inr (Some [{| t_name := "delete_repo";
                     t_description :=
                       Some (if (t <? 3)%nat then "Delete a GitHub repository"
                             else "Delete a GitLab project");
                     t_inputSchema := None |}]);
     sdk_callTool := fun _ _ _ =>
       inr {| r_content := Some (JArr [JStr "done"]); r_isError := None |};
     sdk_listPrompts := fun _ => inr None;
     sdk_getPrompt := fun _ _ _ =>
       inr {| p_description := None; p_messages := None |};
     sdk_listResources := fun _ => inr None;
     sdk_readResource := fun _ _ => inr {| rr_contents := [] |};
     provider_fails := fun _ => None;
     generateText := fun _ _ => inr "Done." |}.

(** The entry of the server side tool table made from a registered tool. *)
Definition serverEntry (tool : AISDKTool) : ServerTool :=
  {| st_description := ai_description tool;
     st_parameters := Route.jsonSchemaToZod (jsonSchema tool) |}.

(** The registered tools called [n], in the order of the registry. *)
Definition named (n : string) (l : list AISDKTool) : list AISDKTool :=
  List.filter (fun tool => String.eqb (ai_name tool) n) l.


(** The tool [delete_repo] listed by two services, and the registry state
    made from them with nothing switched off. *)
Definition dupTools : list MCPToolDefinition :=
  [{| name := "delete_repo"; description := Some "Delete a GitHub repository";
      serviceId := "github"; inputSchema := None |};
   {| name := "delete_repo"; description := Some "Delete a GitLab project";
      serviceId := "gitlab"; inputSchema := None |}].

Definition dupState : Registry.ToolRegistryState :=
  {| Registry.tools := dupTools;
     Registry.aiTools :=
       match Registry.selectTools (JObj []) dupTools with
       | Val aiTools => aiTools
       | Thrown _ => []
       end;
     Registry.isLoading := false;
     Registry.error := None |}.


(** ** Vocabulary of the statements about connections *)

(** The public operations of the client side ([useMCPService], without
    [connect] and [disconnect], which manage the pool). *)
Inductive HookCall :=
| HTestConnection (cfg : json)
| HCallTool (serviceId toolName : string) (arguments_ : json)
| HListTools (serviceId : string)
| HGetPrompt (serviceId promptName : string) (arguments_ : json)
| HListPrompts (serviceId : string)
| HReadResource (serviceId uri : string)
| HListResources (serviceId : string).

(** [success] of a result object. *)
Definition succeeded {A} (r : ActionResult A) : bool :=
  match r with Success _ => true | Failure _ => false end.

(** An operation run for its effects on the server. *)
Definition runHook (w : World) (window : Window) (h : HookCall) : M bool :=
  match h with
  | HTestConnection cfg =>
      Monad.bind (Hooks.testMCPConnection w cfg) (fun r => Monad.ret (succeeded r))
  | HCallTool sid n a =>
      Monad.bind (Hooks.callMCPTool w window sid n a) (fun r => Monad.ret (succeeded r))
  | HListTools sid =>
      Monad.bind (Hooks.listMCPTools w window sid) (fun r => Monad.ret (succeeded r))
  | HGetPrompt sid n a =>
      Monad.bind (Hooks.getMCPPrompt w window sid n a) (fun r => Monad.ret (succeeded r))
  | HListPrompts sid =>
      Monad.bind (Hooks.listMCPPrompts w window sid) (fun r => Monad.ret (succeeded r))
  | HReadResource sid uri =>
      Monad.bind (Hooks.readMCPResource w window sid uri) (fun r => Monad.ret (succeeded r))
  | HListResources sid =>
      Monad.bind (Hooks.listMCPResources w window sid) (fun r => Monad.ret (succeeded r))
  end.

(** The events of an operation that keeps to the discipline, on the
    client [c]: nothing when no client was created; else the creation, the
    connection attempt if the transport could be built, one request if the
    connection came up, and the disconnection in every case. *)
Definition scopedUse (c : nat) (evs : list Event) : Prop :=
  evs = [] \/
  evs = [EvNew c; EvDisconnect c] \/
  evs = [EvNew c; EvConnect c false; EvDisconnect c] \/
  exists r ok closed,
    evs = [EvNew c; EvConnect c true; EvRequest c r ok;
           EvDisconnect c; EvClose c closed].

Definition isRequestOn (c : nat) (e : Event) : bool :=
  match e with EvRequest c' _ _ => (c =? c')%nat | _ => false end.

Definition isDisconnectOf (c : nat) (e : Event) : bool :=
  match e with EvDisconnect c' => (c =? c')%nat | _ => false end.

(** Every connection that came up is disconnected later. *)
Fixpoint disconnectedLater (tr : list Event) : bool :=
  match tr with
  | [] => true
  | EvConnect c true :: rest =>
      existsb (isDisconnectOf c) rest && disconnectedLater rest
  | _ :: rest => disconnectedLater rest
  end.

(** No client carries more than one request. *)
Definition oneRequestEach (tr : list Event) : bool :=
  forallb
    (fun e =>
       match e with
       | EvNew c => (length (List.filter (isRequestOn c) tr) <=? 1)%nat
       | _ => true
       end)
    tr.

(** The discipline of the specification, read on a trace. *)
Definition singleUse (tr : list Event) : bool :=
  disconnectedLater tr && oneRequestEach tr.


(** A method of the client that, on a connected client, sends one request:
    it returns or throws, and in both cases the clock has advanced by one
    and the request is the one new event. *)
Definition requestLike {A} (op : nat -> M A) : Prop :=
  forall (cfg : json) (clk : nat) (cs : list Client) (pool : gmap string nat)
         (cv : option nat) (tr : list Event),
    let c := length cs in
    let cls := (cs ++ [{| config := cfg; isConnected := true |}])%list in
    exists r,
      (exists a,
         op c (Build_Sys clk cls pool cv tr)
         = (Val a, Build_Sys (S clk) cls pool cv (tr ++ [EvRequest c r true])%list))
      \/
      (exists e,
         op c (Build_Sys clk cls pool cv tr)
         = (Thrown e, Build_Sys (S clk) cls pool cv (tr ++ [EvRequest c r false])%list)).


(** An operation that keeps to the discipline from every state: it returns
    (it does not throw), the events it adds are those of one scoped use of
    a client created by it, and the pool is as before. *)
Definition scoped {A} (m : M A) : Prop :=
  forall s : Sys,
    exists (r : A) (s' : Sys) (evs : list Event),
      m s = (Val r, s') /\
      trace s' = (trace s ++ evs)%list /\
      clientPool s' = clientPool s /\
      scopedUse (length (clients s)) evs.


(** ** Sample inputs for the invocation coordinator *)

(** [delete_repo] as the registry publishes it. *)
Definition registeredDeleteRepo : AISDKTool :=
  {| ai_name := "delete_repo"; ai_description := "Delete a repository";
     parameters := {[ "repo" := ZString ]};
     jsonSchema :=
       {| js_type := "object";
          js_properties :=
            {[ "repo" := {| jp_type := "string"; jp_items := None;
                            jp_description := None |} ]};
          js_required := ["repo"] |};
     ai_serviceId := "github"; riskLevel := high |}.

(** The call the model proposes. *)
Definition proposedCall : ModelToolCall :=
  {| toolCallId := "call-1"; toolName := "delete_repo";
     args := JObj [("repo", JStr "octocat/hello")] |}.

(** The same call as the permission gate would be asked about it. *)
Definition proposedToolCall : ToolCall :=
  {| tc_id := "call-1"; tc_name := "delete_repo";
     tc_arguments := JObj [("repo", JStr "octocat/hello")];
     tc_serviceId := "github"; tc_status := pending |}.

(** The sample world with a model that fails when asked for a summary. *)
Definition noSummaryWorld : World :=
  {| URL_ok := URL_ok sampleWorld;
     sdk_connect := sdk_connect sampleWorld;
     sdk_close := sdk_close sampleWorld;
     sdk_listTools := sdk_listTools sampleWorld;
     sdk_callTool := sdk_callTool sampleWorld;
     sdk_listPrompts := sdk_listPrompts sampleWorld;
     sdk_getPrompt := sdk_getPrompt sampleWorld;
     sdk_listResources := sdk_listResources sampleWorld;
     sdk_readResource := sdk_readResource sampleWorld;
     provider_fails := provider_fails sampleWorld;
     generateText := fun _ _ => inl (Error "model overloaded") |}.

(** The parameter [onToolCall] hands to [summarizeToolResult]. *)
Definition summaryParams (messages : list string) (model : ChatModel)
    (tc : ModelToolCall) (content : list json) : SummarizeToolResultParams :=
  {| originalQuestion := UseChat.lastContent messages;
     sp_toolName := toolName tc;
     toolArgs := args tc;
     rawResult := content;
     sp_model := model |}.


(** ** Vocabulary of the statements about the store *)

(** The service id [getServiceIds] makes of a stored item, and the test it
    applies to the key. *)
Definition idOfKey (kv : string * Stored) : string :=
  Js.replace (fst kv) (StorageTs.STORAGE_PREFIX ++ "-") "".

Definition hasPrefix (kv : string * Stored) : bool :=
  Js.truthy (fst kv) && Js.startsWith (fst kv) StorageTs.STORAGE_PREFIX.


(** ** Sample worlds for the pooled actions *)

(** The sample world with a server that accepts the connection and then
    rejects the listing of its tools. *)
Definition brokenListingWorld : World :=
  {| URL_ok := URL_ok sampleWorld;
     sdk_connect := sdk_connect sampleWorld;
     sdk_close := sdk_close sampleWorld;
     sdk_listTools := fun _ => inl (Error "Method not found");
     sdk_callTool := sdk_callTool sampleWorld;
     sdk_listPrompts := sdk_listPrompts sampleWorld;
     sdk_getPrompt := sdk_getPrompt sampleWorld;
     sdk_listResources := sdk_listResources sampleWorld;
     sdk_readResource := sdk_readResource sampleWorld;
     provider_fails := provider_fails sampleWorld;
     generateText := generateText sampleWorld |}.

(** The sample world with a server that cannot be reached. *)
Definition unreachableWorld : World :=
  {| URL_ok := URL_ok sampleWorld;
     sdk_connect := fun _ _ => Some (Error "Failed to fetch");
     sdk_close := sdk_close sampleWorld;
     sdk_listTools := sdk_listTools sampleWorld;
     sdk_callTool := sdk_callTool sampleWorld;
     sdk_listPrompts := sdk_listPrompts sampleWorld;
     sdk_getPrompt := sdk_getPrompt sampleWorld;
     sdk_listResources := sdk_listResources sampleWorld;
     sdk_readResource := sdk_readResource sampleWorld;
     provider_fails := provider_fails sampleWorld;
     generateText := generateText sampleWorld |}.

(** The server after [github] was connected through the pool. *)
Definition pooledSys : Sys :=
  {| clock := 2;
     clients := [{| config := sampleConfig; isConnected := true |}];
     clientPool := {[ "github" := 0 ]};
     client_var := None;
     trace := [EvNew 0; EvConnect 0 true; EvRequest 0 ReqListTools true] |}.



(** ** Vocabulary of the statements about the schemas of the server *)

(** The description a Zod schema carries. *)
Definition describedBy (z : ZodType) : option json :=
  match z with
  | ZDescribed _ text => Some text
  | _ => None
  end.

(** The Zod type the chat route builds for a declared type. *)
Definition serverType (ty : string) : ZodType :=
  if String.eqb ty "string" then ZString
  else if String.eqb ty "number" then ZNumber
  else if String.eqb ty "boolean" then ZBoolean
  else if String.eqb ty "array" then ZArray ZAny
  else ZAny.



(** ** Vocabulary of the statements about the registry's loop *)




(** ** Sample inputs for a descriptor with a null property schema *)

(** The error of reading [type] from a null property schema. *)
Definition nullPropertyError : Exn :=
  Error "Cannot read properties of null (reading 'type')".

(** A tool one of whose property schemas is [null]. *)
Definition brokenTool : RemoteTool :=
  {| t_name := "list_repos"; t_description := None;
     t_inputSchema :=
       Some {| type := "object";
               properties := Some {[ "owner" := JNull ]};
               required := None |} |}.

(** The sample world with a server that lists [delete_repo] and the tool
    with the null property schema. *)
Definition nullSchemaWorld : World :=
  {| URL_ok := URL_ok sampleWorld;
     sdk_connect := sdk_connect sampleWorld;
     sdk_close := sdk_close sampleWorld;
     sdk_listTools := fun _ => inr (Some [delete_repo; brokenTool]);
     sdk_callTool := sdk_callTool sampleWorld;
     sdk_listPrompts := sdk_listPrompts sampleWorld;
     sdk_getPrompt := sdk_getPrompt sampleWorld;
     sdk_listResources := sdk_listResources sampleWorld;
     sdk_readResource := sdk_readResource sampleWorld;
     provider_fails := provider_fails sampleWorld;
     generateText := generateText sampleWorld |}.



(** ** Ranking the tools for a message (utils/tool-filter.ts) *)

(** The keys of [TOOL_CATEGORIES]. *)
Inductive Category := essential | creation | modification | destructive.

Module ToolFilter.
Import Js.
Local Open Scope Z_scope.

Definition MAX_TOOLS_PER_REQUEST : nat := 15.

(** [TOOL_CATEGORIES] *)
Definition TOOL_CATEGORIES (category : Category) : list string :=
  match category with
  | essential => ["search"; "get"; "list"; "read"; "view"; "show"; "find"]
  | creation => ["create"; "add"; "new"; "make"; "generate"; "build"]
  | modification => ["update"; "edit"; "modify"; "change"; "set"; "configure"]
  | destructive => ["delete"; "remove"; "destroy"; "drop"; "clear"]
  end.

Definition isCategory (a b : Category) : bool :=
  match a, b with
  | essential, essential | creation, creation
  | modification, modification | destructive, destructive => true
  | _, _ => false
  end.

(** [s.split(/\s+/)]: the pieces between the runs of white space; a run
    at the start or at the end gives an empty piece.  [inRun] tells that
    the character before was white space, [skip] counts the bytes of a
    white space character that are still to be passed. *)
Fixpoint splitFrom (skip : nat) (inRun : bool) (s : string) : list string :=
  match s with
  | EmptyString => [EmptyString]
  | String c rest =>
      match skip with
      | S k => splitFrom k true rest
      | O =>
          match wsLen s with
          | S k =>
              if inRun then splitFrom k true rest
              else EmptyString :: splitFrom k true rest
          | O =>
              match splitFrom 0 false rest with
              | piece :: pieces => String c piece :: pieces
              | [] => [String c EmptyString]
              end
          end
      end
  end.

Definition splitWhitespace (s : string) : list string :=
  splitFrom 0 false s.

(** One step of a stable sort with the comparator
    [(a, b) => b.score - a.score]: [x] goes before the first item whose
    score is not higher.  [x] stood before the items of [sorted]. *)
Fixpoint insertByScore (x : AISDKTool * Z) (sorted : list (AISDKTool * Z))
  : list (AISDKTool * Z) :=
  match sorted with
  | [] => [x]
  | y :: rest =>
      if snd y <=? snd x then x :: sorted else y :: insertByScore x rest
  end.

(** [scoredTools.sort((a, b) => b.score - a.score)]; the sort of an array
    is stable. *)
Definition sortByScore (scoredTools : list (AISDKTool * Z))
  : list (AISDKTool * Z) :=
  fold_right insertByScore [] scoredTools.

Section LowerCase.

(** [String.prototype.toLowerCase], the case mapping of Unicode.  The
    words of the categories contain a [k], which is also the lower case
    of the Kelvin sign U+212A, and the words of a message are compared
    with names in any script: the functions below take the mapping as it
    is, and what is proved of them holds whatever it does. *)
Context (toLowerCase : string -> string).

(** [analyzeMessageIntent] *)
Definition analyzeMessageIntent (message : string) : list Category :=
  let lowerMessage := toLowerCase message in
  let relevantCategories :=
    ((if includes lowerMessage "show" || includes lowerMessage "get" ||
         includes lowerMessage "list" || includes lowerMessage "find" ||
         includes lowerMessage "search" || includes lowerMessage "what"
      then [essential] else []) ++
     (if includes lowerMessage "create" || includes lowerMessage "make" ||
         includes lowerMessage "add" || includes lowerMessage "new" ||
         includes lowerMessage "generate" || includes lowerMessage "build"
      then [creation] else []) ++
     (if includes lowerMessage "update" || includes lowerMessage "edit" ||
         includes lowerMessage "modify" || includes lowerMessage "change" ||
         includes lowerMessage "fix" || includes lowerMessage "configure"
      then [modification] else []) ++
     (if includes lowerMessage "delete" || includes lowerMessage "remove" ||
         includes lowerMessage "destroy" || includes lowerMessage "clear"
      then [destructive] else []))%list in
  match relevantCategories with
  | [] => [essential]
  | _ => relevantCategories
  end.

(** [scoreToolRelevance].  The words of the categories are ASCII, so for
    them [includes] on the bytes is [includes] on the code units; a word
    of the message is looked for by code units, and its [length] is the
    number of its code units. *)
Definition scoreToolRelevance (tool : AISDKTool) (message : string)
    (relevantCategories : list Category) : Z :=
  let toolName := toLowerCase (ai_name tool) in
  let toolDescription := toLowerCase (ai_description tool) in
  let messageWords := splitWhitespace (toLowerCase message) in
  let score := 0 in
  (* base score for category matching, once per category *)
  let score :=
    fold_left
      (fun score category =>
         if existsb
              (fun word => includes toolName word
                           || includes toolDescription word)
              (TOOL_CATEGORIES category)
         then score + 10 else score)
      relevantCategories score in
  (* bonus for the words of the message *)
  let score :=
    fold_left
      (fun score word =>
         if (3 <? utf16Length word)%nat then
           let score :=
             if includesUnits toolName word then score + 5 else score in
           if includesUnits toolDescription word then score + 3 else score
         else score)
      messageWords score in
  (* bonus for essential tools *)
  let score :=
    fold_left
      (fun score word => if includes toolName word then score + 2 else score)
      (TOOL_CATEGORIES essential) score in
  (* penalty for risky tools *)
  match riskLevel tool with
  | high =>
      if negb (existsb (isCategory destructive) relevantCategories)
      then score - 5 else score
  | _ => score
  end.

(** [filterToolsForMessage] *)
Definition filterToolsForMessage (tools : list AISDKTool) (message : string)
    (maxTools : nat) : list AISDKTool :=
  if (length tools <=? maxTools)%nat then tools
  else
    let relevantCategories := analyzeMessageIntent message in
    let scoredTools :=
      map (fun tool =>
             (tool, scoreToolRelevance tool message relevantCategories))
          tools in
    map fst (firstn maxTools (sortByScore scoredTools)).

(** [getEssentialTools] *)
Definition getEssentialTools (tools : list AISDKTool) (maxTools : nat)
  : list AISDKTool :=
  let essentialWords := TOOL_CATEGORIES essential in
  let essentialTools :=
    List.filter
      (fun tool =>
         let toolName := toLowerCase (ai_name tool) in
         existsb (fun word => includes toolName word) essentialWords
         || match riskLevel tool with low => true | _ => false end)
      tools in
  firstn maxTools essentialTools.

End LowerCase.

End ToolFilter.

(** The score [filterToolsForMessage] gives a tool for a message. *)
Definition scoreFor (toLowerCase : string -> string) (message : string)
    (tool : AISDKTool) : Z :=
  ToolFilter.scoreToolRelevance toLowerCase tool message
    (ToolFilter.analyzeMessageIntent toLowerCase message).

(** The scores of the tools of a list for a message, as
    [filterToolsForMessage] pairs them. *)
Definition scoredFor (toLowerCase : string -> string) (message : string)
    (tools : list AISDKTool) : list (AISDKTool * Z) :=
  map (fun tool => (tool, scoreFor toLowerCase message tool)) tools.

(** What [convertToAISDKTool] makes of a tool of [github] that has a name
    and nothing else. *)
Definition plainTool (name : string) : AISDKTool :=
  {| ai_name := name; ai_description := "MCP tool";
     parameters := ∅;
     jsonSchema := {| js_type := "object"; js_properties := ∅;
                      js_required := [] |};
     ai_serviceId := "github";
     riskLevel := Risk.determineToolRiskLevel name |}.

(** The letter e with an acute accent, U+00E9, three times: three code
    units in six bytes. *)
Definition eAcute3 : string :=
  let e := fun rest => String (ascii_of_nat 195) (String (ascii_of_nat 169) rest)
  in e (e (e EmptyString)).

(** The no-break space U+00A0. *)
Definition nbsp : string :=
  String (ascii_of_nat 194) (String (ascii_of_nat 160) EmptyString).

(** A list of scored tools in which no item has a higher score than an
    item before it. *)
Fixpoint descending (l : list (AISDKTool * Z)) : Prop :=
  match l with
  | [] => True
  | x :: rest => Forall (fun y => (snd y <= snd x)%Z) rest /\ descending rest
  end.



(** ** The form that runs a tool by hand (components/tool-interface.tsx) *)





Module ToolForm.
Import Js Json Monad.



(** [handleParameterChange] *)
Definition handleParameterChange (paramName : string) (value : json)
    (parameterValues : list (string * json)) : list (string * json) :=
  assign paramName value parameterValues.



Section WithJs.
(** [Number(value)], and [JSON.parse(text)] with [None] for a
    SyntaxError. *)
Context (Number : json -> json) (JSON_parse : string -> option json).




Context (w : World) (window : Window) (serviceId : string).
Local Open Scope js_scope.


End WithJs.
End ToolForm.



(** ** Sample inputs for the form *)





(** ** The card of a tool invocation (components/chat-panel.tsx) *)

(** The properties [ChatPanel] passes to [ToolResponseCard]. *)
Record CardProps := {
  cp_rawResult : option json;
  cp_summary : option json;
  cp_status : string;
  cp_error : option string;
}.

Module ChatPanel.
Import Json.

(** [key in result] for a value whose [typeof] is ["object"] and that is
    truthy: an object has the key if it is among its fields; the arrays
    that occur have no key of the names asked for. *)
Definition hasKey (key : string) (result : json) : bool :=
  match result with
  | JObj fields => existsb (fun kv => String.eqb (fst kv) key) fields
  | _ => false
  end.

(** [result && typeof result === "object" && "raw" in result &&
    "summary" in result] *)
Definition isEnhanced (result : option json) : bool :=
  match result with
  | Some (JObj fields) =>
      hasKey "raw" (JObj fields) && hasKey "summary" (JObj fields)
  | _ => false
  end.

(** The body of [msg.toolInvocations.map]: [state] is
    [invocation.state], [result] is [invocation.result] when the
    invocation has one. *)
Definition toolCard (state : string) (result : option json) : CardProps :=
  let enhanced := isEnhanced result in
  {| cp_rawResult :=
       if enhanced then field (default JNull result) "raw" else result;
     cp_summary :=
       if enhanced then field (default JNull result) "summary" else None;
     cp_status :=
       if String.eqb state "partial-call" then "call"
       else if truthy_opt result then "result" else "error";
     cp_error :=
       if String.eqb state "partial-call" then None
       else if truthy_opt result then None
       else Some "No result received" |}.

(** The object [onToolCall] returns, which becomes the result of the
    invocation: [{ error }], [{ result }] or
    [{ result, summary, rawResult }]. *)
Definition returned (r : ToolCallReturn) : json :=
  match r with
  | RetError error => JObj [("error", JStr error)]
  | RetResult result summary rawResult =>
      JObj ([("result", JArr result)]
            ++ match summary with
               | Some text => [("summary", JStr text)]
               | None => []
               end
            ++ match rawResult with
               | Some raw => [("rawResult", JArr raw)]
               | None => []
               end)%list
  end.

End ChatPanel.



(** A second call of [delete_repo], with another id. *)
Definition secondToolCall : ToolCall :=
  {| tc_id := "call-2"; tc_name := "delete_repo";
     tc_arguments := JObj [("repo", JStr "octocat/spoon")];
     tc_serviceId := "github"; tc_status := pending |}.



(* ===================================================================== *)
(** * Part II: theorems                                                   *)
(* ===================================================================== *)

(** ** Strings *)

Section StringFacts.
Import Js.

Lemma append_cons (c : ascii) (p r : string) :
  String c p ++ r = String c (p ++ r).
Proof. reflexivity. Qed.

Lemma append_empty (r : string) : "" ++ r = r.
Proof. reflexivity. Qed.

Lemma prefix_split (p s : string) :
  String.prefix p s = true <-> exists r, s = p ++ r.
Proof.
  revert s. induction p as [|c p IH]; intros s.
  - split; [intros _; exists s; reflexivity | intros _; now destruct s].
  - destruct s as [|d s]; cbn [String.prefix].
    + split; [discriminate | intros [r Hr]; discriminate].
    + destruct (Ascii.ascii_dec c d) as [->|Hne].
      * rewrite IH. split; intros [r Hr]; exists r.
        -- now rewrite Hr.
        -- rewrite append_cons in Hr. now injection Hr.
      * split; [discriminate |].
        intros [r Hr]. rewrite append_cons in Hr. congruence.
Qed.

Lemma append_assoc (a b c : string) : (a ++ b) ++ c = a ++ (b ++ c).
Proof.
  induction a as [|x a IH]; [reflexivity|].
  now rewrite !append_cons, IH.
Qed.

(** [includes] is the substring relation. *)
Lemma includes_spec (s sub : string) :
  includes s sub = true <-> exists pre post, s = pre ++ sub ++ post.
Proof.
  induction s as [|c s IH]; cbn [includes]; rewrite orb_true_iff, prefix_split.
  - split.
    + intros [[r Hr]|Hf]; [|discriminate]. exists "", r. exact Hr.
    + intros (pre & post & H). left. exists post.
      destruct pre; [exact H | discriminate].
  - rewrite IH. split.
    + intros [[r Hr]|(pre & post & H)].
      * exists "", r. exact Hr.
      * exists (String c pre), post. now rewrite append_cons, H.
    + intros (pre & post & H). destruct pre as [|d pre].
      * left. exists post. exact H.
      * right. exists pre, post. rewrite append_cons in H. congruence.
Qed.

Lemma drop_append (p r : string) : drop (String.length p) (p ++ r) = r.
Proof.
  induction p as [|c p IH]; [now destruct r | exact IH].
Qed.

(** Replacing a pattern that sits at the start removes it. *)
Lemma replace_prefix (p r : string) : replace (p ++ r) p "" = r.
Proof.
  assert (H : String.prefix p (p ++ r) = true) by (apply prefix_split; eauto).
  destruct (p ++ r)%string eqn:E.
  - destruct p; [|discriminate]. rewrite append_empty in E. now subst r.
  - cbn [replace]. rewrite H, <- E, append_empty. apply drop_append.
Qed.

Lemma toLowerCase_idempotent (s : string) :
  toLowerCase (toLowerCase s) = toLowerCase s.
Proof.
  induction s as [|c s IH]; cbn; [reflexivity|]. rewrite IH. f_equal.
  unfold lower.
  destruct ((65 <=? nat_of_ascii c) && (nat_of_ascii c <=? 90))%nat eqn:E;
    [|now rewrite E].
  apply andb_true_iff in E as [E1 E2].
  apply Nat.leb_le in E1, E2.
  rewrite nat_ascii_embedding by lia.
  replace ((65 <=? nat_of_ascii c + 32) && (nat_of_ascii c + 32 <=? 90))%nat
    with false; [reflexivity|].
  symmetry. apply andb_false_iff. right. apply Nat.leb_gt. lia.
Qed.

End StringFacts.

(** ** Risk classification *)

Section RiskClassification.
Import Js Risk.

(** The classifier of the registry is the classifier of the specification:
    the chains of [||] are the two word lists. *)
Lemma determineToolRiskLevel_classify (toolName : string) :
  determineToolRiskLevel toolName = classify toolName.
Proof.
  unfold determineToolRiskLevel, classify, high_words, medium_words.
  cbn [existsb]. now rewrite !orb_false_r, !orb_assoc.
Qed.

Lemma existsb_includes (name : string) (words : list string) :
  existsb (includes name) words = true <->
  exists word pre post, In word words /\ name = pre ++ word ++ post.
Proof.
  rewrite existsb_exists. split.
  - intros (word & Hin & Hinc). apply includes_spec in Hinc as (pre & post & H).
    now exists word, pre, post.
  - intros (word & pre & post & Hin & H). exists word. split; [exact Hin|].
    apply includes_spec. now exists pre, post.
Qed.

(** High exactly when a high word occurs in the lowered name. *)
Lemma determineToolRiskLevel_high (toolName : string) :
  determineToolRiskLevel toolName = high <->
  exists word pre post,
    In word high_words /\ toLowerCase toolName = pre ++ word ++ post.
Proof.
  rewrite determineToolRiskLevel_classify, <- existsb_includes.
  unfold classify.
  destruct (existsb (includes (toLowerCase toolName)) high_words);
    [easy|].
  destruct (existsb (includes (toLowerCase toolName)) medium_words);
    split; discriminate.
Qed.

(** Medium exactly when no high word occurs and a medium word does. *)
Lemma determineToolRiskLevel_medium (toolName : string) :
  determineToolRiskLevel toolName = medium <->
  existsb (includes (toLowerCase toolName)) high_words = false /\
  exists word pre post,
    In word medium_words /\ toLowerCase toolName = pre ++ word ++ post.
Proof.
  rewrite determineToolRiskLevel_classify, <- existsb_includes.
  unfold classify.
  destruct (existsb (includes (toLowerCase toolName)) high_words);
    [split; [discriminate | intros [? _]; discriminate]|].
  destruct (existsb (includes (toLowerCase toolName)) medium_words);
    split; try easy; intros [_ ?]; discriminate.
Qed.

(** The registry classifier does not see the case of the letters. *)
Lemma determineToolRiskLevel_case_insensitive (a b : string) :
  toLowerCase a = toLowerCase b ->
  determineToolRiskLevel a = determineToolRiskLevel b.
Proof.
  intros H. unfold determineToolRiskLevel. now rewrite H.
Qed.

Lemma determineToolRiskLevel_lowered (toolName : string) :
  determineToolRiskLevel (toLowerCase toolName) = determineToolRiskLevel toolName.
Proof.
  apply determineToolRiskLevel_case_insensitive, toLowerCase_idempotent.
Qed.

(** Scenario A. *)
Example delete_repo_is_high : determineToolRiskLevel "delete_repo" = high.
Proof. reflexivity. Qed.

Example get_and_delete_cache_is_high :
  determineToolRiskLevel "get-and-delete-cache" = high.
Proof. reflexivity. Qed.

(** C4.  The classifier of the registry is the classifier of the claim on
    every name: a case-insensitive substring match against the high list,
    then the medium list, else low.  The classifier of the permission gate,
    which rates the same tools for the approval prompt, is not: it compares
    the name as it is written and knows neither the high words merge,
    close, approve nor the medium words post, put, patch, comment, assign.
    On the names below it disagrees with the claim and with the registry;
    on [delete_repo] all agree. *)
Theorem determineRiskLevel_diverges_from_registry :
  (forall toolName, determineToolRiskLevel toolName = classify toolName) /\
  classify "merge_pull_request" = high /\
  Permissions.determineRiskLevel (callNamed "merge_pull_request") = low /\
  classify "Delete_Repo" = high /\
  Permissions.determineRiskLevel (callNamed "Delete_Repo") = low /\
  classify "add_issue_comment" = medium /\
  Permissions.determineRiskLevel (callNamed "add_issue_comment") = low /\
  classify "delete_repo" = high /\
  Permissions.determineRiskLevel (callNamed "delete_repo") = high.
Proof.
  split; [exact determineToolRiskLevel_classify|].
  repeat split; reflexivity.
Qed.

End RiskClassification.

(** ** The tool limit of [handleSubmit] *)

Section ToolLimit.
Import UseChat.

Lemma toolsForAI_length (aiTools : list AISDKTool) :
  length (toolsForAI aiTools) = length aiTools.
Proof. unfold toolsForAI. apply length_map. Qed.

(** C6.  With more than 30 enabled tools [handleSubmit] sends nothing and
    shows the warning that names the count and the limit and asks to disable
    tools; with at most 30 it submits the request with the whole list, one
    entry per enabled tool in the same order. *)
Theorem handleSubmit_tool_limit (initialModel : ChatModel)
    (aiTools : list AISDKTool) :
  (30 < length aiTools ->
   handleSubmit initialModel aiTools =
     ToastWarning
       ("Tool limit exceeded: " ++ Js.ofNat (length aiTools)
        ++ " tools available, but only 30 tools can be used per request. Please disable some tools in Available Actions."))
  /\
  (length aiTools <= 30 ->
   handleSubmit initialModel aiTools = Submitted initialModel (toolsForAI aiTools)
   /\ map tf_name (toolsForAI aiTools) = map ai_name aiTools).
Proof.
  unfold handleSubmit. rewrite toolsForAI_length. split; intros H.
  - replace (MAX_TOOLS_PER_REQUEST <? length aiTools)%nat with true
      by (symmetry; apply Nat.ltb_lt; exact H).
    reflexivity.
  - replace (MAX_TOOLS_PER_REQUEST <? length aiTools)%nat with false
      by (symmetry; apply Nat.ltb_ge; exact H).
    split; [reflexivity|].
    unfold toolsForAI. rewrite map_map. reflexivity.
Qed.

(** Scenario D and the boundary: 31 tools are refused, 30 are sent. *)
Lemma handleSubmit_tool_limit_witness :
  (exists message,
     handleSubmit gemini (repeat (sampleTool "search") 31) = ToastWarning message)
  /\ handleSubmit gemini (repeat (sampleTool "search") 30)
     = Submitted gemini (toolsForAI (repeat (sampleTool "search") 30)).
Proof.
  split.
  - eexists.
    apply (proj1 (handleSubmit_tool_limit gemini (repeat (sampleTool "search") 31))).
    rewrite repeat_length. lia.
  - apply (proj2 (handleSubmit_tool_limit gemini (repeat (sampleTool "search") 30))).
    rewrite repeat_length. lia.
Defined.

End ToolLimit.

(** ** The configuration store and the key of the tool selection *)

Section StoreFacts.
Import Js Json StorageTs.

Lemma assoc_In {A} (k : string) (v : A) (l : list (string * A)) :
  assoc k l = Some v -> In (k, v) l.
Proof.
  induction l as [|[k' v'] l IH]; cbn; [discriminate|].
  destruct (String.eqb k k') eqn:E.
  - apply String.eqb_eq in E. intros [= ->]. left. now subst.
  - intros H. right. now apply IH.
Qed.

Lemma assoc_selection (k : string) (sel : ToolSelectionState) :
  assoc k (map (fun kv => (fst kv, JBool (snd kv))) sel)
  = JBool <$> assoc k sel.
Proof.
  induction sel as [|[k' b] sel IH]; cbn; [reflexivity|].
  now destruct (String.eqb k k').
Qed.

Lemma getServiceIds_fold (ls : Storage) (acc : list string) :
  fold_left
    (fun (serviceIds : list string) (kv : string * Stored) =>
       let key := fst kv in
       if Js.truthy key && startsWith key STORAGE_PREFIX then
         let serviceId := replace key (STORAGE_PREFIX ++ "-") "" in
         (serviceIds ++ [serviceId])%list
       else serviceIds)
    ls acc
  = (acc ++ map idOfKey (List.filter hasPrefix ls))%list.
Proof.
  revert acc. induction ls as [|kv ls IH]; intros acc; cbn [fold_left List.filter].
  - cbn. now rewrite app_nil_r.
  - rewrite IH. unfold hasPrefix at 2. cbn zeta.
    destruct (Js.truthy (fst kv) && startsWith (fst kv) STORAGE_PREFIX);
      [|reflexivity].
    cbn [map]. now rewrite <- app_assoc.
Qed.

Lemma getServiceIds_filter (ls : Storage) :
  getServiceIds (Some ls) = map idOfKey (List.filter hasPrefix ls).
Proof. unfold getServiceIds. now rewrite getServiceIds_fold. Qed.

(** A key that starts with [mcp-client-] and gives the id [tool-selection]
    is the key of the tool selection. *)
Lemma id_tool_selection_key (key : string) :
  startsWith key (STORAGE_PREFIX ++ "-") = true ->
  replace key (STORAGE_PREFIX ++ "-") "" = "tool-selection" ->
  key = TOOL_SELECTION_KEY.
Proof.
  intros Hp Hr. apply prefix_split in Hp as [r ->].
  rewrite replace_prefix in Hr. now subst r.
Qed.

Lemma getAllServiceConfigs_fold (ls : Storage) :
  getAllServiceConfigs (Some ls) = fold_left (getAll_step (Some ls)) ls ∅.
Proof. reflexivity. Qed.

(** Once an id is bound to the configuration stored for it, the loop keeps
    the binding: a later write to the id writes the same value. *)
Lemma getAll_step_keeps (window : Window) (sid : string) (v : json)
    (configs : gmap string json) (kv : string * Stored) :
  loadServiceConfig window sid = Some v ->
  configs !! sid = Some v ->
  getAll_step window configs kv !! sid = Some v.
Proof.
  intros Hload Hc. unfold getAll_step. cbn zeta.
  destruct (Js.truthy (fst kv) && startsWith (fst kv) STORAGE_PREFIX);
    [|exact Hc].
  destruct (loadServiceConfig window (replace (fst kv) (STORAGE_PREFIX ++ "-") ""))
    as [config|] eqn:E; [|exact Hc].
  destruct (truthy config); [|exact Hc].
  destruct (decide (replace (fst kv) (STORAGE_PREFIX ++ "-") "" = sid)) as [Heq|Hne].
  - rewrite Heq in *. rewrite lookup_insert_eq. congruence.
  - now rewrite lookup_insert_ne.
Qed.

Lemma getAll_fold_keeps (window : Window) (sid : string) (v : json)
    (ls : Storage) (configs : gmap string json) :
  loadServiceConfig window sid = Some v ->
  configs !! sid = Some v ->
  fold_left (getAll_step window) ls configs !! sid = Some v.
Proof.
  intros Hload. revert configs.
  induction ls as [|kv ls IH]; intros configs Hc; cbn [fold_left]; [exact Hc|].
  apply IH. now apply getAll_step_keeps.
Qed.

Lemma getAll_fold_binds (window : Window) (key : string) (v : json)
    (ls : Storage) (configs : gmap string json) :
  (exists stored, In (key, stored) ls) ->
  Js.truthy key && startsWith key STORAGE_PREFIX = true ->
  loadServiceConfig window (replace key (STORAGE_PREFIX ++ "-") "") = Some v ->
  truthy v = true ->
  fold_left (getAll_step window) ls configs
    !! replace key (STORAGE_PREFIX ++ "-") "" = Some v.
Proof.
  intros [stored Hin] Hkey Hload Hv. revert configs.
  induction ls as [|kv ls IH]; intros configs; [destruct Hin|].
  cbn [fold_left]. destruct Hin as [->|Hin]; [|now apply IH].
  apply getAll_fold_keeps; [exact Hload|].
  unfold getAll_step. cbn [fst]. cbn zeta.
  rewrite Hkey, Hload, Hv. apply lookup_insert_eq.
Qed.

(** The loop of [loadAllServiceConfigs] never binds the id
    [tool-selection]. *)
Lemma loadAll_step_skips (ls : Storage) (configs : gmap string json)
    (kv : string * Stored) :
  configs !! "tool-selection" = None ->
  match loadAll_step ls (Some configs) kv with
  | Some configs' => configs' !! "tool-selection" = None
  | None => True
  end.
Proof.
  intros Hc. unfold loadAll_step. cbn zeta.
  destruct (Js.truthy (fst kv)); cbn [andb]; [|exact Hc].
  destruct (startsWith (fst kv) (STORAGE_PREFIX ++ "-")) eqn:Hp;
    cbn [andb]; [|exact Hc].
  destruct (includes (fst kv) "-tool-selection") eqn:Hi; cbn [negb]; [exact Hc|].
  destruct (getItem ls (fst kv)) as [stored|]; [|exact Hc].
  destruct stored as [| |v]; cbn [parseStored]; [exact Hc|exact I|].
  rewrite lookup_insert_ne; [exact Hc|].
  intros Heq. apply id_tool_selection_key in Heq; [|exact Hp].
  rewrite Heq in Hi. discriminate.
Qed.

Lemma loadAll_fold_skips (ls items : Storage) (acc : option (gmap string json)) :
  match acc with
  | Some configs => configs !! "tool-selection" = None
  | None => True
  end ->
  match fold_left (loadAll_step ls) items acc with
  | Some configs => configs !! "tool-selection" = None
  | None => True
  end.
Proof.
  revert acc. induction items as [|kv items IH]; intros acc Hacc;
    cbn [fold_left]; [exact Hacc|].
  apply IH. destruct acc as [configs|]; [|exact I].
  now apply loadAll_step_skips.
Qed.

Lemma loadAllServiceConfigs_skips (window : Window) :
  loadAllServiceConfigs window !! "tool-selection" = None.
Proof.
  destruct window as [ls|]; cbn; [|apply lookup_empty].
  pose proof (loadAll_fold_skips ls ls (Some ∅) (lookup_empty _)) as H.
  destruct (fold_left (loadAll_step ls) ls (Some ∅)); [exact H|].
  apply lookup_empty.
Qed.

End StoreFacts.

Section ToolSelectionAsService.
Import Js Json StorageTs Monad.

(** Listing the tools of a "service" whose configuration is a tool
    selection fails before any client is created. *)
Lemma listMCPTools_of_selection (w : World) (sid : string)
    (sel : ToolSelectionState) (s : Sys) :
  exists error,
    Actions.listMCPTools w sid (Some (selection_json sel)) s
    = (Val (Failure error),
       {| clock := clock s; clients := clients s; clientPool := clientPool s;
          client_var := None; trace := trace s |}).
Proof.
  unfold Actions.listMCPTools, Actions.urlMissing, Actions.finally_disconnect,
    McpTs.prop, Monad.bind, set_client_var, try_finally, try_catch, get, ret,
    throw, selection_json.
  cbn. rewrite assoc_selection.
  destruct (assoc "url" sel) as [[|]|]; cbn; eexists; reflexivity.
Qed.

Lemma loadServiceConfig_selection (ls : Storage) (sel : ToolSelectionState) :
  getItem ls TOOL_SELECTION_KEY = Some (SJson (selection_json sel)) ->
  loadServiceConfig (Some ls) "tool-selection" = Some (selection_json sel).
Proof.
  intros H. unfold loadServiceConfig.
  change (getStorageKey "tool-selection") with TOOL_SELECTION_KEY.
  now rewrite H.
Qed.

Lemma assoc_assign {A} (k : string) (v : A) (l : list (string * A)) :
  assoc k (assign k v l) = Some v.
Proof.
  induction l as [|[k' v'] l IH]; cbn.
  - now rewrite String.eqb_refl.
  - destruct (String.eqb k k') eqn:E; cbn; rewrite ?String.eqb_refl, ?E;
      [reflexivity | exact IH].
Qed.

(** What [saveToolSelection] writes is what the premise of the next
    theorem asks for. *)
Lemma saveToolSelection_stored (ls : Storage) (sel : ToolSelectionState) :
  exists ls',
    saveToolSelection (Some ls) (selection_json sel) = Some ls' /\
    getItem ls' TOOL_SELECTION_KEY = Some (SJson (selection_json sel)).
Proof.
  eexists. split; [reflexivity|]. apply assoc_assign.
Qed.

(** Switching [delete_repo] off in a store that holds the configuration of
    [github] gives the sample store. *)
Example setToolSelection_sample :
  setToolSelection (Some [("mcp-client-github", SJson sampleConfig)])
    "github" "delete_repo" false
  = Some sampleStore.
Proof. reflexivity. Qed.

(** C10.  Once a tool selection has been saved, its storage key is taken
    for the configuration of a service called [tool-selection]:
    [getServiceIds] lists that id and [getAllServiceConfigs] binds it to the
    selection object, while [loadAllServiceConfigs] never binds it, so the
    two functions return different mappings; the registry asks for the tools
    of that id and the listing fails without creating a client, leaving the
    tools collected so far as they were. *)
Theorem tool_selection_key_listed_as_service (w : World) (ls : Storage)
    (sel : ToolSelectionState) (s : Sys) (acc : list MCPToolDefinition) :
  getItem ls TOOL_SELECTION_KEY = Some (SJson (selection_json sel)) ->
  In "tool-selection" (getServiceIds (Some ls)) /\
  getAllServiceConfigs (Some ls) !! "tool-selection" = Some (selection_json sel) /\
  loadAllServiceConfigs (Some ls) !! "tool-selection" = None /\
  getAllServiceConfigs (Some ls) <> loadAllServiceConfigs (Some ls) /\
  (exists error s',
     Hooks.listMCPTools w (Some ls) "tool-selection" s = (Val (Failure error), s')
     /\ trace s' = trace s /\ clients s' = clients s) /\
  (exists s',
     Registry.fetchService w (Some ls) acc "tool-selection" s = (Val acc, s')
     /\ trace s' = trace s /\ clients s' = clients s).
Proof.
  intros Hsel.
  pose proof (loadServiceConfig_selection ls sel Hsel) as Hload.
  pose proof (assoc_In _ _ _ Hsel) as Hin.
  assert (Hall : getAllServiceConfigs (Some ls) !! "tool-selection"
                 = Some (selection_json sel)).
  { rewrite getAllServiceConfigs_fold.
    apply (getAll_fold_binds (Some ls) TOOL_SELECTION_KEY); eauto. }
  destruct (listMCPTools_of_selection w "tool-selection" sel s) as [error Hlist].
  repeat split.
  - rewrite getServiceIds_filter.
    change "tool-selection" with (idOfKey (TOOL_SELECTION_KEY, SJson (selection_json sel))).
    apply in_map, filter_In. split; [exact Hin | reflexivity].
  - exact Hall.
  - apply loadAllServiceConfigs_skips.
  - intros Heq. rewrite Heq, loadAllServiceConfigs_skips in Hall. discriminate.
  - exists error. eexists. unfold Hooks.listMCPTools, Hooks.withConfig.
    rewrite Hload. cbn [truthy selection_json]. rewrite Hlist.
    repeat split; reflexivity.
  - eexists. unfold Registry.fetchService.
    rewrite Hload. cbn [truthy selection_json negb].
    unfold try_catch, bind, Hooks.listMCPTools, Hooks.withConfig.
    rewrite Hload. cbn [truthy selection_json]. rewrite Hlist.
    repeat split; reflexivity.
Qed.

(** A store with one service and a saved selection. *)
Lemma tool_selection_key_listed_as_service_witness :
  getServiceIds (Some sampleStore) = ["github"; "tool-selection"] /\
  In "tool-selection" (getServiceIds (Some sampleStore)).
Proof.
  split; [reflexivity|].
  apply (tool_selection_key_listed_as_service sampleWorld sampleStore
           [("github:delete_repo", false)] sampleSys []).
  reflexivity.
Defined.

End ToolSelectionAsService.

(** ** Schema translation *)

Section SchemaTranslation.
Import Json Registry.

Lemma prop_nonnull (p : json) (k : string) :
  p <> JNull -> ResM.prop p k = Val (field p k).
Proof. destruct p; [congruence | reflexivity..]. Qed.

Lemma stripped_describeIf (d : option json) (z : ZodType) :
  stripped (describeIf d z) = stripped z.
Proof. destruct d as [text|]; cbn; [destruct (truthy text)|]; reflexivity. Qed.

Lemma isOptional_describeIf (d : option json) (z : ZodType) :
  isOptional (describeIf d z) = isOptional z.
Proof. destruct d as [text|]; cbn; [destruct (truthy text)|]; reflexivity. Qed.

(** Case analysis on the declared type: it is one of the four names, or
    none of them. *)
Lemma declared_cases (ty : option json) :
  ty = Some (JStr "string") \/ ty = Some (JStr "number") \/
  ty = Some (JStr "boolean") \/ ty = Some (JStr "array") \/
  recognized ty = false.
Proof.
  unfold recognized, eqStr.
  destruct ty as [[| | |t| |]|]; try (repeat right; reflexivity).
  destruct (String.eqb_spec t "string") as [->|]; [now left|].
  destruct (String.eqb_spec t "number") as [->|]; [now right; left|].
  destruct (String.eqb_spec t "boolean") as [->|]; [now right; right; left|].
  destruct (String.eqb_spec t "array") as [->|]; [now right; right; right; left|].
  repeat right. reflexivity.
Qed.

Lemma recognized_false (ty : option json) :
  recognized ty = false ->
  eqStr ty "string" = false /\ eqStr ty "number" = false /\
  eqStr ty "boolean" = false /\ eqStr ty "array" = false.
Proof.
  unfold recognized. intros H.
  apply orb_false_iff in H as [H H4]. apply orb_false_iff in H as [H H3].
  apply orb_false_iff in H as [H1 H2]. auto.
Qed.

(** One property of the validation schema. *)
Lemma zodField_nonnull (required : list string) (key : string) (p : json) :
  p <> JNull ->
  exists z,
    zodField required key p = Val z /\
    isOptional z = negb (bool_decide (key ∈ required)) /\
    (field p "type" = Some (JStr "string") -> stripped z = ZString) /\
    (field p "type" = Some (JStr "number") -> stripped z = ZNumber) /\
    (field p "type" = Some (JStr "boolean") -> stripped z = ZBoolean) /\
    (field p "type" = Some (JStr "array") -> stripped z = ZArray ZUnknown) /\
    (recognized (field p "type") = false -> stripped z = ZUnknown).
Proof.
  intros Hp. unfold zodField. rewrite !prop_nonnull by exact Hp.
  cbn [ResM.bind]. eexists. split; [reflexivity|]. split.
  - destruct (bool_decide (key ∈ required)); cbn [negb isOptional];
      [|reflexivity].
    repeat match goal with
           | |- context [if ?b then _ else _] => destruct b
           end; apply isOptional_describeIf.
  - assert (Hs : forall z, stripped (if negb (bool_decide (key ∈ required))
                                     then ZOptional z else z) = stripped z)
      by (intros z; now destruct (bool_decide (key ∈ required))).
    rewrite Hs. repeat match goal with |- (_ -> _) /\ _ => split end;
      intros Hty.
    1-4: rewrite Hty; cbn; apply stripped_describeIf.
    apply recognized_false in Hty as (-> & -> & -> & ->).
    apply stripped_describeIf.
Qed.

(** One property of the model facing schema. *)
Lemma jsonField_nonnull (p : json) :
  p <> JNull ->
  exists jp,
    jsonField p = Val jp /\
    jp_description jp = field p "description" /\
    (field p "type" = Some (JStr "string") ->
     jp_type jp = "string" /\ jp_items jp = None) /\
    (field p "type" = Some (JStr "number") ->
     jp_type jp = "number" /\ jp_items jp = None) /\
    (field p "type" = Some (JStr "boolean") ->
     jp_type jp = "boolean" /\ jp_items jp = None) /\
    (field p "type" = Some (JStr "array") ->
     jp_type jp = "array" /\ jp_items jp = Some "string") /\
    (recognized (field p "type") = false ->
     jp_type jp = "string" /\ jp_items jp = None).
Proof.
  intros Hp. unfold jsonField. rewrite !prop_nonnull by exact Hp.
  cbn [ResM.bind]. eexists. split; [reflexivity|]. split.
  - repeat match goal with
           | |- context [if ?b then _ else _] => destruct b
           end; reflexivity.
  - repeat match goal with |- (_ -> _) /\ _ => split end; intros Hty;
      try (rewrite Hty; split; reflexivity);
      apply recognized_false in Hty as (-> & -> & -> & ->); split; reflexivity.
Qed.

(** The description of a property of the validation schema. *)
Lemma zodField_description (required : list string) (key : string) (p : json)
    (z : ZodType) :
  p <> JNull ->
  zodField required key p = Val z ->
  descriptionOf z = truthyDescription p.
Proof.
  intros Hp. unfold zodField, truthyDescription.
  rewrite !prop_nonnull by exact Hp. cbn [ResM.bind]. intros [= <-].
  assert (Hd : forall base,
             descriptionOf base = None ->
             descriptionOf (describeIf (field p "description") base)
             = match field p "description" with
               | Some text => if truthy text then Some text else None
               | None => None
               end).
  { intros base Hb. unfold describeIf.
    destruct (field p "description") as [text|]; [|exact Hb].
    destruct (truthy text); [reflexivity | exact Hb]. }
  destruct (negb (bool_decide (key ∈ required))); cbn [descriptionOf];
    repeat match goal with
           | |- context [if ?b then _ else _] => destruct b
           end; apply Hd; reflexivity.
Qed.

Lemma setProperty_lookup {B} (i key : string) (b : B) (out : gmap string B) :
  setProperty i b out !! key
  = if String.eqb i "__proto__" then out !! key else <[i := b]> out !! key.
Proof. unfold setProperty. now destruct (String.eqb i "__proto__"). Qed.

(** The loops over [Object.entries(properties)]: when the body succeeds on
    every property, the loop succeeds and has one entry per property,
    except for a property named [__proto__], which it loses. *)
Lemma fold_properties {B} (f : string -> json -> Res B)
    (props : gmap string json) :
  (forall key p, props !! key = Some p -> exists b, f key p = Val b) ->
  exists out : gmap string B,
    map_fold
      (fun key prop (acc : Res (gmap string B)) =>
         ResM.bind acc (fun fields =>
         ResM.bind (f key prop) (fun b => Val (setProperty key b fields))))
      (Val ∅) props = Val out /\
    forall key,
      match props !! key with
      | Some p =>
          exists b, f key p = Val b /\
                    out !! key
                    = if String.eqb key "__proto__" then None else Some b
      | None => out !! key = None
      end.
Proof.
  apply (map_fold_weak_ind
    (fun (r : Res (gmap string B)) (m : gmap string json) =>
       (forall key p, m !! key = Some p -> exists b, f key p = Val b) ->
       exists out : gmap string B, r = Val out /\
         forall key,
           match m !! key with
           | Some p =>
               exists b, f key p = Val b /\
                         out !! key
                         = if String.eqb key "__proto__" then None else Some b
           | None => out !! key = None
           end)).
  - intros _. exists ∅. split; [reflexivity|].
    intros key. rewrite !lookup_empty. reflexivity.
  - intros i x m r Hi IH Hall.
    destruct IH as (out & -> & Hout).
    { intros key p Hk. apply (Hall key p).
      rewrite lookup_insert_ne; [exact Hk|]. intros ->. congruence. }
    destruct (Hall i x) as [b Hb]; [apply lookup_insert_eq|].
    cbn [ResM.bind]. rewrite Hb. cbn [ResM.bind].
    exists (setProperty i b out). split; [reflexivity|].
    intros key. rewrite setProperty_lookup.
    destruct (decide (i = key)) as [->|Hne].
    + rewrite !lookup_insert_eq. exists b. split; [exact Hb|].
      destruct (String.eqb key "__proto__"); [|reflexivity].
      specialize (Hout key). now rewrite Hi in Hout.
    + rewrite !lookup_insert_ne by exact Hne.
      destruct (String.eqb i "__proto__"); apply Hout.
Qed.

(** C3, as stated: the model facing schema does not give a property of
    unrecognized type an unconstrained acceptance.  A property declared
    [integer] gets the entry of a property declared [string], while the
    validation schema accepts anything for it. *)
Lemma unrecognized_type_becomes_string_for_the_model :
  convertToJsonSchema (Some (schemaWith (JObj [("type", JStr "integer")])))
  = Val {| js_type := "object";
           js_properties :=
             {[ "count" := {| jp_type := "string"; jp_items := None;
                              jp_description := None |} ]};
           js_required := [] |}
  /\ convertToJsonSchema (Some (schemaWith (JObj [("type", JStr "integer")])))
     = convertToJsonSchema (Some (schemaWith (JObj [("type", JStr "string")])))
  /\ convertToZodSchema (Some (schemaWith (JObj [("type", JStr "integer")])))
     = Val {[ "count" := ZOptional ZUnknown ]}
  /\ convertToZodSchema (Some (schemaWith (JObj [("type", JStr "integer")])))
     <> convertToZodSchema (Some (schemaWith (JObj [("type", JStr "string")]))).
Proof.
  unfold convertToJsonSchema, convertToZodSchema, schemaWith.
  cbn [type properties required negb String.eqb Ascii.eqb Bool.eqb default].
  unfold id. rewrite !map_fold_singleton. cbn.
  split; [reflexivity|]. split; [reflexivity|]. split; [reflexivity|].
  intros H. discriminate H.
Qed.

(** C3, amended.  When the parameter schema is missing or its type is not
    [object], both translations give the empty object schema.  Otherwise,
    when no property schema is null, both succeed, and they have the
    properties of the descriptor except one named [__proto__], which
    both lose.  For every other property: it is optional in the validation
    schema if and only if its name is not in the [required] list, and the
    model facing schema carries that list unchanged; a property declared
    string, number, boolean or array maps to that type in both (an array
    of unknown items for the validation, of strings for the model); a
    property of any other or of no declared type is unconstrained
    ([unknown]) in the validation schema and is a [string] in the model
    facing schema; the model facing schema carries the declared
    description as it is, and the validation schema carries it when it is
    truthy and carries none otherwise. *)
Theorem schema_translation (inputSchema : option InputSchema) :
  ((inputSchema = None \/
    exists schema, inputSchema = Some schema /\ type schema <> "object") ->
   convertToZodSchema inputSchema = Val ∅ /\
   convertToJsonSchema inputSchema = Val emptyJsonSchema)
  /\
  (forall schema,
     inputSchema = Some schema -> type schema = "object" ->
     nonNullProperties schema ->
     exists zod js,
       convertToZodSchema inputSchema = Val zod /\
       convertToJsonSchema inputSchema = Val js /\
       js_type js = "object" /\
       js_required js = default [] (required schema) /\
       forall key,
         match default ∅ (properties schema) !! key with
         | None => zod !! key = None /\ js_properties js !! key = None
         | Some p =>
             if String.eqb key "__proto__" then
               zod !! key = None /\ js_properties js !! key = None
             else
             exists z jp,
               zod !! key = Some z /\ js_properties js !! key = Some jp /\
               isOptional z
               = negb (bool_decide (key ∈ default [] (required schema))) /\
               jp_description jp = field p "description" /\
               descriptionOf z = truthyDescription p /\
               (field p "type" = Some (JStr "string") ->
                stripped z = ZString /\
                jp_type jp = "string" /\ jp_items jp = None) /\
               (field p "type" = Some (JStr "number") ->
                stripped z = ZNumber /\
                jp_type jp = "number" /\ jp_items jp = None) /\
               (field p "type" = Some (JStr "boolean") ->
                stripped z = ZBoolean /\
                jp_type jp = "boolean" /\ jp_items jp = None) /\
               (field p "type" = Some (JStr "array") ->
                stripped z = ZArray ZUnknown /\
                jp_type jp = "array" /\ jp_items jp = Some "string") /\
               (recognized (field p "type") = false ->
                stripped z = ZUnknown /\
                jp_type jp = "string" /\ jp_items jp = None)
         end).
Proof.
  split.
  - intros [->|(schema & -> & Hty)]; [split; reflexivity|].
    unfold convertToZodSchema, convertToJsonSchema.
    apply String.eqb_neq in Hty. rewrite Hty. split; reflexivity.
  - intros schema -> Hty Hnn.
    unfold convertToZodSchema, convertToJsonSchema, ZodObject.
    rewrite Hty. cbn [String.eqb Ascii.eqb Bool.eqb negb].
    set (props := default ∅ (properties schema)).
    set (req := default [] (required schema)).
    destruct (fold_properties (zodField req) props) as (zod & Hzod & Hz).
    { intros key p Hk.
      destruct (zodField_nonnull req key p (Hnn key p Hk)) as (z & Hzf & _).
      now exists z. }
    destruct (fold_properties (fun _ => jsonField) props) as (jsp & Hjs & Hj).
    { intros key p Hk.
      destruct (jsonField_nonnull p (Hnn key p Hk)) as (jp & Hjf & _).
      now exists jp. }
    exists zod, {| js_type := "object"; js_properties := jsp; js_required := req |}.
    split; [exact Hzod|]. split.
    { unfold ResM.bind at 1. fold props. rewrite Hjs. reflexivity. }
    split; [reflexivity|]. split; [reflexivity|].
    intros key. specialize (Hz key). specialize (Hj key).
    cbn [js_properties].
    destruct (props !! key) as [p|] eqn:Hk; [|now split].
    destruct Hz as (z & Hzf & Hzk). destruct Hj as (jp & Hjf & Hjk).
    destruct (String.eqb key "__proto__"); [now split|].
    exists z, jp. split; [exact Hzk|]. split; [exact Hjk|].
    destruct (zodField_nonnull req key p (Hnn key p Hk))
      as (z' & Hzf' & Hopt & Hs1 & Hs2 & Hs3 & Hs4 & Hs5).
    destruct (jsonField_nonnull p (Hnn key p Hk))
      as (jp' & Hjf' & Hd & Ht1 & Ht2 & Ht3 & Ht4 & Ht5).
    assert (z' = z) by congruence. assert (jp' = jp) by congruence.
    subst z' jp'.
    split; [exact Hopt|]. split; [exact Hd|].
    split; [exact (zodField_description req key p z (Hnn key p Hk) Hzf)|].
    repeat match goal with |- (_ -> _) /\ _ => split end; intros H.
    + destruct (Ht1 H). auto.
    + destruct (Ht2 H). auto.
    + destruct (Ht3 H). auto.
    + destruct (Ht4 H). auto.
    + destruct (Ht5 H). auto.
Qed.

(** The schema of [delete_repo], and a missing schema. *)
Lemma schema_translation_witness :
  (convertToZodSchema None = Val ∅ /\
   convertToJsonSchema None = Val emptyJsonSchema)
  /\
  exists zod js,
    convertToZodSchema (Some repoSchema) = Val zod /\
    convertToJsonSchema (Some repoSchema) = Val js /\
    js_required js = ["repo"].
Proof.
  split.
  - apply (proj1 (schema_translation None)). left. reflexivity.
  - destruct (proj2 (schema_translation (Some repoSchema)) repoSchema
                eq_refl eq_refl) as (zod & js & Hz & Hj & _ & Hr & _).
    + intros key p H. cbn in H.
      apply lookup_singleton_Some in H as [_ <-]. discriminate.
    + exists zod, js. auto.
Defined.

End SchemaTranslation.

(** ** The selection filter of the registry *)

Section SelectionFilter.
Import Json StorageTs Registry.





(** A converted tool keeps its name and service and gets the risk level of
    its name. *)
Lemma convertToAISDKTool_keeps (t : MCPToolDefinition) (ai : AISDKTool) :
  convertToAISDKTool t = Val ai ->
  ai_name ai = name t /\ ai_serviceId ai = serviceId t /\
  riskLevel ai = Risk.determineToolRiskLevel (name t).
Proof.
  unfold convertToAISDKTool.
  destruct (convertToZodSchema (inputSchema t)); cbn; [|discriminate].
  destruct (convertToJsonSchema (inputSchema t)); cbn; [|discriminate].
  intros [= <-]. auto.
Qed.






End SelectionFilter.

Section SelectionScenarios.
Import Json StorageTs Registry.


(** Scenario A: the registry lists [delete_repo] of the service [github]
    and rates it high. *)
Example scenario_A :
  match fst (refreshTools sampleWorld
               (Some [("mcp-client-github", SJson sampleConfig)])
               initialState sampleSys) with
  | Val st =>
      map (fun ai => (ai_name ai, riskLevel ai)) (aiTools st)
      = [("delete_repo", high)]
  | Thrown _ => False
  end.
Proof. vm_compute. reflexivity. Qed.

(** Scenario B: with [github:delete_repo] mapped to false the server still
    lists the tool, and the manifest leaves it out. *)
Example scenario_B :
  match fst (refreshTools sampleWorld (Some sampleStore) initialState sampleSys) with
  | Val st =>
      map name (tools st) = ["delete_repo"] /\ aiTools st = [] /\
      error st = None
  | Thrown _ => False
  end.
Proof. vm_compute. repeat split; reflexivity. Qed.

End SelectionScenarios.

(** ** The session cache of the permission gate *)

Section PermissionCache.
Import Permissions.

(** An instance that captured an entry of the cache resolves from it and
    changes nothing. *)
Lemma requestPermission_cached (captured prev : PermissionState)
    (tc : ToolCall) (d : option string) (b : bool) :
  sessionPermissions captured !! tc_name tc = Some b ->
  requestPermission captured tc d prev = (prev, Some b).
Proof. intros H. unfold requestPermission. now rewrite H. Qed.









(** After the clearing the cache is empty and the next request waits for
    the user again. *)
Example cleared_session_prompts_again :
  snd (requestPermission
         (run (fst (onApprove (requestFor (callNamed "delete_repo")) initialState))
              [AClear])
         (callNamed "delete_repo") None
         (run (fst (onApprove (requestFor (callNamed "delete_repo")) initialState))
              [AClear])) = None.
Proof. vm_compute. reflexivity. Qed.

End PermissionCache.

(** ** Tools of the same name from two services *)

Section DuplicateNames.
Import Json StorageTs Registry UseChat.

(** C5, as stated: two services list a tool of the same name; the registry
    reports no error, the manifest sent to the model's endpoint has two
    entries called [delete_repo], the tool table of the server describes
    the one listed last and a call is routed to the one listed first. *)
Lemma duplicate_names_reach_the_manifest :
  match fst (refreshTools twoServicesWorld (Some twoServicesStore)
               initialState sampleSys) with
  | Val st =>
      error st = None /\
      map (fun t => (tf_serviceId t, tf_name t)) (toolsForAI (aiTools st))
      = [("github", "delete_repo"); ("gitlab", "delete_repo")] /\
      ~ List.NoDup (map tf_name (toolsForAI (aiTools st))) /\
      st_description <$> (Route.aiTools (toolsForAI (aiTools st)) !! "delete_repo")
      = Some "Delete a GitLab project" /\
      ai_serviceId <$> getToolByName st "delete_repo" = Some "github"
  | Thrown _ => False
  end.
Proof.
  vm_compute. split; [reflexivity|]. split; [reflexivity|].
  split; [|split; reflexivity].
  intros H. inversion H as [|x l Hnotin _]; subst. apply Hnotin. now left.
Qed.

Lemma last_filter_cons {A} (p : A -> bool) (x : A) (l : list A) :
  last (List.filter p (x :: l)) =
  match last (List.filter p l) with
  | Some y => Some y
  | None => if p x then Some x else None
  end.
Proof.
  cbn [List.filter]. destruct (p x); [|now destruct (last (List.filter p l))].
  rewrite last_cons. now destruct (last (List.filter p l)).
Qed.

(** The table built by [Object.fromEntries] holds, under a name, the entry
    of the last tool with that name. *)
Lemma aiTools_fold (l : list AISDKTool) (acc : gmap string ServerTool)
    (n : string) :
  fold_left (fun acc kv => <[fst kv := snd kv]> acc)
    (map (fun tool =>
            (tf_name tool,
             {| st_description := tf_description tool;
                st_parameters := Route.jsonSchemaToZod (tf_parameters tool) |}))
         (toolsForAI l))
    acc !! n
  = match last (named n l) with
    | Some tool => Some (serverEntry tool)
    | None => acc !! n
    end.
Proof.
  revert acc. induction l as [|t l IH]; intros acc; [reflexivity|].
  cbn [toolsForAI map fold_left fst snd tf_name tf_description tf_parameters].
  fold (toolsForAI l). rewrite IH. unfold named. rewrite last_filter_cons.
  destruct (last (List.filter _ l)); [reflexivity|].
  destruct (String.eqb_spec (ai_name t) n) as [->|Hne].
  - now rewrite lookup_insert_eq.
  - now rewrite lookup_insert_ne.
Qed.

Lemma find_named (n : string) (l : list AISDKTool) :
  List.find (fun tool => String.eqb (ai_name tool) n) l = head (named n l).
Proof.
  induction l as [|t l IH]; cbn; [reflexivity|].
  now destruct (String.eqb (ai_name t) n).
Qed.

(** C5, amended.  The registry converts every selected tool and drops
    none, so tools of two services that share a name are both in the
    manifest; nothing reports the collision.  The tool table of the server
    is built by key overwrite: under a name it holds the entry of the tool
    enumerated last.  The client resolves a name to the tool enumerated
    first. *)
Theorem duplicate_names_resolution (toolSelection : json)
    (allTools selected : list MCPToolDefinition) (st : ToolRegistryState)
    (n : string) :
  ResM.filter (isSelected toolSelection) allTools = Val selected ->
  selectTools toolSelection allTools = Val (aiTools st) ->
  map ai_name (aiTools st) = map name selected /\
  map tf_name (toolsForAI (aiTools st)) = map ai_name (aiTools st) /\
  Route.aiTools (toolsForAI (aiTools st)) !! n
  = serverEntry <$> last (named n (aiTools st)) /\
  getToolByName st n = head (named n (aiTools st)).
Proof.
  intros Hfilter Hsel. split; [|split; [|split]].
  - unfold selectTools in Hsel. rewrite Hfilter in Hsel. cbn in Hsel.
    clear Hfilter. revert Hsel. generalize (aiTools st). clear st.
    induction selected as [|t l IH]; intros ais; cbn.
    + now intros [= <-].
    + destruct (convertToAISDKTool t) as [ai|] eqn:Hc; cbn; [|discriminate].
      destruct (ResM.map convertToAISDKTool l) as [ais'|]; cbn; [|discriminate].
      intros [= <-]. cbn.
      apply convertToAISDKTool_keeps in Hc as (-> & _). f_equal. now apply IH.
  - unfold toolsForAI. rewrite map_map. reflexivity.
  - unfold Route.aiTools, Route.fromEntries. rewrite aiTools_fold.
    rewrite lookup_empty. now destruct (last (named n (aiTools st))).
  - unfold getToolByName. apply find_named.
Qed.

(** Both services list [delete_repo]: both entries are registered, the
    server keeps the GitLab one, the client calls the GitHub one. *)
Lemma duplicate_names_resolution_witness :
  map ai_name (aiTools dupState) = ["delete_repo"; "delete_repo"] /\
  st_description <$> (Route.aiTools (toolsForAI (aiTools dupState)) !! "delete_repo")
  = Some "Delete a GitLab project" /\
  ai_serviceId <$> getToolByName dupState "delete_repo" = Some "github".
Proof.
  destruct (duplicate_names_resolution (JObj []) dupTools dupTools dupState
              "delete_repo") as (Hnames & _ & Hserver & Hclient).
  - reflexivity.
  - reflexivity.
  - rewrite Hnames, Hserver, Hclient. repeat split; reflexivity.
Defined.

End DuplicateNames.

(** ** Connections *)

Section Connections.
Import Json Monad McpTs Actions.
Local Open Scope list_scope.
Context (w : World).

Lemma lookup_fresh {A} (l : list A) (x : A) : (l ++ [x]) !! length l = Some x.
Proof. apply list_lookup_middle. reflexivity. Qed.

Lemma insert_fresh {A} (l : list A) (x y : A) :
  <[length l := y]> (l ++ [x]) = l ++ [y].
Proof.
  rewrite <- (Nat.add_0_r (length l)). rewrite insert_app_r. reflexivity.
Qed.

Ltac sim := repeat (progress (cbn; rewrite ?lookup_fresh, ?insert_fresh)).

(** [connect] on a client that was just created: the connection comes up,
    or the transport refuses, or the transport cannot be built. *)
Lemma connect_fresh (cfg : json) (clk : nat) (cs : list Client)
    (pool : gmap string nat) (cv : option nat) (tr : list Event) :
  let c := length cs in
  let cl b := {| config := cfg; isConnected := b |} in
  connect w c (Build_Sys clk (cs ++ [cl false]) pool cv tr)
  = (Val tt, Build_Sys (S clk) (cs ++ [cl true]) pool cv (tr ++ [EvConnect c true]))
  \/ (exists m,
        connect w c (Build_Sys clk (cs ++ [cl false]) pool cv tr)
        = (Thrown (Error m),
           Build_Sys (S clk) (cs ++ [cl false]) pool cv (tr ++ [EvConnect c false])))
  \/ (exists m,
        connect w c (Build_Sys clk (cs ++ [cl false]) pool cv tr)
        = (Thrown (Error m), Build_Sys clk (cs ++ [cl false]) pool cv tr)).
Proof.
  cbn zeta.
  unfold connect, createTransport, this, prop, set_isConnected, this,
    try_catch, bind, get, tick, emit, set_clients, ret, throw.
  sim.
  destruct cfg; sim; try (right; right; eexists; reflexivity).
  all: match goal with
       | |- context [URL_ok w ?u] => destruct (URL_ok w u)
       end; sim; try (right; right; eexists; reflexivity).
  all: match goal with
       | |- context [sdk_connect w ?t ?c] => destruct (sdk_connect w t c)
       end; sim;
    [right; left; eexists; reflexivity | left; reflexivity].
Qed.

Ltac method_request :=
  intros cfg clk cs pool cv tr; cbn zeta;
  unfold ensureConnected, request, this, try_catch, bind, get, tick, emit,
    ret, throw;
  sim; eexists;
  match goal with
  | |- context [match ?x with inl _ => _ | inr _ => _ end] => destruct x eqn:?
  end; sim; [right | left]; eexists; reflexivity.

Lemma listTools_requestLike : requestLike (listTools w).
Proof. unfold listTools. method_request. Qed.

Lemma listPrompts_requestLike : requestLike (listPrompts w).
Proof. unfold listPrompts. method_request. Qed.

Lemma listResources_requestLike : requestLike (listResources w).
Proof. unfold listResources. method_request. Qed.

Lemma callTool_requestLike (n : string) (a : json) :
  requestLike (fun c => callTool w c n a).
Proof.
  unfold callTool. method_request.
Qed.

Lemma getPrompt_requestLike (n : string) (a : json) :
  requestLike (fun c => getPrompt w c n a).
Proof.
  unfold getPrompt. method_request.
Qed.

Lemma readResource_requestLike (uri : string) :
  requestLike (fun c => readResource w c uri).
Proof.
  unfold readResource. method_request.
Qed.

(** The closing block on a client that is connected: the connection is
    closed, and nothing is thrown even when closing fails. *)
Lemma finally_disconnect_connected (cfg : json) (clk : nat)
    (cs : list Client) (pool : gmap string nat) (tr : list Event) :
  let c := length cs in
  exists b closed,
    finally_disconnect w
      (Build_Sys clk (cs ++ [{| config := cfg; isConnected := true |}]) pool
                 (Some c) tr)
    = (Val tt,
       Build_Sys (S clk) (cs ++ [{| config := cfg; isConnected := b |}]) pool
                 (Some c) (tr ++ [EvDisconnect c; EvClose c closed])).
Proof.
  cbn zeta.
  unfold finally_disconnect, disconnect, this, set_isConnected, this,
    try_catch, bind, get, tick, emit, set_clients, ret, throw.
  sim. destruct (sdk_close w clk); sim; rewrite <- app_assoc;
    do 2 eexists; reflexivity.
Qed.

(** The closing block on a client that never connected. *)
Lemma finally_disconnect_unconnected (cfg : json) (clk : nat)
    (cs : list Client) (pool : gmap string nat) (tr : list Event) :
  let c := length cs in
  finally_disconnect w
    (Build_Sys clk (cs ++ [{| config := cfg; isConnected := false |}]) pool
               (Some c) tr)
  = (Val tt,
     Build_Sys clk (cs ++ [{| config := cfg; isConnected := false |}]) pool
               (Some c) (tr ++ [EvDisconnect c])).
Proof.
  cbn zeta.
  unfold finally_disconnect, disconnect, this, try_catch, bind, get, emit,
    ret.
  sim. reflexivity.
Qed.

(** The closing block when no client was created. *)
Lemma finally_disconnect_none (s : Sys) :
  client_var s = None -> finally_disconnect w s = (Val tt, s).
Proof.
  intros H. unfold finally_disconnect, bind, get, ret. now rewrite H.
Qed.

Lemma bind_val {A B} (m : M A) (k : A -> M B) (s s' : Sys) (a : A) :
  m s = (Val a, s') -> bind m k s = k a s'.
Proof. intros H. unfold bind. now rewrite H. Qed.

Lemma bind_thrown {A B} (m : M A) (k : A -> M B) (s s' : Sys) (e : Exn) :
  m s = (Thrown e, s') -> bind m k s = (Thrown e, s').
Proof. intros H. unfold bind. now rewrite H. Qed.

Lemma newClient_run (cfg : json) (clk : nat) (cs : list Client)
    (pool : gmap string nat) (cv : option nat) (tr : list Event) :
  newClient cfg (Build_Sys clk cs pool cv tr)
  = (Val (length cs),
     Build_Sys clk (cs ++ [{| config := cfg; isConnected := false |}]) pool cv
               (tr ++ [EvNew (length cs)])).
Proof. reflexivity. Qed.

Lemma set_client_var_run (c : option nat) (clk : nat) (cs : list Client)
    (pool : gmap string nat) (cv : option nat) (tr : list Event) :
  set_client_var c (Build_Sys clk cs pool cv tr)
  = (Val tt, Build_Sys clk cs pool c tr).
Proof. reflexivity. Qed.

(** The body shared by the stateless actions: create the client, connect,
    one request, with the handler of the action and the closing block
    around it. *)
Lemma scoped_action {A B} (cfg : json) (op : nat -> M A) (f : A -> B)
    (h : Exn -> M (ActionResult B)) (clk : nat) (cs : list Client)
    (pool : gmap string nat) (cv : option nat) (tr : list Event) :
  requestLike op ->
  (forall e s, exists r, h e s = (Val r, s)) ->
  exists r s' evs,
    try_finally
      (try_catch
         (bind (newClient cfg) (fun c =>
          bind (set_client_var (Some c)) (fun _ =>
          bind (connect w c) (fun _ =>
          bind (op c) (fun x => ret (Success (f x)))))))
         h)
      (finally_disconnect w) (Build_Sys clk cs pool cv tr)
    = (Val r, s') /\
    trace s' = tr ++ evs /\ clientPool s' = pool /\
    evs <> [] /\ scopedUse (length cs) evs.
Proof.
  intros Hop Hh.
  unfold try_finally, try_catch.
  erewrite bind_val by apply newClient_run.
  erewrite bind_val by apply set_client_var_run.
  destruct (connect_fresh cfg clk cs pool (Some (length cs)) (tr ++ [EvNew (length cs)]))
    as [Hc|[[m Hc]|[m Hc]]]; cbn zeta in Hc.
  - (* connected *)
    erewrite bind_val by exact Hc.
    destruct (Hop cfg (S clk) cs pool (Some (length cs))
                  ((tr ++ [EvNew (length cs)]) ++ [EvConnect (length cs) true]))
      as (r & [[a Ha]|[e Ha]]); cbn zeta in Ha.
    + erewrite bind_val by exact Ha. unfold ret at 1.
      destruct (finally_disconnect_connected cfg (S (S clk)) cs pool
                  (((tr ++ [EvNew (length cs)]) ++ [EvConnect (length cs) true])
                   ++ [EvRequest (length cs) r true])) as (b & closed & Hf).
      cbn zeta in Hf. rewrite Hf. do 3 eexists.
      split; [reflexivity|]. cbn [trace clientPool].
      rewrite <- !app_assoc. cbn [app].
      split; [reflexivity|]. split; [reflexivity|]. split; [discriminate|].
      right. right. right. now exists r, true, closed.
    + erewrite bind_thrown by exact Ha.
      destruct (Hh e (Build_Sys (S (S clk))
                        (cs ++ [{| config := cfg; isConnected := true |}]) pool
                        (Some (length cs))
                        (((tr ++ [EvNew (length cs)]) ++ [EvConnect (length cs) true])
                         ++ [EvRequest (length cs) r false]))) as [res Hres].
      rewrite Hres.
      destruct (finally_disconnect_connected cfg (S (S clk)) cs pool
                  (((tr ++ [EvNew (length cs)]) ++ [EvConnect (length cs) true])
                   ++ [EvRequest (length cs) r false])) as (b & closed & Hf).
      cbn zeta in Hf. rewrite Hf. do 3 eexists.
      split; [reflexivity|]. cbn [trace clientPool].
      rewrite <- !app_assoc. cbn [app].
      split; [reflexivity|]. split; [reflexivity|]. split; [discriminate|].
      right. right. right. now exists r, false, closed.
  - (* the transport refused *)
    erewrite bind_thrown by exact Hc.
    destruct (Hh (Error m) (Build_Sys (S clk)
                        (cs ++ [{| config := cfg; isConnected := false |}]) pool
                        (Some (length cs))
                        ((tr ++ [EvNew (length cs)]) ++ [EvConnect (length cs) false])))
      as [res Hres].
    rewrite Hres. rewrite finally_disconnect_unconnected. do 3 eexists.
    split; [reflexivity|]. cbn [trace clientPool].
    rewrite <- !app_assoc. cbn [app].
    split; [reflexivity|]. split; [reflexivity|]. split; [discriminate|].
    right. right. left. reflexivity.
  - (* no transport *)
    erewrite bind_thrown by exact Hc.
    destruct (Hh (Error m) (Build_Sys clk
                        (cs ++ [{| config := cfg; isConnected := false |}]) pool
                        (Some (length cs)) (tr ++ [EvNew (length cs)])))
      as [res Hres].
    rewrite Hres. rewrite finally_disconnect_unconnected. do 3 eexists.
    split; [reflexivity|]. cbn [trace clientPool].
    rewrite <- !app_assoc. cbn [app].
    split; [reflexivity|]. split; [reflexivity|]. split; [discriminate|].
    right. left. reflexivity.
Qed.

Lemma scoped_of_action {A B} (cfg : json) (op : nat -> M A) (f : A -> B)
    (h : Exn -> M (ActionResult B)) (s : Sys) :
  requestLike op ->
  (forall e s, exists r, h e s = (Val r, s)) ->
  exists r s' evs,
    try_finally
      (try_catch
         (bind (newClient cfg) (fun c =>
          bind (set_client_var (Some c)) (fun _ =>
          bind (connect w c) (fun _ =>
          bind (op c) (fun x => ret (Success (f x)))))))
         h)
      (finally_disconnect w)
      (Build_Sys (clock s) (clients s) (clientPool s) None (trace s))
    = (Val r, s') /\
    trace s' = trace s ++ evs /\ clientPool s' = clientPool s /\
    scopedUse (length (clients s)) evs.
Proof.
  intros Hop Hh.
  destruct (scoped_action cfg op f h (clock s) (clients s) (clientPool s) None
              (trace s) Hop Hh) as (r & s' & evs & H & Ht & Hp & _ & Hs).
  now exists r, s', evs.
Qed.

(** A result computed without touching a client. *)
Lemma scoped_nothing {A} (r : A) (s : Sys) (cv : option nat) :
  exists (r' : A) s' evs,
    (Val r, Build_Sys (clock s) (clients s) (clientPool s) cv (trace s))
    = (Val r', s') /\
    trace s' = trace s ++ evs /\ clientPool s' = clientPool s /\
    scopedUse (length (clients s)) evs.
Proof.
  exists r. eexists. exists []. split; [reflexivity|]. cbn.
  rewrite app_nil_r. repeat split. now left.
Qed.

Lemma scoped_ret {A} (r : A) : scoped (ret r).
Proof.
  intros s. exists r, s, []. rewrite app_nil_r. repeat split. now left.
Qed.

Lemma set_client_var_none (s : Sys) :
  set_client_var None s
  = (Val tt, Build_Sys (clock s) (clients s) (clientPool s) None (trace s)).
Proof. reflexivity. Qed.

(** [callMCPToolWithConfig] *)
Lemma callMCPToolWithConfig_scoped (cfg : json) (n : string) (a : json) :
  scoped (callMCPToolWithConfig w cfg n a).
Proof.
  intros s. unfold callMCPToolWithConfig.
  erewrite bind_val by apply set_client_var_none.
  apply (scoped_of_action cfg (fun c => callTool w c n a) (fun x => x)).
  - apply callTool_requestLike.
  - intros e s0. eexists. reflexivity.
Qed.

(** [getMCPPromptWithConfig] *)
Lemma getMCPPromptWithConfig_scoped (cfg : json) (n : string) (a : json) :
  scoped (getMCPPromptWithConfig w cfg n a).
Proof.
  intros s. unfold getMCPPromptWithConfig.
  erewrite bind_val by apply set_client_var_none.
  apply (scoped_of_action cfg (fun c => getPrompt w c n a)
           (fun result => (p_description result, p_messages result))).
  - apply getPrompt_requestLike.
  - intros e s0. eexists. reflexivity.
Qed.

(** [readMCPResourceWithConfig] *)
Lemma readMCPResourceWithConfig_scoped (cfg : json) (uri : string) :
  scoped (readMCPResourceWithConfig w cfg uri).
Proof.
  intros s. unfold readMCPResourceWithConfig.
  erewrite bind_val by apply set_client_var_none.
  apply (scoped_of_action cfg (fun c => readResource w c uri) rr_contents).
  - apply readResource_requestLike.
  - intros e s0. eexists. reflexivity.
Qed.

Lemma prop_pure (cfg : json) (k : string) (s : Sys) :
  cfg <> JNull -> prop cfg k s = (Val (field cfg k), s).
Proof. destruct cfg; [congruence | reflexivity..]. Qed.

Lemma truthy_nonnull (cfg : json) : truthy cfg = true -> cfg <> JNull.
Proof. intros H ->. discriminate. Qed.

(** The url check reads the configuration and nothing else. *)
Lemma urlMissing_cases (cfg : json) (s : Sys) :
  urlMissing cfg s = (Val true, s) \/
  (urlMissing cfg s = (Val false, s) /\ cfg <> JNull) \/
  (exists m, urlMissing cfg s = (Thrown (Error m), s) /\
             exists msg, connectionErrorMessage cfg (Error m) s = (Val msg, s)).
Proof.
  unfold urlMissing, prop, bind, ret, throw.
  destruct cfg as [| | | | |fields]; cbn;
    try (left; reflexivity);
    try (right; right; eexists; split; [reflexivity|]; eexists; reflexivity).
  destruct (assoc "url" fields) as [[|b|n|u| |]|]; cbn;
    try (left; reflexivity);
    try (right; right; eexists; split; [reflexivity|]; eexists; reflexivity).
  - destruct b; cbn; [|left; reflexivity].
    right; right; eexists; split; [reflexivity|]; eexists; reflexivity.
  - destruct (negb (n =? 0)%Z); cbn; [|left; reflexivity].
    right; right; eexists; split; [reflexivity|]; eexists; reflexivity.
  - destruct (Js.truthy u); cbn; [|left; reflexivity].
    destruct (String.eqb (Js.trim u) ""); [left; reflexivity|].
    right; left. split; [reflexivity | discriminate].
Qed.

Lemma connectionErrorMessage_pure (cfg : json) (e : Exn) (s : Sys) :
  cfg <> JNull -> exists msg, connectionErrorMessage cfg e s = (Val msg, s).
Proof.
  intros Hnn. unfold connectionErrorMessage.
  destruct e as [message|]; [|eexists; reflexivity].
  repeat match goal with
         | |- context [if ?b then _ else _] => destruct b
         end;
    try (eexists; reflexivity);
    erewrite bind_val by (apply prop_pure; exact Hnn); eexists; reflexivity.
Qed.

Lemma try_body_pure {A B} (m : M A) (k : A -> M B) (h : Exn -> M B)
    (s : Sys) (a : A) :
  m s = (Val a, s) ->
  try_catch (bind m k) h s = try_catch (k a) h s.
Proof. intros H. unfold try_catch, bind. now rewrite H. Qed.

Lemma try_finally_ext {A} (m1 m2 : M A) (fin : M unit) (s : Sys) :
  m1 s = m2 s -> try_finally m1 fin s = try_finally m2 fin s.
Proof. intros H. unfold try_finally. now rewrite H. Qed.

Lemma try_body_thrown {A B} (m : M A) (k : A -> M B) (h : Exn -> M B)
    (s : Sys) (e : Exn) :
  m s = (Thrown e, s) ->
  try_catch (bind m k) h s = h e s.
Proof. intros H. unfold try_catch, bind. now rewrite H. Qed.

(** An action that ends before its client is created. *)
Lemma scoped_early {A} (m : M A) (r : A) (s : Sys) :
  m (Build_Sys (clock s) (clients s) (clientPool s) None (trace s))
  = (Val r, Build_Sys (clock s) (clients s) (clientPool s) None (trace s)) ->
  exists (r' : A) s' evs,
    try_finally m (finally_disconnect w)
      (Build_Sys (clock s) (clients s) (clientPool s) None (trace s))
    = (Val r', s') /\
    trace s' = trace s ++ evs /\ clientPool s' = clientPool s /\
    scopedUse (length (clients s)) evs.
Proof.
  intros H. unfold try_finally. rewrite H.
  rewrite finally_disconnect_none by reflexivity.
  apply scoped_nothing.
Qed.

(** [testMCPConnection] *)
Lemma testMCPConnection_scoped (cfg : json) : scoped (testMCPConnection w cfg).
Proof.
  intros s. unfold testMCPConnection.
  erewrite bind_val by apply set_client_var_none.
  set (s0 := Build_Sys (clock s) (clients s) (clientPool s) None (trace s)).
  destruct (urlMissing_cases cfg s0) as [H|[[H Hnn]|(m & H & msg & Hmsg)]].
  - eapply scoped_early. fold s0.
    erewrite try_body_pure by exact H. reflexivity.
  - erewrite try_finally_ext.
    2: { erewrite try_body_pure by exact H. cbv iota.
         erewrite try_body_pure by (apply prop_pure; exact Hnn). reflexivity. }
    destruct (URL_ok w (field cfg "url")); cbn [negb].
    + apply (scoped_of_action cfg (listTools w) (fun x => x)).
      * apply listTools_requestLike.
      * intros e s1. destruct (connectionErrorMessage_pure cfg e s1 Hnn) as [x Hx].
        erewrite bind_val by exact Hx. eexists. reflexivity.
    + eapply scoped_early. reflexivity.
  - eapply scoped_early. fold s0.
    erewrite try_body_thrown by exact H.
    erewrite bind_val by exact Hmsg. reflexivity.
Qed.

(** [listMCPTools] with a configuration *)
Lemma listMCPTools_scoped (sid : string) (cfg : json) :
  truthy cfg = true -> scoped (listMCPTools w sid (Some cfg)).
Proof.
  intros Ht s. pose proof (truthy_nonnull cfg Ht) as Hnn.
  unfold listMCPTools.
  erewrite bind_val by apply set_client_var_none.
  cbv zeta iota beta. rewrite Ht.
  set (s0 := Build_Sys (clock s) (clients s) (clientPool s) None (trace s)).
  destruct (urlMissing_cases cfg s0) as [H|[[H _]|(m & H & _)]].
  - eapply scoped_early. fold s0.
    erewrite try_body_pure by exact H. reflexivity.
  - erewrite try_finally_ext.
    2: { erewrite try_body_pure by exact H. cbv iota.
         erewrite try_body_pure by (apply prop_pure; exact Hnn). reflexivity. }
    destruct (URL_ok w (field cfg "url")); cbn [negb].
    + apply (scoped_of_action cfg (listTools w) (fun x => x)).
      * apply listTools_requestLike.
      * intros e s1. eexists. reflexivity.
    + eapply scoped_early. reflexivity.
  - eapply scoped_early. fold s0.
    erewrite try_body_thrown by exact H. reflexivity.
Qed.

(** [listMCPPrompts] with a configuration *)
Lemma listMCPPrompts_scoped (sid : string) (cfg : json) :
  truthy cfg = true -> scoped (listMCPPrompts w sid (Some cfg)).
Proof.
  intros Ht s. unfold listMCPPrompts.
  erewrite bind_val by apply set_client_var_none.
  cbv zeta iota beta. rewrite Ht.
  set (s0 := Build_Sys (clock s) (clients s) (clientPool s) None (trace s)).
  destruct (urlMissing_cases cfg s0) as [H|[[H _]|(m & H & _)]].
  - eapply scoped_early. fold s0.
    erewrite try_body_pure by exact H. reflexivity.
  - erewrite try_finally_ext.
    2: { erewrite try_body_pure by exact H. cbv iota. reflexivity. }
    apply (scoped_of_action cfg (listPrompts w) (fun x => x)).
    + apply listPrompts_requestLike.
    + intros e s1. eexists. reflexivity.
  - eapply scoped_early. fold s0.
    erewrite try_body_thrown by exact H. reflexivity.
Qed.

(** [listMCPResources] with a configuration *)
Lemma listMCPResources_scoped (sid : string) (cfg : json) :
  truthy cfg = true -> scoped (listMCPResources w sid (Some cfg)).
Proof.
  intros Ht s. unfold listMCPResources.
  erewrite bind_val by apply set_client_var_none.
  cbv zeta iota beta. rewrite Ht.
  set (s0 := Build_Sys (clock s) (clients s) (clientPool s) None (trace s)).
  destruct (urlMissing_cases cfg s0) as [H|[[H _]|(m & H & _)]].
  - eapply scoped_early. fold s0.
    erewrite try_body_pure by exact H. reflexivity.
  - erewrite try_finally_ext.
    2: { erewrite try_body_pure by exact H. cbv iota. reflexivity. }
    apply (scoped_of_action cfg (listResources w) (fun x => x)).
    + apply listResources_requestLike.
    + intros e s1. eexists. reflexivity.
  - eapply scoped_early. fold s0.
    erewrite try_body_thrown by exact H. reflexivity.
Qed.

(** A wrapper that loads the configuration first. *)
Lemma withConfig_scoped {A} (window : Window) (sid : string)
    (action : json -> M (ActionResult A)) :
  (forall cfg, truthy cfg = true -> scoped (action cfg)) ->
  scoped (Hooks.withConfig window sid action).
Proof.
  intros H. unfold Hooks.withConfig.
  destruct (StorageTs.loadServiceConfig window sid) as [cfg|];
    [|apply scoped_ret].
  destruct (truthy cfg) eqn:Ht; [now apply H | apply scoped_ret].
Qed.

Lemma scoped_succeeded {A} (m : M (ActionResult A)) :
  scoped m -> scoped (bind m (fun r => ret (succeeded r))).
Proof.
  intros H s. destruct (H s) as (r & s' & evs & Hm & Ht & Hp & Hs).
  exists (succeeded r), s', evs. erewrite bind_val by exact Hm. now repeat split.
Qed.

End Connections.

Section StatelessOperations.
Import Json Monad Actions.

Lemma scopedUse_singleUse (c : nat) (evs : list Event) :
  scopedUse c evs -> singleUse evs = true.
Proof.
  intros [->|[->|[->|(r & ok & closed & ->)]]]; unfold singleUse; cbn;
    rewrite ?Nat.eqb_refl; reflexivity.
Qed.

(** C2, as stated: [connectToMCPServer] connects, lists the tools and puts
    its client into the pool without disconnecting; the pooled [callMCPTool]
    and [listMCPTools] then send their requests on that same connection.
    One connection has carried three requests and was never closed. *)
Lemma pooled_connection_is_reused :
  trace (snd (bind (connectToMCPServer sampleWorld "github" sampleConfig) (fun _ =>
              bind (callMCPTool sampleWorld "github" "delete_repo" (JObj [])) (fun _ =>
              listMCPTools sampleWorld "github" None)) sampleSys))
  = [EvNew 0; EvConnect 0 true; EvRequest 0 ReqListTools true;
     EvRequest 0 (ReqCallTool "delete_repo" (JObj [])) true;
     EvRequest 0 ReqListTools true]
  /\ singleUse
       (trace (snd (bind (connectToMCPServer sampleWorld "github" sampleConfig) (fun _ =>
                    bind (callMCPTool sampleWorld "github" "delete_repo" (JObj [])) (fun _ =>
                    listMCPTools sampleWorld "github" None)) sampleSys)))
     = false
  /\ clientPool (snd (connectToMCPServer sampleWorld "github" sampleConfig sampleSys))
       !! "github" = Some 0
  /\ ~ scoped (connectToMCPServer sampleWorld "github" sampleConfig).
Proof.
  split; [vm_compute; reflexivity|].
  split; [vm_compute; reflexivity|].
  assert (Hpool : clientPool (snd (connectToMCPServer sampleWorld "github"
                                     sampleConfig sampleSys))
                  !! "github" = Some 0) by (vm_compute; reflexivity).
  split; [exact Hpool|].
  intros H. destruct (H sampleSys) as (r & s' & evs & Hrun & _ & Hp & _).
  rewrite Hrun in Hpool. cbn [snd] in Hpool. rewrite Hp in Hpool.
  discriminate Hpool.
Qed.

(** C2, amended.  Every operation the client side offers on a service
    (test of a connection, call of a tool, the listings, reading a prompt
    or a resource) returns without throwing; it reuses no connection: if it
    creates a client at all, it is a new one, on which it connects, sends
    at most one request, and disconnects on every path, also when the
    connection or the request fails; it leaves the pool as it was.  The
    pool itself is filled by [connectToMCPServer], whose connection stays
    open for the pooled actions. *)
Theorem stateless_operations_scope_their_connection (w : World)
    (window : Window) (h : HookCall) (s : Sys) :
  exists (ok : bool) (s' : Sys) (evs : list Event),
    runHook w window h s = (Val ok, s') /\
    trace s' = (trace s ++ evs)%list /\
    clientPool s' = clientPool s /\
    scopedUse (length (clients s)) evs /\
    singleUse evs = true.
Proof.
  assert (H : scoped (runHook w window h)).
  { destruct h; cbn [runHook]; apply scoped_succeeded.
    - apply testMCPConnection_scoped.
    - apply withConfig_scoped. intros cfg _. apply callMCPToolWithConfig_scoped.
    - apply withConfig_scoped. intros cfg Ht. now apply listMCPTools_scoped.
    - apply withConfig_scoped. intros cfg _. apply getMCPPromptWithConfig_scoped.
    - apply withConfig_scoped. intros cfg Ht. now apply listMCPPrompts_scoped.
    - apply withConfig_scoped. intros cfg _. apply readMCPResourceWithConfig_scoped.
    - apply withConfig_scoped. intros cfg Ht. now apply listMCPResources_scoped. }
  destruct (H s) as (ok & s' & evs & Hrun & Ht & Hp & Hs).
  exists ok, s', evs. repeat split; try assumption.
  now apply (scopedUse_singleUse (length (clients s))).
Qed.

End StatelessOperations.

(** ** The invocation coordinator *)

Section Coordinator.
Import Json Monad Actions UseChat.

(** [summarizeToolResult] catches everything: it returns a result object
    from every state and in every world. *)
Lemma summarizeToolResult_returns (w : World)
    (params : SummarizeToolResultParams) (s : Sys) :
  exists r s', Summarize.summarizeToolResult w params s = (Val r, s').
Proof.
  unfold Summarize.summarizeToolResult, Summarize.getModelProvider,
    try_catch, bind, tick, emit, ret, throw.
  destruct (provider_fails w (sp_model params)); cbn; [eauto|].
  destruct (generateText w (clock s) params); cbn; eauto.
Qed.

(** When the model fails, the summary fails without throwing. *)
Lemma summarizeToolResult_fails (w : World)
    (params : SummarizeToolResultParams) (s : Sys) :
  (exists e, provider_fails w (sp_model params) = Some e) \/
  (exists e, generateText w (clock s) params = inl e) ->
  exists error s',
    Summarize.summarizeToolResult w params s = (Val (Failure error), s').
Proof.
  unfold Summarize.summarizeToolResult, Summarize.getModelProvider,
    try_catch, bind, tick, emit, ret, throw.
  intros [[e He]|[e He]].
  - rewrite He. cbn. eauto.
  - destruct (provider_fails w (sp_model params)); cbn; [eauto|].
    rewrite He. cbn. eauto.
Qed.

(** C7.  When the remote call of a known tool of a configured service has
    succeeded and the model call of the summary fails, be it that the
    provider cannot be created or that the generation throws, [onToolCall]
    returns the raw content as its result, without summary and without
    error. *)
Theorem summarization_failure_is_not_fatal (w : World)
    (aiTools : list AISDKTool) (serviceConfigs : gmap string json)
    (messages : list string) (initialModel : ChatModel) (tc : ModelToolCall)
    (tool : AISDKTool) (serviceConfig : json) (content : list json)
    (isError : bool) (s s1 : Sys) :
  List.find (fun t => String.eqb (ai_name t) (toolName tc)) aiTools = Some tool ->
  serviceConfigs !! ai_serviceId tool = Some serviceConfig ->
  truthy serviceConfig = true ->
  callMCPToolWithConfig w serviceConfig (toolName tc) (args tc) s
  = (Val (Success (content, isError)), s1) ->
  ((exists e, provider_fails w initialModel = Some e) \/
   (exists e,
      generateText w (clock s1) (summaryParams messages initialModel tc content)
      = inl e)) ->
  exists s2,
    onToolCall w aiTools serviceConfigs messages initialModel tc s
    = (Val (RetResult content None None), s2).
Proof.
  intros Hfind Hcfg Htruthy Hcall Hfail.
  destruct (summarizeToolResult_fails w
              (summaryParams messages initialModel tc content) s1 Hfail)
    as (error & s2 & Hsum).
  exists s2. unfold onToolCall. rewrite Hfind, Hcfg, Htruthy. cbn [negb].
  unfold try_catch. erewrite bind_val by exact Hcall. cbv iota beta.
  erewrite bind_val by exact Hsum. reflexivity.
Qed.

(** Scenario E. *)
Lemma summarization_failure_is_not_fatal_witness :
  exists s2,
    onToolCall noSummaryWorld [registeredDeleteRepo] {[ "github" := sampleConfig ]}
      ["Please delete octocat/hello"] gemini proposedCall sampleSys
    = (Val (RetResult [JStr "done"] None None), s2).
Proof.
  apply (summarization_failure_is_not_fatal noSummaryWorld
           [registeredDeleteRepo] {[ "github" := sampleConfig ]}
           ["Please delete octocat/hello"] gemini proposedCall
           registeredDeleteRepo sampleConfig [JStr "done"] false sampleSys
           (snd (callMCPToolWithConfig noSummaryWorld sampleConfig "delete_repo"
                   (JObj [("repo", JStr "octocat/hello")]) sampleSys))).
  - reflexivity.
  - reflexivity.
  - reflexivity.
  - vm_compute. reflexivity.
  - right. eexists. reflexivity.
Defined.

(** The stateless call of a tool creates its client from every state. *)
Lemma callMCPToolWithConfig_creates (w : World) (cfg : json) (n : string)
    (a : json) (s : Sys) :
  exists r s' evs,
    callMCPToolWithConfig w cfg n a s = (Val r, s') /\
    trace s' = (trace s ++ EvNew (length (clients s)) :: evs)%list.
Proof.
  unfold callMCPToolWithConfig.
  erewrite bind_val by apply set_client_var_none.
  destruct (scoped_action w cfg (fun c => McpTs.callTool w c n a) (fun x => x)
              (fun error => ret (Failure (messageOr error "Tool call failed")))
              (clock s) (clients s) (clientPool s) None (trace s))
    as (r & s' & evs & Hrun & Ht & _ & Hne & Hs).
  - apply callTool_requestLike.
  - intros e s0. eexists. reflexivity.
  - exists r, s'.
    destruct Hs as [->|[->|[->|(q & ok & closed & ->)]]];
      [congruence|eexists..]; (split; [exact Hrun | exact Ht]).
Qed.

Lemma summarizeToolResult_trace (w : World)
    (params : SummarizeToolResultParams) (s : Sys) :
  exists r s' evs,
    Summarize.summarizeToolResult w params s = (Val r, s') /\
    trace s' = (trace s ++ evs)%list.
Proof.
  unfold Summarize.summarizeToolResult, Summarize.getModelProvider,
    try_catch, bind, tick, emit, ret, throw.
  destruct (provider_fails w (sp_model params)); cbn.
  - do 2 eexists. exists []. rewrite app_nil_r. split; reflexivity.
  - destruct (generateText w (clock s) params); cbn;
      do 3 eexists; split; reflexivity.
Qed.

(** For a registered tool of a configured service [onToolCall] goes to the
    remote server in every world and from every state: it returns, and the
    first thing it does is to create the client for the call.  No state of
    the permission gate enters it. *)
Lemma onToolCall_reaches_the_server (w : World) (aiTools : list AISDKTool)
    (serviceConfigs : gmap string json) (messages : list string)
    (initialModel : ChatModel) (tc : ModelToolCall) (tool : AISDKTool)
    (serviceConfig : json) (s : Sys) :
  List.find (fun t => String.eqb (ai_name t) (toolName tc)) aiTools = Some tool ->
  serviceConfigs !! ai_serviceId tool = Some serviceConfig ->
  truthy serviceConfig = true ->
  exists r s' evs,
    onToolCall w aiTools serviceConfigs messages initialModel tc s = (Val r, s') /\
    trace s' = (trace s ++ EvNew (length (clients s)) :: evs)%list.
Proof.
  intros Hfind Hcfg Htruthy.
  unfold onToolCall. rewrite Hfind, Hcfg, Htruthy. cbn [negb].
  destruct (callMCPToolWithConfig_creates w serviceConfig (toolName tc) (args tc) s)
    as (r & s1 & evs & Hcall & Ht).
  unfold try_catch. erewrite bind_val by exact Hcall.
  destruct r as [[content isError]|error].
  - destruct (summarizeToolResult_trace w
                (summaryParams messages initialModel tc content) s1)
      as (sr & s2 & evs' & Hsum & Ht').
    unfold summaryParams in Hsum. erewrite bind_val by exact Hsum.
    exists (match sr with
            | Success summary =>
                if Js.truthy summary
                then RetResult content (Some summary) (Some content)
                else RetResult content None None
            | Failure _ => RetResult content None None
            end), s2, (evs ++ evs')%list.
    split.
    + destruct sr as [summary|e]; [destruct (Js.truthy summary)|]; reflexivity.
    + rewrite Ht', Ht, <- app_assoc. reflexivity.
  - exists (RetError error), s1, evs. split; [reflexivity | exact Ht].
Qed.

(** C1.  The model proposes [delete_repo] for the first time in the
    session.  The permission gate has no decision for it: asked, it would
    add a pending request and wait for the user; with the tool on the
    auto-deny list it would answer no.  [onToolCall] asks nothing: it calls
    the tool on the remote server and returns the result. *)
Theorem onToolCall_executes_without_permission :
  Permissions.requestPermission Permissions.initialState proposedToolCall
    (Some "Delete a repository") Permissions.initialState
  = ({| pendingRequests :=
          [{| toolCall := proposedToolCall;
              toolDescription := Some "Delete a repository";
              pr_riskLevel := high |}];
        approvedTools := ∅; deniedTools := ∅; sessionPermissions := ∅ |},
     None)
  /\ snd (Permissions.requestPermission
            (Permissions.setAutoApprove "delete_repo" false Permissions.initialState)
            proposedToolCall (Some "Delete a repository")
            (Permissions.setAutoApprove "delete_repo" false Permissions.initialState))
     = Some false
  /\ fst (onToolCall sampleWorld [registeredDeleteRepo]
            {[ "github" := sampleConfig ]} ["Please delete octocat/hello"]
            gemini proposedCall sampleSys)
     = Val (RetResult [JStr "done"] (Some "The repository was deleted.")
              (Some [JStr "done"]))
  /\ trace (snd (onToolCall sampleWorld [registeredDeleteRepo]
                   {[ "github" := sampleConfig ]} ["Please delete octocat/hello"]
                   gemini proposedCall sampleSys))
     = [EvNew 0; EvConnect 0 true;
        EvRequest 0 (ReqCallTool "delete_repo" (JObj [("repo", JStr "octocat/hello")])) true;
        EvDisconnect 0; EvClose 0 true; EvGenerateText true].
Proof.
  split; [reflexivity|]. split; [vm_compute; reflexivity|].
  split; vm_compute; reflexivity.
Qed.

End Coordinator.

(* ===================================================================== *)
(** * Part III: further properties of the code                            *)
(* ===================================================================== *)

(** ** The configuration store: writes, reads and removals *)

Section StoreRoundTrips.
Import Js Json StorageTs.

Lemma append_inj (p a b : string) : p ++ a = p ++ b -> a = b.
Proof.
  induction p as [|c p IH]; [now rewrite !append_empty|].
  rewrite !append_cons. intros [= H]. now apply IH.
Qed.

Lemma getStorageKey_inj (a b : string) :
  getStorageKey a = getStorageKey b -> a = b.
Proof.
  unfold getStorageKey. intros H.
  apply append_inj in H. now apply append_inj in H.
Qed.

Lemma assoc_assign_ne {A} (k k' : string) (v : A) (l : list (string * A)) :
  k <> k' -> assoc k' (assign k v l) = assoc k' l.
Proof.
  intros Hne. induction l as [|[k0 v0] l IH]; cbn.
  - destruct (String.eqb_spec k' k); [congruence | reflexivity].
  - destruct (String.eqb_spec k k0) as [->|Hk]; cbn.
    + destruct (String.eqb_spec k' k0); [congruence | reflexivity].
    + destruct (String.eqb_spec k' k0); [reflexivity | exact IH].
Qed.

Lemma getItem_removeItem (ls : Storage) (k k' : string) :
  getItem (removeItem ls k) k' = if String.eqb k k' then None else getItem ls k'.
Proof.
  unfold getItem, removeItem.
  induction ls as [|[k0 v0] ls IH]; cbn; [now destruct (String.eqb k k')|].
  destruct (String.eqb_spec k k0) as [->|Hk]; cbn.
  - rewrite IH. destruct (String.eqb_spec k0 k') as [->|Hk'].
    + reflexivity.
    + destruct (String.eqb_spec k' k0); [congruence | reflexivity].
  - rewrite IH. destruct (String.eqb_spec k' k0) as [->|Hk'].
    + destruct (String.eqb_spec k k0); [congruence | reflexivity].
    + reflexivity.
Qed.

(** X1.  In a browser, a configuration saved for a service is what
    [loadServiceConfig] returns for it afterwards, whatever was stored
    before, and the configuration of every other service reads as before. *)
Theorem saveServiceConfig_then_load (ls : Storage) (sid sid' : string)
    (cfg : json) :
  loadServiceConfig (saveServiceConfig (Some ls) sid cfg) sid'
  = if String.eqb sid sid' then Some cfg
    else loadServiceConfig (Some ls) sid'.
Proof.
  unfold loadServiceConfig, saveServiceConfig, getItem, setItem.
  destruct (String.eqb_spec sid sid') as [->|Hne].
  - now rewrite assoc_assign.
  - rewrite assoc_assign_ne; [reflexivity|].
    intros H. now apply getStorageKey_inj in H.
Qed.

(** X2.  After [removeServiceConfig] the service has no configuration, and
    the configuration of every other service reads as before. *)
Theorem removeServiceConfig_then_load (ls : Storage) (sid sid' : string) :
  loadServiceConfig (removeServiceConfig (Some ls) sid) sid'
  = if String.eqb sid sid' then None
    else loadServiceConfig (Some ls) sid'.
Proof.
  unfold loadServiceConfig, removeServiceConfig.
  rewrite getItem_removeItem.
  destruct (String.eqb_spec sid sid') as [->|Hne].
  - now rewrite String.eqb_refl.
  - destruct (String.eqb_spec (getStorageKey sid) (getStorageKey sid')) as [H|_];
      [|reflexivity].
    now apply getStorageKey_inj in H.
Qed.

End StoreRoundTrips.

Section StoreClearing.
Import Js Json StorageTs.

Lemma fold_removeItem (keys : list string) (ls : Storage) :
  fold_left removeItem keys ls
  = List.filter (fun kv => negb (existsb (fun k => String.eqb k (fst kv)) keys)) ls.
Proof.
  revert ls. induction keys as [|k keys IH]; intros ls; cbn.
  - induction ls as [|kv ls IHl]; cbn; [reflexivity | now rewrite <- IHl].
  - rewrite IH. unfold removeItem.
    induction ls as [|kv ls IHl]; cbn; [reflexivity|].
    destruct (String.eqb k (fst kv)); cbn; [exact IHl|].
    destruct (existsb _ keys); cbn; [exact IHl | now rewrite IHl].
Qed.

(** What [clearAllConfigs] leaves: the items whose key lacks the prefix. *)
Lemma clearAllConfigs_filter (ls : Storage) :
  clearAllConfigs (Some ls)
  = Some (List.filter (fun kv => negb (hasPrefix kv)) ls).
Proof.
  unfold clearAllConfigs. rewrite fold_removeItem. f_equal.
  apply filter_ext_in. intros kv Hin. f_equal.
  unfold hasPrefix.
  destruct (Js.truthy (fst kv) && startsWith (fst kv) STORAGE_PREFIX) eqn:E.
  - apply existsb_exists. exists (fst kv). split; [|apply String.eqb_refl].
    apply filter_In. split; [now apply in_map | exact E].
  - apply not_true_is_false. intros H.
    apply existsb_exists in H as (k & Hk & Heq).
    apply String.eqb_eq in Heq. subst k.
    apply filter_In in Hk as [_ Hk]. congruence.
Qed.

Lemma assoc_filter_out {A} (p : string -> bool) (k : string)
    (l : list (string * A)) :
  p k = false ->
  assoc k (List.filter (fun kv => p (fst kv)) l) = None.
Proof.
  intros Hk. induction l as [|[k0 v0] l IH]; cbn; [reflexivity|].
  destruct (p k0) eqn:E; cbn; [|exact IH].
  destruct (String.eqb_spec k k0); [congruence | exact IH].
Qed.

Lemma assoc_filter_in {A} (p : string -> bool) (k : string)
    (l : list (string * A)) :
  p k = true ->
  assoc k (List.filter (fun kv => p (fst kv)) l) = assoc k l.
Proof.
  intros Hk. induction l as [|[k0 v0] l IH]; cbn; [reflexivity|].
  destruct (p k0) eqn:E; cbn.
  - now destruct (String.eqb k k0).
  - destruct (String.eqb_spec k k0); [congruence | exact IH].
Qed.

Lemma startsWith_key (sid : string) :
  startsWith (getStorageKey sid) STORAGE_PREFIX = true.
Proof. apply prefix_split. now exists ("-" ++ sid). Qed.

Lemma startsWith_truthy (key : string) :
  startsWith key STORAGE_PREFIX = true -> Js.truthy key = true.
Proof. now destruct key. Qed.

Lemma startsWith_dash (key : string) :
  startsWith key (STORAGE_PREFIX ++ "-") = true ->
  startsWith key STORAGE_PREFIX = true.
Proof.
  intros H. apply prefix_split in H as [r ->]. apply prefix_split.
  exists ("-" ++ r). now rewrite append_assoc.
Qed.

Lemma filter_hasPrefix_none (items : Storage) :
  (forall kv, In kv items -> hasPrefix kv = false) ->
  List.filter hasPrefix items = [].
Proof.
  induction items as [|kv l IH]; intros H; [reflexivity|]. cbn.
  rewrite (H kv) by now left. apply IH. intros x Hx. apply H. now right.
Qed.

Lemma getAll_fold_noprefix (window : Window) (items : Storage)
    (acc : gmap string json) :
  (forall kv, In kv items -> hasPrefix kv = false) ->
  fold_left (getAll_step window) items acc = acc.
Proof.
  revert acc. induction items as [|kv l IH]; intros acc H; [reflexivity|].
  cbn [fold_left].
  assert (Hs : getAll_step window acc kv = acc).
  { unfold getAll_step. cbn zeta.
    pose proof (H kv (or_introl eq_refl)) as Hkv. unfold hasPrefix in Hkv.
    now rewrite Hkv. }
  rewrite Hs. apply IH. intros x Hx. apply H. now right.
Qed.

Lemma loadAll_fold_noprefix (ls items : Storage) (acc : gmap string json) :
  (forall kv, In kv items -> hasPrefix kv = false) ->
  fold_left (loadAll_step ls) items (Some acc) = Some acc.
Proof.
  revert acc. induction items as [|kv l IH]; intros acc H; [reflexivity|].
  cbn [fold_left].
  assert (Hs : loadAll_step ls (Some acc) kv = Some acc).
  { unfold loadAll_step. cbn zeta.
    pose proof (H kv (or_introl eq_refl)) as Hkv. unfold hasPrefix in Hkv.
    destruct (Js.truthy (fst kv)); cbn [andb] in *; [|reflexivity].
    destruct (startsWith (fst kv) (STORAGE_PREFIX ++ "-")) eqn:E;
      [|reflexivity].
    apply startsWith_dash in E. congruence. }
  rewrite Hs. apply IH. intros x Hx. apply H. now right.
Qed.

(** X3.  [clearAllConfigs] removes everything the application stored: no
    service id is listed afterwards, no service has a configuration, and
    the tool selection, whose key carries the same prefix, is gone with
    them; items of other applications, whose keys lack the prefix, are
    untouched. *)
Theorem clearAllConfigs_clears (ls : Storage) :
  exists ls',
    clearAllConfigs (Some ls) = Some ls' /\
    getServiceIds (Some ls') = [] /\
    getAllServiceConfigs (Some ls') = ∅ /\
    loadAllServiceConfigs (Some ls') = ∅ /\
    (forall sid, loadServiceConfig (Some ls') sid = None) /\
    loadToolSelection (Some ls') = JObj [] /\
    (forall key, startsWith key STORAGE_PREFIX = false ->
                 getItem ls' key = getItem ls key).
Proof.
  eexists. split; [apply clearAllConfigs_filter|].
  set (ls' := List.filter (fun kv => negb (hasPrefix kv)) ls).
  assert (Hnone : forall kv, In kv ls' -> hasPrefix kv = false).
  { intros kv H. apply filter_In in H as [_ H]. now apply negb_true_iff. }
  assert (Hkey : forall key, startsWith key STORAGE_PREFIX = true ->
                             getItem ls' key = None).
  { intros key Hk. unfold getItem, ls'.
    apply (assoc_filter_out
             (fun k => negb (Js.truthy k && startsWith k STORAGE_PREFIX))).
    now rewrite Hk, (startsWith_truthy key Hk). }
  split; [|split; [|split; [|split; [|split]]]].
  - rewrite getServiceIds_filter. now rewrite filter_hasPrefix_none.
  - unfold getAllServiceConfigs. now apply getAll_fold_noprefix.
  - unfold loadAllServiceConfigs. now rewrite loadAll_fold_noprefix.
  - intros sid. unfold loadServiceConfig.
    now rewrite (Hkey _ (startsWith_key sid)).
  - unfold loadToolSelection.
    change TOOL_SELECTION_KEY with (getStorageKey "tool-selection").
    now rewrite (Hkey _ (startsWith_key "tool-selection")).
  - intros key Hk. unfold getItem, ls'.
    apply (assoc_filter_in
             (fun k => negb (Js.truthy k && startsWith k STORAGE_PREFIX))).
    rewrite Hk. now rewrite andb_false_r.
Qed.

End StoreClearing.

Section ToolSelectionRoundTrips.
Import Js Json StorageTs.

Lemma loadToolSelection_saved (ls : Storage) (v : json) :
  loadToolSelection (saveToolSelection (Some ls) v) = v.
Proof.
  unfold loadToolSelection, saveToolSelection, getItem, setItem.
  now rewrite assoc_assign.
Qed.

Lemma selectedIn_spreadWith (fields : list (string * json)) (id id' : string)
    (b : bool) :
  selectedIn (spreadWith (JObj fields) id (JBool b)) id'
  = if String.eqb id id' then Val b else selectedIn (JObj fields) id'.
Proof.
  unfold selectedIn, spreadWith, ResM.prop, field. cbn [ResM.bind].
  destruct (String.eqb_spec id id') as [<-|Hne].
  - now rewrite assoc_assign.
  - now rewrite assoc_assign_ne.
Qed.

Lemma setToolSelection_reads_back (ls : Storage)
    (serviceId toolName : string) (selected : bool) :
  selectedIn
    (loadToolSelection (setToolSelection (Some ls) serviceId toolName selected))
    (toolId serviceId toolName) = Val selected.
Proof.
  unfold setToolSelection. rewrite loadToolSelection_saved.
  unfold selectedIn, spreadWith, ResM.prop, field. cbn [ResM.bind].
  now rewrite assoc_assign.
Qed.

(** X4.  After [setToolSelection] the tool reads back as it was set,
    whatever was stored before; when the stored selection is an object,
    every tool with another id reads as it did before. *)
Theorem setToolSelection_then_isToolSelected (ls : Storage)
    (serviceId toolName : string) (selected : bool) :
  isToolSelected (setToolSelection (Some ls) serviceId toolName selected)
    serviceId toolName = Val selected /\
  forall fields serviceId' toolName',
    loadToolSelection (Some ls) = JObj fields ->
    toolId serviceId toolName <> toolId serviceId' toolName' ->
    isToolSelected (setToolSelection (Some ls) serviceId toolName selected)
      serviceId' toolName'
    = isToolSelected (Some ls) serviceId' toolName'.
Proof.
  split; [apply setToolSelection_reads_back|].
  unfold isToolSelected, setToolSelection.
  intros fields sid' tn' Hobj Hne.
  rewrite loadToolSelection_saved, Hobj, selectedIn_spreadWith.
  now destruct (String.eqb_spec (toolId serviceId toolName) (toolId sid' tn')).
Qed.

Lemma setToolSelection_then_isToolSelected_witness :
  isToolSelected
    (setToolSelection (Some sampleStore) "github" "delete_repo" true)
    "github" "list_repos"
  = isToolSelected (Some sampleStore) "github" "list_repos".
Proof.
  eapply (proj2 (setToolSelection_then_isToolSelected
                   sampleStore "github" "delete_repo" true)).
  - reflexivity.
  - discriminate.
Defined.

(** X5.  [toggleToolSelection] on a stored selection that is an object (or
    on none) succeeds and inverts what [isToolSelected] answers for the
    tool, leaving every other tool id as it was; a tool never mentioned,
    selected by default, is thereby switched off. *)
Theorem toggleToolSelection_flips (ls : Storage) (fields : list (string * json))
    (serviceId toolName : string) :
  loadToolSelection (Some ls) = JObj fields ->
  exists current window',
    isToolSelected (Some ls) serviceId toolName = Val current /\
    toggleToolSelection (Some ls) serviceId toolName = Val window' /\
    (assoc (toolId serviceId toolName) fields = None -> current = true) /\
    forall serviceId' toolName',
      isToolSelected window' serviceId' toolName'
      = if String.eqb (toolId serviceId toolName) (toolId serviceId' toolName')
        then Val (negb current)
        else isToolSelected (Some ls) serviceId' toolName'.
Proof.
  intros Hobj. unfold isToolSelected, toggleToolSelection. cbn zeta.
  rewrite Hobj.
  destruct (selectedIn (JObj fields) (toolId serviceId toolName))
    as [current|e] eqn:Hcur; [|discriminate Hcur].
  exists current. eexists. split; [reflexivity|].
  split; [reflexivity|]. split.
  - intros Hnone. unfold selectedIn, ResM.prop, field in Hcur.
    cbn [ResM.bind] in Hcur. rewrite Hnone in Hcur. now injection Hcur.
  - intros sid' tn'. rewrite loadToolSelection_saved.
    apply selectedIn_spreadWith.
Qed.

Lemma toggleToolSelection_flips_witness :
  exists current window',
    isToolSelected (Some []) "github" "list_repos" = Val current /\
    toggleToolSelection (Some []) "github" "list_repos" = Val window' /\
    (assoc (A := json) (toolId "github" "list_repos") [] = None ->
     current = true) /\
    forall serviceId' toolName',
      isToolSelected window' serviceId' toolName'
      = if String.eqb (toolId "github" "list_repos")
                      (toolId serviceId' toolName')
        then Val (negb current)
        else isToolSelected (Some []) serviceId' toolName'.
Proof.
  apply (toggleToolSelection_flips [] [] "github" "list_repos"). reflexivity.
Defined.

(** X6.  The tool id does not separate its two parts: a colon in the
    service id or in the tool name lets two different tools share one id,
    and then setting the selection of one sets that of the other. *)
Theorem toolId_collision (ls : Storage) (a b c : string) (selected : bool) :
  toolId (a ++ ":" ++ b) c = toolId a (b ++ ":" ++ c) /\
  isToolSelected (setToolSelection (Some ls) (a ++ ":" ++ b) c selected)
    a (b ++ ":" ++ c) = Val selected.
Proof.
  assert (Hid : toolId (a ++ ":" ++ b) c = toolId a (b ++ ":" ++ c)).
  { unfold toolId. now rewrite !append_assoc. }
  split; [exact Hid|].
  unfold isToolSelected. rewrite <- Hid. apply setToolSelection_reads_back.
Qed.

End ToolSelectionRoundTrips.

Section StoreEnumeration.
Import Js Json StorageTs.











End StoreEnumeration.

Section StoreLoadAll.
Import Js Json StorageTs.






End StoreLoadAll.

(** ** The client class and the pooled actions *)

Section ClientMethods.
Import Json Monad McpTs Actions.
Local Open Scope list_scope.
Context (w : World).

(** X10.  [disconnect] never throws.  On a connected client it closes the
    connection once and, when closing succeeds, marks the client as not
    connected; when closing fails the error is swallowed and the client
    stays marked as connected.  On a client that is not connected, or on a
    handle without an instance, it does nothing.  The pool is never
    touched. *)
Theorem disconnect_never_throws (c : nat) (s : Sys) :
  exists s' evs,
    disconnect w c s = (Val tt, s') /\
    trace s' = trace s ++ EvDisconnect c :: evs /\
    clientPool s' = clientPool s /\
    match clients s !! c with
    | Some cl =>
        if isConnected cl then
          match sdk_close w (clock s) with
          | None =>
              evs = [EvClose c true] /\
              clients s' =
                <[c := {| config := config cl; isConnected := false |}]>
                  (clients s)
          | Some _ => evs = [EvClose c false] /\ clients s' = clients s
          end
        else evs = [] /\ s' = Build_Sys (clock s) (clients s) (clientPool s)
                                   (client_var s) (trace s ++ [EvDisconnect c])
    | None => evs = [] /\ clients s' = clients s
    end.
Proof.
  destruct s as [clk cs pool cv tr].
  unfold disconnect, this, set_isConnected, this, try_catch, bind, get, tick,
    emit, set_clients, ret, throw. cbn.
  destruct (cs !! c) as [cl|] eqn:Hc; cbn.
  - destruct (isConnected cl); cbn.
    + destruct (sdk_close w clk); cbn; rewrite ?Hc; cbn;
        do 2 eexists; rewrite <- ?app_assoc; cbn; repeat split; reflexivity.
    + do 2 eexists. repeat split; reflexivity.
  - do 2 eexists. repeat split; reflexivity.
Qed.

(** X11.  Every method of the client that talks to the server refuses to
    run on a client that is not connected: it throws the error of
    [ensureConnected], unwrapped, and sends nothing. *)
Theorem methods_require_connection (c : nat) (s : Sys) (cl : Client)
    (name uri : string) (arguments : json) :
  clients s !! c = Some cl ->
  isConnected cl = false ->
  let refused {A} : Res A * Sys :=
    (Thrown (Error "MCP Client is not connected. Call connect() first."), s) in
  listTools w c s = refused /\
  callTool w c name arguments s = refused /\
  listPrompts w c s = refused /\
  getPrompt w c name arguments s = refused /\
  listResources w c s = refused /\
  readResource w c uri s = refused.
Proof.
  intros Hc Hcl. cbn zeta.
  unfold listTools, callTool, listPrompts, getPrompt, listResources,
    readResource, ensureConnected, this, bind, get, ret, throw.
  rewrite Hc, Hcl. cbn. repeat split; reflexivity.
Qed.

End ClientMethods.

Lemma methods_require_connection_witness :
  McpTs.listTools sampleWorld 0
    (Build_Sys 0 [{| config := sampleConfig; isConnected := false |}] ∅ None [])
  = (Thrown (Error "MCP Client is not connected. Call connect() first."),
     Build_Sys 0 [{| config := sampleConfig; isConnected := false |}] ∅ None []).
Proof.
  exact (proj1 (methods_require_connection sampleWorld 0
                  (Build_Sys 0 [{| config := sampleConfig;
                                   isConnected := false |}] ∅ None [])
                  {| config := sampleConfig; isConnected := false |}
                  "" "" JNull eq_refl eq_refl)).
Defined.

Section PooledActions.
Import Json Monad McpTs Actions.
Local Open Scope list_scope.
Context (w : World).

Ltac run := repeat (progress (cbn; rewrite ?lookup_fresh, ?insert_fresh)).

Ltac exists_t t pre :=
  match goal with
  | |- exists r s' t' pre', _ =>
      destruct (sdk_listTools w t) eqn:?; run;
      do 2 eexists; exists t, pre;
      match goal with
      | H : sdk_listTools w t = _ |- _ => rewrite H
      end;
      (split; [reflexivity|]); cbn;
      rewrite <- ?app_assoc, ?insert_delete_eq, ?lookup_fresh; cbn;
      repeat split; reflexivity
  end.

(** What [disconnect] leaves of the state: the pool and the variable of
    the action are as before, no instance is added or removed. *)
Lemma disconnect_frame (c : nat) (s : Sys) :
  exists clk' cs' evs,
    disconnect w c s
    = (Val tt,
       Build_Sys clk' cs' (clientPool s) (client_var s) (trace s ++ evs)) /\
    length cs' = length (clients s).
Proof.
  destruct s as [clk cs pool cv tr].
  unfold disconnect, this, set_isConnected, this, try_catch, bind, get, tick,
    emit, set_clients, ret, throw. cbn.
  destruct (cs !! c) as [cl|] eqn:Hc; cbn.
  - destruct (isConnected cl); cbn.
    + destruct (sdk_close w clk); cbn; rewrite ?Hc; cbn;
        rewrite <- ?app_assoc; do 3 eexists;
        (split; [reflexivity|]); rewrite ?length_insert; reflexivity.
    + do 3 eexists. split; reflexivity.
  - do 3 eexists. split; reflexivity.
Qed.

(** The opening block of [connectToMCPServer] and the body of
    [disconnectFromMCPServer]: afterwards the pool has no entry for the
    service. *)
Lemma drop_existing (serviceId : string) (s : Sys) :
  exists clk' cs' evs,
    match clientPool s !! serviceId with
    | Some c =>
        bind (disconnect w c) (fun _ =>
        bind get (fun s' =>
        set_clientPool (delete serviceId (clientPool s'))))
    | None => ret tt
    end s
    = (Val tt,
       Build_Sys clk' cs' (delete serviceId (clientPool s)) (client_var s)
                 (trace s ++ evs)) /\
    length cs' = length (clients s).
Proof.
  destruct (clientPool s !! serviceId) as [c|] eqn:Hp.
  - destruct (disconnect_frame c s) as (clk' & cs' & evs & Hd & Hlen).
    exists clk', cs', evs. split; [|exact Hlen].
    erewrite bind_val by exact Hd. reflexivity.
  - destruct s as [clk cs pool cv tr]. cbn in *.
    exists clk, cs, []. rewrite app_nil_r, delete_id by exact Hp.
    split; reflexivity.
Qed.

(** X12.  [disconnectFromMCPServer] always reports success, also when the
    service has no pooled client or when closing the connection fails;
    afterwards the pool has no entry for the service, so a pooled
    [callMCPTool] for it is answered with an error and nothing is sent. *)
Theorem disconnectFromMCPServer_always_succeeds (serviceId : string) (s : Sys) :
  exists s',
    disconnectFromMCPServer w serviceId s = (Val (Success tt), s') /\
    clientPool s' = delete serviceId (clientPool s) /\
    forall toolName arguments_,
      callMCPTool w serviceId toolName arguments_ s'
      = (Val (Failure ("No active connection for service " ++ serviceId
           ++ ". Please test connection first or use the stateless callMCPToolWithConfig function.")%string),
         s').
Proof.
  destruct (drop_existing serviceId s) as (clk' & cs' & evs & Hd & _).
  eexists. split; [|split].
  - unfold disconnectFromMCPServer, try_catch.
    unfold bind at 1. unfold get at 1.
    erewrite bind_val by exact Hd. reflexivity.
  - reflexivity.
  - intros toolName arguments_.
    unfold callMCPTool, try_catch, bind, get. cbn.
    now rewrite lookup_delete_eq.
Qed.

(** X13.  [connectToMCPServer] puts the new client into the pool as soon
    as the connection is up and lists the tools afterwards: when the
    listing fails the action reports failure, yet the client stays in the
    pool, connected, and was not disconnected. *)
Theorem connectToMCPServer_pools_before_listing (serviceId : string)
    (fields : list (string * json)) (s : Sys) :
  URL_ok w (assoc "url" fields) = true ->
  (forall t transport, sdk_connect w t transport = None) ->
  let c := length (clients s) in
  exists r s' t pre,
    connectToMCPServer w serviceId (JObj fields) s = (Val r, s') /\
    r = match sdk_listTools w t with
        | inr tools => Success (orNil tools)
        | inl e =>
            Failure ("Failed to list tools: " ++ messageOr e "Unknown error")%string
        end /\
    clientPool s' = <[serviceId := c]> (clientPool s) /\
    clients s' !! c = Some {| config := JObj fields; isConnected := true |} /\
    trace s' =
      trace s ++ pre ++
      [EvNew c; EvConnect c true;
       EvRequest c ReqListTools
         match sdk_listTools w t with inl _ => false | inr _ => true end].
Proof.
  intros Hurl Hconn. cbn zeta.
  destruct (drop_existing serviceId s) as (clk' & cs' & evs & Hd & Hlen).
  unfold connectToMCPServer, try_catch.
  unfold bind at 1. unfold get at 1.
  erewrite bind_val by exact Hd.
  rewrite <- Hlen.
  unfold newClient, connect, createTransport, listTools, ensureConnected,
    request, this, prop, set_isConnected, this, try_catch, bind, get, tick,
    emit, set_clients, set_clientPool, ret, throw.
  run. rewrite Hurl. run. rewrite Hconn. run.
  exists_t (S clk') evs.
Qed.

Lemma connect_fails_fresh (cfg : json) (clk : nat) (cs : list Client)
    (pool : gmap string nat) (cv : option nat) (tr : list Event) :
  (forall t transport, sdk_connect w t transport <> None) ->
  exists m clk' tr',
    connect w (length cs)
      (Build_Sys clk (cs ++ [{| config := cfg; isConnected := false |}])
                 pool cv tr)
    = (Thrown (Error m),
       Build_Sys clk' (cs ++ [{| config := cfg; isConnected := false |}])
                 pool cv tr').
Proof.
  intros Hfail.
  unfold connect, createTransport, this, prop, set_isConnected, this,
    try_catch, bind, get, tick, emit, set_clients, ret, throw.
  run.
  destruct cfg; run; try (do 3 eexists; reflexivity).
  all: match goal with
       | |- context [URL_ok w ?u] => destruct (URL_ok w u)
       end; run; try (do 3 eexists; reflexivity).
  all: match goal with
       | |- context [sdk_connect w ?t ?c] =>
           destruct (sdk_connect w t c) eqn:E
       end; run; [do 3 eexists; reflexivity | now apply Hfail in E].
Qed.

(** X14.  When the new connection does not come up, [connectToMCPServer]
    reports failure and the service is left without a pooled client: the
    client it had before was disconnected and removed first.  The other
    services keep their clients. *)
Theorem connectToMCPServer_failure_drops_previous (serviceId : string)
    (cfg : json) (s : Sys) :
  (forall t transport, sdk_connect w t transport <> None) ->
  exists msg s',
    connectToMCPServer w serviceId cfg s = (Val (Failure msg), s') /\
    clientPool s' = delete serviceId (clientPool s).
Proof.
  intros Hfail.
  destruct (drop_existing serviceId s) as (clk' & cs' & evs & Hd & Hlen).
  unfold connectToMCPServer, try_catch.
  unfold bind at 1. unfold get at 1.
  erewrite bind_val by exact Hd.
  erewrite bind_val by apply newClient_run.
  destruct (connect_fails_fresh cfg clk' cs' (delete serviceId (clientPool s))
              (client_var s) ((trace s ++ evs) ++ [EvNew (length cs')]) Hfail)
    as (m & clk2 & tr2 & Hc).
  erewrite bind_thrown by exact Hc.
  do 2 eexists. split; reflexivity.
Qed.

(** X15.  The pooled [callMCPTool] never throws and never connects or
    disconnects: on a pooled client that is connected it sends the one
    request on that client and leaves the client and the pool as they
    were; on a pooled client that is not connected it answers with the
    error of [ensureConnected] and sends nothing. *)
Theorem callMCPTool_uses_pooled_connection (serviceId toolName : string)
    (arguments_ : json) (s : Sys) (c : nat) (cl : Client) :
  clientPool s !! serviceId = Some c ->
  clients s !! c = Some cl ->
  exists r s',
    callMCPTool w serviceId toolName arguments_ s = (Val r, s') /\
    clientPool s' = clientPool s /\
    clients s' = clients s /\
    if isConnected cl then
      exists ok,
        trace s' =
          trace s ++ [EvRequest c (ReqCallTool toolName (orEmpty arguments_)) ok]
        /\ (ok = false -> exists m, r = Failure m)
    else
      s' = s /\
      r = Failure "MCP Client is not connected. Call connect() first.".
Proof.
  intros Hp Hc. destruct s as [clk cs pool cv tr]. cbn in Hp, Hc.
  unfold callMCPTool, callTool, ensureConnected, request, this, try_catch,
    bind, get, tick, emit, ret, throw.
  cbn. rewrite Hp. cbn. rewrite Hc. cbn.
  destruct (isConnected cl); cbn.
  - destruct (sdk_callTool w clk toolName (orEmpty arguments_)); cbn;
      do 2 eexists; (split; [reflexivity|]); cbn;
      do 2 (split; [reflexivity|]); eexists; (split; [reflexivity|]).
    + intros _. eexists. reflexivity.
    + discriminate.
  - do 2 eexists. repeat split; reflexivity.
Qed.

End PooledActions.

Lemma connectToMCPServer_pools_before_listing_witness :
  exists r s' t pre,
    Actions.connectToMCPServer brokenListingWorld "github" sampleConfig sampleSys
    = (Val r, s') /\
    r = match sdk_listTools brokenListingWorld t with
        | inr tools => Success (McpTs.orNil tools)
        | inl e =>
            Failure ("Failed to list tools: "
                     ++ Monad.messageOr e "Unknown error")%string
        end /\
    clientPool s' = <["github" := 0]> (clientPool sampleSys) /\
    clients s' !! 0 = Some {| config := sampleConfig; isConnected := true |} /\
    trace s' =
      (trace sampleSys ++ pre ++
       [EvNew 0; EvConnect 0 true;
        EvRequest 0 ReqListTools
          match sdk_listTools brokenListingWorld t with
          | inl _ => false
          | inr _ => true
          end])%list.
Proof.
  apply (connectToMCPServer_pools_before_listing brokenListingWorld "github"
           [("url", JStr "https://mcp.example.com/mcp");
            ("bearerToken", JStr "secret")] sampleSys).
  - reflexivity.
  - intros t transport. reflexivity.
Defined.

Lemma connectToMCPServer_failure_drops_previous_witness :
  exists msg s',
    Actions.connectToMCPServer unreachableWorld "github" sampleConfig pooledSys
    = (Val (Failure msg), s') /\
    clientPool s' = delete "github" (clientPool pooledSys).
Proof.
  apply (connectToMCPServer_failure_drops_previous unreachableWorld "github"
           sampleConfig pooledSys).
  intros t transport. discriminate.
Defined.

Lemma callMCPTool_uses_pooled_connection_witness :
  exists r s',
    Actions.callMCPTool sampleWorld "github" "delete_repo" (JObj []) pooledSys
    = (Val r, s') /\
    clientPool s' = clientPool pooledSys /\
    clients s' = clients pooledSys /\
    exists ok,
      trace s' =
        (trace pooledSys
         ++ [EvRequest 0 (ReqCallTool "delete_repo" (McpTs.orEmpty (JObj []))) ok])%list
      /\ (ok = false -> exists m, r = Failure m).
Proof.
  apply (callMCPTool_uses_pooled_connection sampleWorld "github" "delete_repo"
           (JObj []) pooledSys 0
           {| config := sampleConfig; isConnected := true |});
    reflexivity.
Defined.

Section ConnectionTest.
Import Js Json Monad McpTs Actions.
Local Open Scope list_scope.
Context (w : World).

Ltac run := repeat (progress (cbn; rewrite ?lookup_fresh, ?insert_fresh)).

(** X16.  [testMCPConnection] checks the URL before it creates a client: a
    configuration without a URL, or with one that is blank after trimming,
    is answered with "URL is required for HTTP transport"; one whose URL
    does not parse is answered with "Invalid URL format".  In both cases
    no client is created and nothing is sent. *)
Theorem testMCPConnection_validates_url (fields : list (string * json))
    (s : Sys) :
  let untouched :=
    Build_Sys (clock s) (clients s) (clientPool s) None (trace s) in
  (truthy_opt (assoc "url" fields) = false \/
   (exists u, assoc "url" fields = Some (JStr u) /\ trim u = "") ->
   testMCPConnection w (JObj fields) s
   = (Val (Failure "URL is required for HTTP transport"), untouched)) /\
  (forall u,
     assoc "url" fields = Some (JStr u) ->
     trim u <> "" ->
     URL_ok w (Some (JStr u)) = false ->
     testMCPConnection w (JObj fields) s
     = (Val (Failure ("Invalid URL format: " ++ u)%string), untouched)).
Proof.
  destruct s as [clk cs pool cv tr]. cbn zeta.
  unfold testMCPConnection, urlMissing, try_finally, try_catch,
    finally_disconnect, prop, bind, get, set_client_var, ret, throw.
  cbn. split.
  - intros [Hf|(u & Hu & Ht)].
    + rewrite Hf. reflexivity.
    + rewrite Hu. cbn. rewrite Ht.
      destruct (Js.truthy u); reflexivity.
  - intros u Hu Ht Hurl. rewrite Hu. cbn.
    assert (Hu' : Js.truthy u = true) by (destruct u; [now destruct Ht | reflexivity]).
    rewrite Hu'. cbn.
    destruct (String.eqb_spec (trim u) ""); [contradiction|].
    cbn. rewrite Hurl. reflexivity.
Qed.

(** X17.  When the transport rejects the connection, [testMCPConnection]
    answers with a failure whose text is chosen from the message that
    [connect] has wrapped, by the first of the tests "Failed to fetch",
    "CORS", "NetworkError" that it passes; a rejection that is not an
    [Error] is reported as "MCP connection failed: Unknown error".  The
    client that was created is disconnected; no request was sent. *)
Theorem testMCPConnection_rejected (fields : list (string * json))
    (u : string) (e : Exn) (s : Sys) :
  assoc "url" fields = Some (JStr u) ->
  trim u <> "" ->
  URL_ok w (Some (JStr u)) = true ->
  (forall transport, sdk_connect w (clock s) transport = Some e) ->
  let c := length (clients s) in
  let m := ("MCP connection failed: " ++ messageOr e "Unknown error")%string in
  exists s',
    testMCPConnection w (JObj fields) s
    = (Val (Failure
              (if includes m "Failed to fetch" then cannot_reach u
               else if includes m "CORS" then
                 "CORS error: The server needs to allow requests from this domain."
               else if includes m "NetworkError" then
                 ("Network error: Cannot connect to " ++ u
                  ++ ". Check if the server is running.")%string
               else m)), s') /\
    trace s' = trace s ++ [EvNew c; EvConnect c false; EvDisconnect c] /\
    clientPool s' = clientPool s.
Proof.
  intros Hu Ht Hurl Hrej. destruct s as [clk cs pool cv tr]. cbn in Hrej.
  cbn zeta.
  assert (Hu' : Js.truthy u = true) by (destruct u; [now destruct Ht | reflexivity]).
  unfold testMCPConnection, urlMissing, connectionErrorMessage, try_finally,
    try_catch, finally_disconnect, newClient, connect, createTransport,
    disconnect, this, prop, set_isConnected, this, try_catch, bind, get,
    tick, emit, set_clients, set_client_var, ret, throw.
  run. rewrite Hu. run. rewrite Hu'. run.
  destruct (String.eqb_spec (trim u) ""); [contradiction|].
  repeat (progress (run; rewrite ?Hu, ?Hurl, ?Hrej)).
  set (m := ("MCP connection failed: " ++ messageOr e "Unknown error")%string).
  destruct (includes m "Failed to fetch"); run;
    [|destruct (includes m "CORS"); run;
      [|destruct (includes m "NetworkError"); run]];
    rewrite ?Hu; run; rewrite <- ?app_assoc;
    eexists; repeat split; reflexivity.
Qed.

End ConnectionTest.

(** Scenario C: a URL of blanks. *)
(** A URL that consists of a blank and a no-break space. *)
Lemma testMCPConnection_validates_url_witness :
  Actions.testMCPConnection sampleWorld
    (JObj [("url", JStr (" " ++ nbsp))]) sampleSys
  = (Val (Failure "URL is required for HTTP transport"), sampleSys).
Proof.
  apply (proj1 (testMCPConnection_validates_url sampleWorld
                  [("url", JStr (" " ++ nbsp))] sampleSys)).
  right. exists (" " ++ nbsp)%string. split; reflexivity.
Defined.

Lemma testMCPConnection_rejected_witness :
  exists s',
    Actions.testMCPConnection unreachableWorld sampleConfig sampleSys
    = (Val (Failure (Actions.cannot_reach "https://mcp.example.com/mcp")), s') /\
    trace s' = [EvNew 0; EvConnect 0 false; EvDisconnect 0] /\
    clientPool s' = ∅.
Proof.
  apply (testMCPConnection_rejected unreachableWorld
           [("url", JStr "https://mcp.example.com/mcp");
            ("bearerToken", JStr "secret")]
           "https://mcp.example.com/mcp" (Error "Failed to fetch") sampleSys).
  - reflexivity.
  - intros H. vm_compute in H. discriminate H.
  - reflexivity.
  - intros transport. reflexivity.
Defined.

(** ** The client side wrappers without a configuration *)

Section HooksWithoutConfiguration.
Import Js Json Monad StorageTs.

Lemma loadServiceConfig_removed (ls : Storage) (sid : string) :
  loadServiceConfig (removeServiceConfig (Some ls) sid) sid = None.
Proof.
  unfold loadServiceConfig, removeServiceConfig.
  now rewrite getItem_removeItem, String.eqb_refl.
Qed.

Lemma loadServiceConfig_cleared (ls : Storage) (sid : string) :
  loadServiceConfig (clearAllConfigs (Some ls)) sid = None.
Proof.
  rewrite clearAllConfigs_filter. unfold loadServiceConfig, getItem.
  assert (H : assoc (getStorageKey sid)
                 (List.filter (fun kv => negb (hasPrefix kv)) ls) = None).
  { apply (assoc_filter_out
             (fun k => negb (Js.truthy k && startsWith k STORAGE_PREFIX))).
    now rewrite startsWith_key, (startsWith_truthy _ (startsWith_key sid)). }
  now rewrite H.
Qed.

(** X18.  Outside a browser, after [removeServiceConfig] for the service,
    and after [clearAllConfigs], every wrapper that works on a stored
    configuration answers with "No configuration found for service ...":
    it calls no server action, so no client is created and nothing is
    sent. *)
Theorem hooks_without_configuration (w : World) (ls : Storage)
    (window : Window) (serviceId name uri : string) (arguments_ : json)
    (s : Sys) :
  window = None \/
  window = removeServiceConfig (Some ls) serviceId \/
  window = clearAllConfigs (Some ls) ->
  let refused {A} : Res (ActionResult A) * Sys :=
    (Val (Hooks.noConfiguration serviceId), s) in
  Hooks.callMCPTool w window serviceId name arguments_ s = refused /\
  Hooks.listMCPTools w window serviceId s = refused /\
  Hooks.getMCPPrompt w window serviceId name arguments_ s = refused /\
  Hooks.listMCPPrompts w window serviceId s = refused /\
  Hooks.readMCPResource w window serviceId uri s = refused /\
  Hooks.listMCPResources w window serviceId s = refused.
Proof.
  intros Hw. cbn zeta.
  assert (Hload : loadServiceConfig window serviceId = None).
  { destruct Hw as [->|[->| ->]];
      [reflexivity | apply loadServiceConfig_removed
       | apply loadServiceConfig_cleared]. }
  unfold Hooks.callMCPTool, Hooks.listMCPTools, Hooks.getMCPPrompt,
    Hooks.listMCPPrompts, Hooks.readMCPResource, Hooks.listMCPResources,
    Hooks.withConfig.
  rewrite Hload. repeat split; reflexivity.
Qed.

Lemma hooks_without_configuration_witness :
  Hooks.callMCPTool sampleWorld
    (removeServiceConfig (Some sampleStore) "github") "github" "delete_repo"
    (JObj []) sampleSys
  = (Val (Hooks.noConfiguration "github"), sampleSys).
Proof.
  apply (hooks_without_configuration sampleWorld sampleStore
           (removeServiceConfig (Some sampleStore) "github")
           "github" "delete_repo" "" (JObj []) sampleSys).
  right. left. reflexivity.
Defined.

End HooksWithoutConfiguration.

(** ** The schemas the chat route hands to the model *)

Section ServerSchema.
Import Js Json Registry Route.

Lemma jsonSchemaToZod_lookup (js : JsonSchema) (key : string) :
  js_type js = "object" ->
  jsonSchemaToZod js !! key
  = (fun jp => if bool_decide (key ∈ js_required js)
               then unwrapOptional (shapeOf jp) else shapeOf jp)
      <$> js_properties js !! key.
Proof.
  intros Hty. unfold jsonSchemaToZod. rewrite Hty, String.eqb_refl.
  cbn zeta. unfold ZodObject. rewrite map_lookup_imap, lookup_fmap.
  now destruct (js_properties js !! key).
Qed.

Lemma shapeOf_optional (jp : JsonProperty) :
  isOptional (shapeOf jp) = true /\
  stripped (shapeOf jp) = serverType (jp_type jp) /\
  describedBy (shapeOf jp)
  = match jp_description jp with
    | Some (JStr text) => if Js.truthy text then Some (JStr text) else None
    | _ => None
    end.
Proof.
  unfold shapeOf, serverType.
  destruct (jp_description jp) as [[| | |text| |]|];
    try destruct (Js.truthy text);
    destruct (String.eqb (jp_type jp) "string"),
      (String.eqb (jp_type jp) "number"),
      (String.eqb (jp_type jp) "boolean"),
      (String.eqb (jp_type jp) "array"); repeat split; reflexivity.
Qed.

Lemma unwrapOptional_shapeOf (jp : JsonProperty) :
  unwrapOptional (shapeOf jp) = serverType (jp_type jp).
Proof.
  unfold shapeOf, serverType.
  destruct (jp_description jp) as [[| | |text| |]|];
    try destruct (Js.truthy text);
    destruct (String.eqb (jp_type jp) "string"),
      (String.eqb (jp_type jp) "number"),
      (String.eqb (jp_type jp) "boolean"),
      (String.eqb (jp_type jp) "array"); reflexivity.
Qed.

Lemma serverType_plain (ty : string) :
  isOptional (serverType ty) = false /\
  stripped (serverType ty) = serverType ty /\
  describedBy (serverType ty) = None.
Proof.
  unfold serverType.
  destruct (String.eqb ty "string"), (String.eqb ty "number"),
    (String.eqb ty "boolean"), (String.eqb ty "array");
    repeat split; reflexivity.
Qed.



(** Any schema that is not of type [object] becomes the empty object
    schema. *)
Lemma jsonSchemaToZod_not_object (js : JsonSchema) :
  js_type js <> "object" -> jsonSchemaToZod js = ∅.
Proof.
  intros H. unfold jsonSchemaToZod. apply String.eqb_neq in H. now rewrite H.
Qed.

End ServerSchema.

Section EndToEndSchema.
Import Js Json Registry Route.

Lemma convertToJsonSchema_lookup (schema : InputSchema) :
  type schema = "object" ->
  nonNullProperties schema ->
  exists js,
    convertToJsonSchema (Some schema) = Val js /\
    js_type js = "object" /\
    js_required js = default [] (required schema) /\
    forall key,
      match default ∅ (properties schema) !! key with
      | Some p =>
          exists jp, jsonField p = Val jp /\
                     js_properties js !! key
                     = if String.eqb key "__proto__" then None else Some jp
      | None => js_properties js !! key = None
      end.
Proof.
  intros Hty Hnn. unfold convertToJsonSchema.
  rewrite Hty. cbn [String.eqb Ascii.eqb Bool.eqb negb].
  destruct (fold_properties (fun _ => jsonField)
              (default ∅ (properties schema))) as (jsp & Hjs & Hj).
  { intros key p Hk.
    destruct (jsonField_nonnull p (Hnn key p Hk)) as (jp & Hjf & _).
    now exists jp. }
  eexists. split.
  { unfold ResM.bind at 1. cbn zeta. rewrite Hjs. reflexivity. }
  repeat split. exact Hj.
Qed.

Lemma convertToZodSchema_lookup (schema : InputSchema) :
  type schema = "object" ->
  nonNullProperties schema ->
  exists zod,
    convertToZodSchema (Some schema) = Val zod /\
    forall key,
      match default ∅ (properties schema) !! key with
      | Some p =>
          exists z, zodField (default [] (required schema)) key p = Val z /\
                    zod !! key
                    = if String.eqb key "__proto__" then None else Some z
      | None => zod !! key = None
      end.
Proof.
  intros Hty Hnn. unfold convertToZodSchema, ZodObject.
  rewrite Hty. cbn [String.eqb Ascii.eqb Bool.eqb negb].
  destruct (fold_properties (zodField (default [] (required schema)))
              (default ∅ (properties schema))) as (zod & Hzod & Hz).
  { intros key p Hk.
    destruct (zodField_nonnull (default [] (required schema)) key p
                (Hnn key p Hk)) as (z & Hzf & _).
    now exists z. }
  exists zod. split; [exact Hzod | exact Hz].
Qed.

(** X20.  From the descriptor of a remote tool to the schema the model is
    given by the chat route, next to the schema the client builds for
    validation, for a descriptor of type [object] none of whose property
    schemas is null and for a property that is not named [__proto__]:
    both have the property, and it is optional in both exactly when it is
    not required; for a declared string, number or boolean the two agree;
    for an array the route accepts any items; and a property of a type
    outside the four is described to the model as a string, while the
    client's validation schema accepts anything for it. *)
Theorem model_schema_of_descriptor (schema : InputSchema) (key : string)
    (p : json) :
  type schema = "object" ->
  nonNullProperties schema ->
  key <> "__proto__" ->
  default ∅ (properties schema) !! key = Some p ->
  exists js zod z zc,
    convertToJsonSchema (Some schema) = Val js /\
    convertToZodSchema (Some schema) = Val zod /\
    jsonSchemaToZod js !! key = Some z /\
    zod !! key = Some zc /\
    isOptional z = isOptional zc /\
    isOptional z = negb (bool_decide (key ∈ default [] (required schema))) /\
    (field p "type" = Some (JStr "string") ->
     stripped z = ZString /\ stripped zc = ZString) /\
    (field p "type" = Some (JStr "number") ->
     stripped z = ZNumber /\ stripped zc = ZNumber) /\
    (field p "type" = Some (JStr "boolean") ->
     stripped z = ZBoolean /\ stripped zc = ZBoolean) /\
    (field p "type" = Some (JStr "array") ->
     stripped z = ZArray ZAny /\ stripped zc = ZArray ZUnknown) /\
    (recognized (field p "type") = false ->
     stripped z = ZString /\ stripped zc = ZUnknown).
Proof.
  intros Hty Hnn Hkey Hp.
  destruct (convertToJsonSchema_lookup schema Hty Hnn)
    as (js & Hjs & Hjt & Hreq & Hj).
  destruct (convertToZodSchema_lookup schema Hty Hnn) as (zod & Hzod & Hz).
  specialize (Hj key). specialize (Hz key). rewrite Hp in Hj, Hz.
  destruct Hj as (jp & Hjf & Hjp). destruct Hz as (zc & Hzf & Hzc).
  apply String.eqb_neq in Hkey. rewrite Hkey in Hjp, Hzc.
  destruct (jsonField_nonnull p (Hnn key p Hp))
    as (jp' & Hjf' & _ & Hs & Hn & Hb & Ha & Hu).
  rewrite Hjf in Hjf'. injection Hjf' as <-.
  destruct (zodField_nonnull (default [] (required schema)) key p
              (Hnn key p Hp)) as (zc' & Hzf' & Ho & Hs' & Hn' & Hb' & Ha' & Hu').
  rewrite Hzf in Hzf'. injection Hzf' as <-.
  pose proof (jsonSchemaToZod_lookup js key Hjt) as Hl.
  rewrite Hjp in Hl. cbn in Hl. rewrite Hreq in Hl.
  eexists js, zod, _, zc. split; [exact Hjs|]. split; [exact Hzod|].
  split; [exact Hl|]. split; [exact Hzc|].
  assert (Hopt : isOptional
                   (if bool_decide (key ∈ default [] (required schema))
                    then unwrapOptional (shapeOf jp) else shapeOf jp)
                 = negb (bool_decide (key ∈ default [] (required schema)))).
  { destruct (bool_decide (key ∈ default [] (required schema))); cbn.
    - rewrite unwrapOptional_shapeOf. apply serverType_plain.
    - apply shapeOf_optional. }
  assert (Hstr : stripped
                   (if bool_decide (key ∈ default [] (required schema))
                    then unwrapOptional (shapeOf jp) else shapeOf jp)
                 = serverType (jp_type jp)).
  { destruct (bool_decide (key ∈ default [] (required schema))); cbn.
    - rewrite unwrapOptional_shapeOf. apply serverType_plain.
    - apply shapeOf_optional. }
  rewrite Hstr, Hopt, Ho.
  split; [reflexivity|]. split; [reflexivity|].
  repeat match goal with |- (_ -> _) /\ _ => split end; intros H.
  - destruct (Hs H) as [-> _]. split; [reflexivity | now apply Hs'].
  - destruct (Hn H) as [-> _]. split; [reflexivity | now apply Hn'].
  - destruct (Hb H) as [-> _]. split; [reflexivity | now apply Hb'].
  - destruct (Ha H) as [-> _]. split; [reflexivity | now apply Ha'].
  - destruct (Hu H) as [-> _]. split; [reflexivity | now apply Hu'].
Qed.

End EndToEndSchema.

(** A property declared [integer]: a string for the model, anything for
    the client. *)
Lemma model_schema_of_descriptor_witness :
  exists js zod z zc,
    Registry.convertToJsonSchema
      (Some (schemaWith (JObj [("type", JStr "integer")]))) = Val js /\
    Registry.convertToZodSchema
      (Some (schemaWith (JObj [("type", JStr "integer")]))) = Val zod /\
    Route.jsonSchemaToZod js !! "count" = Some z /\
    zod !! "count" = Some zc /\
    stripped z = ZString /\ stripped zc = ZUnknown.
Proof.
  destruct (model_schema_of_descriptor
              (schemaWith (JObj [("type", JStr "integer")])) "count"
              (JObj [("type", JStr "integer")]) eq_refl)
    as (js & zod & z & zc & Hjs & Hzod & Hz & Hzc & _ & _ & _ & _ & _ & _ & Hu).
  - intros key p H. cbn in H.
    apply lookup_singleton_Some in H as [_ <-]. discriminate.
  - discriminate.
  - reflexivity.
  - exists js, zod, z, zc. destruct (Hu eq_refl) as [H1 H2]. auto 10.
Defined.

(** ** The registry's loop over the services *)

Section RegistryFetch.
Import Js Json Monad StorageTs Registry.
Local Open Scope list_scope.
Context (w : World) (window : Window).



End RegistryFetch.

(** ** A null property schema *)

Section NullPropertySchema.
Import Js Json Monad StorageTs Registry.

(** The loops over the properties with a body that throws nothing but
    [e]: the loop throws nothing else, and it throws when the body throws
    on one of the properties. *)
Lemma fold_throws {B} (f : string -> json -> Res B) (e : Exn)
    (props : gmap string json) :
  (forall key p, f key p = Thrown e \/ exists b, f key p = Val b) ->
  let r :=
    map_fold
      (fun key prop (acc : Res (gmap string B)) =>
         ResM.bind acc (fun fields =>
         ResM.bind (f key prop) (fun b => Val (setProperty key b fields))))
      (Val ∅) props in
  (r = Thrown e \/ exists out, r = Val out) /\
  ((exists key p, props !! key = Some p /\ f key p = Thrown e) ->
   r = Thrown e).
Proof.
  intros Hf. cbn zeta.
  apply (map_fold_weak_ind
    (fun (r : Res (gmap string B)) (m : gmap string json) =>
       (r = Thrown e \/ exists out, r = Val out) /\
       ((exists key p, m !! key = Some p /\ f key p = Thrown e) ->
        r = Thrown e))).
  - split; [right; now exists ∅|].
    intros (key & p & H & _). now rewrite lookup_empty in H.
  - intros i x m r Hi [Hr Hthrow].
    destruct Hr as [->|[out ->]]; cbn [ResM.bind].
    + split; [now left | reflexivity].
    + destruct (Hf i x) as [Hx|[b Hx]]; rewrite Hx; cbn [ResM.bind].
      * split; [now left | reflexivity].
      * split; [right; eauto|].
        intros (key & p & Hk & Hp).
        destruct (decide (i = key)) as [->|Hne].
        -- rewrite lookup_insert_eq in Hk. injection Hk as ->. congruence.
        -- rewrite lookup_insert_ne in Hk by exact Hne.
           discriminate Hthrow. eauto.
Qed.

Lemma zodField_cases (required : list string) (key : string) (p : json) :
  zodField required key p = Thrown nullPropertyError \/
  exists z, zodField required key p = Val z.
Proof.
  assert (Hp : p = JNull \/ p <> JNull) by (destruct p; auto; now right).
  destruct Hp as [->|Hp]; [now left|].
  destruct (zodField_nonnull required key p Hp) as (z & H & _). eauto.
Qed.

Lemma jsonField_cases (p : json) :
  jsonField p = Thrown nullPropertyError \/ exists jp, jsonField p = Val jp.
Proof.
  assert (Hp : p = JNull \/ p <> JNull) by (destruct p; auto; now right).
  destruct Hp as [->|Hp]; [now left|].
  destruct (jsonField_nonnull p Hp) as (jp & H & _). eauto.
Qed.

(** The conversion of a descriptor throws nothing but the error of reading
    a null property schema. *)
Lemma convertToAISDKTool_cases (t : MCPToolDefinition) :
  convertToAISDKTool t = Thrown nullPropertyError \/
  exists ai, convertToAISDKTool t = Val ai.
Proof.
  unfold convertToAISDKTool, convertToZodSchema, convertToJsonSchema, ZodObject.
  destruct (inputSchema t) as [schema|]; [|right; cbn; eauto].
  destruct (negb (String.eqb (type schema) "object")); [right; cbn; eauto|].
  destruct (fold_throws (zodField (default [] (required schema)))
              nullPropertyError (default ∅ (properties schema))
              (zodField_cases _)) as [[->|[zod ->]] _];
    cbn [ResM.bind]; [now left|].
  destruct (fold_throws (fun _ => jsonField) nullPropertyError
              (default ∅ (properties schema))
              (fun _ => jsonField_cases)) as [[->|[js ->]] _];
    cbn [ResM.bind]; [now left | right; eauto].
Qed.

Lemma convertToAISDKTool_null (t : MCPToolDefinition) (schema : InputSchema)
    (key : string) :
  inputSchema t = Some schema ->
  type schema = "object" ->
  default ∅ (properties schema) !! key = Some JNull ->
  convertToAISDKTool t = Thrown nullPropertyError.
Proof.
  intros Hs Hty Hk. unfold convertToAISDKTool, convertToZodSchema, ZodObject.
  rewrite Hs, Hty. cbn [String.eqb Ascii.eqb Bool.eqb negb].
  destruct (fold_throws (zodField (default [] (required schema)))
              nullPropertyError (default ∅ (properties schema))
              (zodField_cases _)) as [_ H].
  rewrite H; [reflexivity|]. exists key, JNull. split; [exact Hk | reflexivity].
Qed.

Lemma map_throws {A B} (f : A -> Res B) (e : Exn) (l : list A) (x : A) :
  (forall y, f y = Thrown e \/ exists b, f y = Val b) ->
  In x l -> f x = Thrown e ->
  ResM.map f l = Thrown e.
Proof.
  intros Hf Hin Hx. induction l as [|y l IH]; [destruct Hin|].
  cbn [ResM.map]. destruct (Hf y) as [->|[b Hy]]; [reflexivity|].
  rewrite Hy. cbn [ResM.bind].
  destruct Hin as [->|Hin]; [congruence|]. now rewrite (IH Hin).
Qed.

Lemma filter_selected (sel : json) (l : list MCPToolDefinition)
    (t : MCPToolDefinition) :
  isSelected sel t = Val true ->
  In t l ->
  exists l', ResM.filter (isSelected sel) l = Val l' /\ In t l'.
Proof.
  intros Ht Hin.
  assert (Hsel : forall y, exists b, isSelected sel y = Val b).
  { intros y. unfold isSelected, selectedIn, ResM.prop in *.
    destruct sel; cbn in *; try discriminate; eauto. }
  induction l as [|y l IH]; [destruct Hin|].
  cbn [ResM.filter]. destruct Hin as [->|Hin].
  - rewrite Ht. cbn [ResM.bind].
    assert (Hl : exists l', ResM.filter (isSelected sel) l = Val l').
    { clear IH. induction l as [|z l IHl]; [now exists []|].
      cbn [ResM.filter]. destruct (Hsel z) as [b ->]. cbn [ResM.bind].
      destruct IHl as [l' ->]. cbn [ResM.bind]. eauto. }
    destruct Hl as [l' ->]. cbn [ResM.bind]. eexists. split; [reflexivity|].
    now left.
  - destruct (Hsel y) as [b ->]. cbn [ResM.bind].
    destruct (IH Hin) as (l' & -> & Hin'). cbn [ResM.bind].
    eexists. split; [reflexivity|]. destruct b; [now right | exact Hin'].
Qed.

(** X22.  One selected tool with a null property schema makes the whole
    refresh fail: [convertToAISDKTool] throws on it, no tool of any
    service reaches the new manifest, and [refreshTools] publishes the
    previous tools with the error message of the TypeError. *)
Theorem refreshTools_null_property (w : World) (window : Window)
    (prev : ToolRegistryState) (s s' : Sys)
    (allTools : list MCPToolDefinition) (t : MCPToolDefinition)
    (schema : InputSchema) (key : string) :
  fetchAll w window [] (getServiceIds window) s = (Val allTools, s') ->
  In t allTools ->
  isSelected (loadToolSelection window) t = Val true ->
  inputSchema t = Some schema ->
  type schema = "object" ->
  default ∅ (properties schema) !! key = Some JNull ->
  selectTools (loadToolSelection window) allTools = Thrown nullPropertyError /\
  refreshTools w window prev s
  = (Val {| tools := tools prev; aiTools := aiTools prev; isLoading := false;
            error := Some "Cannot read properties of null (reading 'type')" |},
     s').
Proof.
  intros Hfetch Hin Hsel Hs Hty Hk.
  assert (Hthrow : selectTools (loadToolSelection window) allTools
                   = Thrown nullPropertyError).
  { unfold selectTools.
    destruct (filter_selected _ _ _ Hsel Hin) as (l' & -> & Hin').
    cbn [ResM.bind].
    apply (map_throws _ _ _ t convertToAISDKTool_cases Hin').
    exact (convertToAISDKTool_null t schema key Hs Hty Hk). }
  split; [exact Hthrow|].
  unfold refreshTools, try_catch, bind, lift. cbn zeta.
  rewrite Hfetch, Hthrow. reflexivity.
Qed.

End NullPropertySchema.

Lemma refreshTools_null_property_witness :
  Registry.selectTools (StorageTs.loadToolSelection (Some twoServicesStore))
    (map (Registry.asDefinition "github") [delete_repo; brokenTool]
     ++ map (Registry.asDefinition "gitlab") [delete_repo; brokenTool])%list
  = Thrown nullPropertyError /\
  fst (Registry.refreshTools nullSchemaWorld (Some twoServicesStore)
         Registry.initialState sampleSys)
  = Val {| Registry.tools := []; Registry.aiTools := [];
           Registry.isLoading := false;
           Registry.error :=
             Some "Cannot read properties of null (reading 'type')" |}.
Proof.
  destruct (refreshTools_null_property nullSchemaWorld (Some twoServicesStore)
              Registry.initialState sampleSys
              (snd (Registry.fetchAll nullSchemaWorld (Some twoServicesStore) []
                      (StorageTs.getServiceIds (Some twoServicesStore))
                      sampleSys))
              (map (Registry.asDefinition "github") [delete_repo; brokenTool]
               ++ map (Registry.asDefinition "gitlab")
                    [delete_repo; brokenTool])%list
              (Registry.asDefinition "github" brokenTool)
              {| type := "object";
                 properties := Some {[ "owner" := JNull ]};
                 required := None |}
              "owner") as [H1 H2].
  - vm_compute. reflexivity.
  - right. left. reflexivity.
  - reflexivity.
  - reflexivity.
  - reflexivity.
  - apply lookup_singleton_eq.
  - split; [exact H1|]. rewrite H2. reflexivity.
Defined.

(** ** The lists and the pending requests of the permission gate *)

Section PermissionLists.
Import Permissions.
#[local] Set Warnings "-clear-no-such-hyp".

Lemma step_disjoint (st : PermissionState) (a : Action) :
  approvedTools st ## deniedTools st ->
  approvedTools (step st a) ## deniedTools (step st a).
Proof.
  intros H. destruct a as [captured tc d|r|r|n b|]; cbn [step]; try exact H.
  - unfold requestPermission.
    destruct (sessionPermissions captured !! tc_name tc); [exact H|].
    repeat case_bool_decide; exact H.
  - unfold setAutoApprove. destruct b; cbn; set_solver.
Qed.

(** X23.  No tool name is ever on the auto-approve list and on the
    auto-deny list at once: whatever happens to the gate, lists that are
    disjoint stay disjoint, as [setAutoApprove] takes the name off the
    other list. *)
Theorem auto_lists_stay_disjoint (st : PermissionState)
    (actions : list Action) :
  approvedTools st ## deniedTools st ->
  approvedTools (run st actions) ## deniedTools (run st actions).
Proof.
  revert st. induction actions as [|a actions IH]; intros st H; [exact H|].
  cbn [run fold_left]. apply IH. now apply step_disjoint.
Qed.

Lemma auto_lists_stay_disjoint_witness :
  approvedTools
    (run initialState
       [ASetAutoApprove "delete_repo" true; ASetAutoApprove "delete_repo" false])
  ## deniedTools
       (run initialState
          [ASetAutoApprove "delete_repo" true;
           ASetAutoApprove "delete_repo" false]).
Proof.
  apply (auto_lists_stay_disjoint initialState
           [ASetAutoApprove "delete_repo" true;
            ASetAutoApprove "delete_repo" false]).
  cbn. apply disjoint_empty_l.
Defined.

(** X24.  A decision settles the tool by name but the dialogs by call id,
    and it reaches only the instances of [requestPermission] made after
    it.  After [onApprove] or [onDeny], a request for a tool of that name
    through the instance of the render that follows resolves at once with
    the decision and changes nothing; a request that was pending under
    another call id stays pending, also when it is for the same tool; and
    a request through the instance made before the decision, which read
    no entry for the tool, adds one more pending request although the
    decision is recorded. *)
Theorem settle_by_name_pending_by_id (request other : ToolPermissionRequest)
    (b : bool) (st : PermissionState) (tc : ToolCall) (d : option string) :
  tc_name tc = tc_name (toolCall request) ->
  In other (pendingRequests st) ->
  tc_id (toolCall other) <> tc_id (toolCall request) ->
  let settled := settle request b st in
  (forall prev, requestPermission settled tc d prev = (prev, Some b)) /\
  In other (pendingRequests settled) /\
  (forall r, In r (pendingRequests settled) ->
             In r (pendingRequests st) /\
             tc_id (toolCall r) <> tc_id (toolCall request)) /\
  (sessionPermissions st !! tc_name tc = None ->
   tc_name tc ∉ approvedTools st -> tc_name tc ∉ deniedTools st ->
   sessionPermissions settled !! tc_name tc = Some b /\
   requestPermission st tc d settled
   = ({| pendingRequests :=
           pendingRequests settled
           ++ [{| toolCall := tc; toolDescription := d;
                  pr_riskLevel := determineRiskLevel tc |}];
         approvedTools := approvedTools settled;
         deniedTools := deniedTools settled;
         sessionPermissions := sessionPermissions settled |}, None)).
Proof.
  intros Hn Hin Hid. cbn zeta. split; [|split; [|split]].
  - intros prev. apply requestPermission_cached.
    cbn [settle sessionPermissions]. now rewrite Hn, lookup_insert_eq.
  - cbn [settle pendingRequests]. apply filter_In. split; [exact Hin|].
    apply negb_true_iff. now apply String.eqb_neq.
  - intros r Hr. cbn [settle pendingRequests] in Hr.
    apply filter_In in Hr as [Hr Hne]. split; [exact Hr|].
    apply negb_true_iff in Hne. now apply String.eqb_neq.
  - intros Hnone Happ Hden. split.
    + cbn [settle sessionPermissions]. now rewrite Hn, lookup_insert_eq.
    + unfold requestPermission. rewrite Hnone.
      rewrite bool_decide_eq_false_2 by exact Happ.
      rewrite bool_decide_eq_false_2 by exact Hden. reflexivity.
Qed.

(** X25.  The auto lists are consulted once per session and tool, for the
    requests that go through the instance of [requestPermission] of the
    latest render: with no session entry for the tool, such a request
    after [setAutoApprove] resolves at once with the listed answer and
    records it; from then on a change of the lists does not change the
    answer, until the session permissions are cleared. *)
Theorem auto_list_consulted_once (st : PermissionState) (tc : ToolCall)
    (d : option string) (listed : bool) :
  sessionPermissions st !! tc_name tc = None ->
  exists st',
    requestPermission (setAutoApprove (tc_name tc) listed st) tc d
      (setAutoApprove (tc_name tc) listed st)
    = (st', Some listed) /\
    pendingRequests st' = pendingRequests st /\
    forall changed,
      (forall prev,
         requestPermission (setAutoApprove (tc_name tc) changed st') tc d prev
         = (prev, Some listed)) /\
      snd (requestPermission
             (clearSessionPermissions
                (setAutoApprove (tc_name tc) changed st')) tc d
             (clearSessionPermissions
                (setAutoApprove (tc_name tc) changed st')))
      = Some changed.
Proof.
  intros Hnone.
  assert (Hauto : forall b st0,
            sessionPermissions st0 !! tc_name tc = None ->
            requestPermission (setAutoApprove (tc_name tc) b st0) tc d
              (setAutoApprove (tc_name tc) b st0)
            = (remember (tc_name tc) b (setAutoApprove (tc_name tc) b st0),
               Some b)).
  { intros b st0 H0. unfold requestPermission.
    cbn [setAutoApprove sessionPermissions]. rewrite H0.
    destruct b; cbn [approvedTools deniedTools].
    - rewrite bool_decide_eq_true_2 by set_solver. reflexivity.
    - rewrite bool_decide_eq_false_2 by set_solver.
      rewrite bool_decide_eq_true_2 by set_solver. reflexivity. }
  eexists. split; [apply Hauto; exact Hnone|]. split; [reflexivity|].
  intros changed. split.
  - intros prev. apply requestPermission_cached.
    cbn [setAutoApprove remember sessionPermissions].
    now rewrite lookup_insert_eq.
  - unfold requestPermission.
    cbn [clearSessionPermissions setAutoApprove remember sessionPermissions
         approvedTools deniedTools].
    rewrite lookup_empty. destruct changed.
    + rewrite bool_decide_eq_true_2 by set_solver. reflexivity.
    + rewrite bool_decide_eq_false_2 by set_solver.
      rewrite bool_decide_eq_true_2 by set_solver. reflexivity.
Qed.

End PermissionLists.

(** Two calls of [delete_repo] wait for the user; the first is approved.
    The instance of the next render answers at once, the second dialog
    stays, and the instance made before the approval opens a third. *)
Lemma settle_by_name_pending_by_id_witness :
  let first := requestFor proposedToolCall in
  let second := requestFor secondToolCall in
  let st :=
    {| pendingRequests := [first; second]; approvedTools := ∅;
       deniedTools := ∅; sessionPermissions := ∅ |} in
  (forall prev,
     Permissions.requestPermission (Permissions.settle first true st)
       proposedToolCall None prev = (prev, Some true)) /\
  In second (pendingRequests (Permissions.settle first true st)) /\
  snd (Permissions.requestPermission st proposedToolCall None
         (Permissions.settle first true st)) = None.
Proof.
  cbn zeta.
  destruct (settle_by_name_pending_by_id
              (requestFor proposedToolCall) (requestFor secondToolCall) true
              {| pendingRequests :=
                   [requestFor proposedToolCall; requestFor secondToolCall];
                 approvedTools := ∅; deniedTools := ∅;
                 sessionPermissions := ∅ |}
              proposedToolCall None) as (H1 & H2 & _ & H3).
  - reflexivity.
  - right. left. reflexivity.
  - discriminate.
  - split; [exact H1|]. split; [exact H2|].
    destruct H3 as [_ H3].
    + apply lookup_empty.
    + apply not_elem_of_empty.
    + apply not_elem_of_empty.
    + cbn zeta in H3. rewrite H3. reflexivity.
Defined.

Lemma auto_list_consulted_once_witness :
  exists st',
    Permissions.requestPermission
      (Permissions.setAutoApprove "delete_repo" true Permissions.initialState)
      proposedToolCall None
      (Permissions.setAutoApprove "delete_repo" true Permissions.initialState)
    = (st', Some true) /\
    snd (Permissions.requestPermission
           (Permissions.setAutoApprove "delete_repo" false st')
           proposedToolCall None
           (Permissions.setAutoApprove "delete_repo" false st'))
    = Some true.
Proof.
  destruct (auto_list_consulted_once Permissions.initialState proposedToolCall
              None true (lookup_empty _)) as (st' & H1 & _ & H2).
  exists st'. split; [exact H1|].
  destruct (H2 false) as [H3 _].
  change "delete_repo" with (tc_name proposedToolCall).
  now rewrite H3.
Defined.

(** ** Ranking the tools for a message *)

Section ToolRanking.
Import ToolFilter.
Local Open Scope Z_scope.

Lemma insertByScore_perm (x : AISDKTool * Z) (l : list (AISDKTool * Z)) :
  insertByScore x l ≡ₚ x :: l.
Proof.
  induction l as [|y l IH]; cbn; [reflexivity|].
  destruct (snd y <=? snd x); [reflexivity|].
  rewrite IH. apply Permutation_swap.
Qed.

Lemma sortByScore_perm (l : list (AISDKTool * Z)) : sortByScore l ≡ₚ l.
Proof.
  induction l as [|x l IH]; cbn; [reflexivity|].
  fold (sortByScore l). now rewrite insertByScore_perm, IH.
Qed.

Lemma insertByScore_Forall (P : AISDKTool * Z -> Prop) (x : AISDKTool * Z)
    (l : list (AISDKTool * Z)) :
  P x -> Forall P l -> Forall P (insertByScore x l).
Proof.
  intros Hx Hl. rewrite insertByScore_perm. now constructor.
Qed.

Lemma insertByScore_descending (x : AISDKTool * Z)
    (l : list (AISDKTool * Z)) :
  descending l -> descending (insertByScore x l).
Proof.
  induction l as [|y l IH]; cbn [insertByScore descending].
  - intros _. split; [constructor | exact I].
  - intros [Hy Hl]. destruct (Z.leb_spec (snd y) (snd x)) as [Hle|Hlt].
    + cbn [descending]. split; [|split; assumption].
      constructor; [exact Hle|].
      eapply Forall_impl; [exact Hy|]. cbn. intros z Hz. lia.
    + cbn [descending]. split; [|now apply IH].
      apply insertByScore_Forall; [lia | exact Hy].
Qed.

Lemma sortByScore_descending (l : list (AISDKTool * Z)) :
  descending (sortByScore l).
Proof.
  induction l as [|x l IH]; cbn; [exact I|].
  now apply insertByScore_descending.
Qed.

Lemma descending_take_drop (l : list (AISDKTool * Z)) (n : nat)
    (a b : AISDKTool * Z) :
  descending l -> a ∈ take n l -> b ∈ drop n l -> snd b <= snd a.
Proof.
  revert n. induction l as [|x l IH]; intros n Hd Ha Hb.
  - rewrite take_nil in Ha. now apply elem_of_nil in Ha.
  - destruct n as [|n]; cbn in Ha, Hb; [now apply elem_of_nil in Ha|].
    destruct Hd as [Hx Hl]. apply elem_of_cons in Ha as [->|Ha].
    + rewrite Forall_forall in Hx. apply Hx. now apply (subseteq_drop n l).
    + now apply (IH n).
Qed.

Lemma insertByScore_head (x : AISDKTool * Z) (l : list (AISDKTool * Z)) :
  Forall (fun y => snd y <= snd x) l -> insertByScore x l = x :: l.
Proof.
  destruct l as [|y l]; [reflexivity|]. intros H. cbn [insertByScore].
  apply Forall_cons in H as [Hy _].
  destruct (Z.leb_spec (snd y) (snd x)); [reflexivity | lia].
Qed.

(** A list that is in descending order already is left as it is: the
    sort is stable. *)
Lemma sortByScore_sorted (l : list (AISDKTool * Z)) :
  descending l -> sortByScore l = l.
Proof.
  induction l as [|x l IH]; [reflexivity|]. intros [Hx Hl].
  cbn [sortByScore fold_right]. fold (sortByScore l). rewrite (IH Hl).
  now apply insertByScore_head.
Qed.

Context (toLowerCase : string -> string).

Lemma scored_snd (message : string) (tools : list AISDKTool)
    (p : AISDKTool * Z) :
  p ∈ sortByScore (scoredFor toLowerCase message tools) ->
  snd p = scoreFor toLowerCase message (fst p).
Proof.
  rewrite sortByScore_perm. intros H.
  apply list_elem_of_fmap in H as (t & -> & _). reflexivity.
Qed.

(** X26.  [filterToolsForMessage] returns the tools unchanged when there
    are no more than [maxTools]; otherwise it returns exactly [maxTools]
    of them, each of the given tools is either returned or left out (none
    is invented, none is dropped twice), and no tool left out has a higher
    score for the message than a tool returned.  Tools of equal score
    keep their order: when no tool of the list has a higher score than a
    tool before it, the first [maxTools] tools are returned.  All this
    holds whatever the case mapping of the platform does. *)
Theorem filterToolsForMessage_top (tools : list AISDKTool) (message : string)
    (maxTools : nat) :
  let selected := filterToolsForMessage toLowerCase tools message maxTools in
  length selected = Nat.min (length tools) maxTools /\
  ((length tools <= maxTools)%nat -> selected = tools) /\
  (descending (scoredFor toLowerCase message tools) ->
   selected = take maxTools tools) /\
  exists omitted,
    tools ≡ₚ selected ++ omitted /\
    forall t t',
      t ∈ selected -> t' ∈ omitted ->
      scoreFor toLowerCase message t' <= scoreFor toLowerCase message t.
Proof.
  cbn zeta. unfold filterToolsForMessage.
  destruct (Nat.leb_spec (length tools) maxTools) as [Hle|Hgt].
  - split; [lia|]. split; [reflexivity|].
    split; [intros _; now rewrite take_ge by lia|].
    exists []. rewrite app_nil_r. split; [reflexivity|].
    intros t t' _ H. now apply elem_of_nil in H.
  - cbn zeta.
    change (map (fun tool =>
                   (tool, scoreToolRelevance toLowerCase tool message
                            (analyzeMessageIntent toLowerCase message)))
                tools)
      with (scoredFor toLowerCase message tools).
    set (scored := scoredFor toLowerCase message tools).
    assert (Hfst : map fst scored = tools).
    { unfold scored, scoredFor. rewrite map_map. cbn. apply map_id. }
    assert (Hperm : sortByScore scored ≡ₚ scored) by apply sortByScore_perm.
    assert (Hlen : length (sortByScore scored) = length tools).
    { rewrite Hperm. unfold scored, scoredFor. apply length_map. }
    split; [|split; [|split]].
    + rewrite length_map, length_take, Hlen. lia.
    + intros H. lia.
    + intros Hd. rewrite (sortByScore_sorted scored Hd).
      rewrite <- firstn_map. now rewrite Hfst.
    + exists (map fst (drop maxTools (sortByScore scored))). split.
      * rewrite <- map_app, take_drop, Hperm. now rewrite Hfst.
      * intros t t' Ht Ht'.
        apply list_elem_of_fmap in Ht as (p & -> & Hp).
        apply list_elem_of_fmap in Ht' as (p' & -> & Hp').
        rewrite <- (scored_snd message tools p)
          by (eapply subseteq_take; exact Hp).
        rewrite <- (scored_snd message tools p')
          by (eapply subseteq_drop; exact Hp').
        eapply descending_take_drop; [apply sortByScore_descending | |];
          eassumption.
Qed.

End ToolRanking.

(** Two tools and room for one, with the case mapping of the ASCII
    letters, which is the mapping of Unicode on these names.  The word of
    the message is the name of the second tool, but it has three code
    units only and does not count: the scores are equal and the first
    tool is returned. *)
Lemma filterToolsForMessage_top_witness :
  ToolFilter.filterToolsForMessage Js.toLowerCase
    [plainTool "aaa"; plainTool eAcute3] eAcute3 1
  = [plainTool "aaa"].
Proof.
  apply (filterToolsForMessage_top Js.toLowerCase
           [plainTool "aaa"; plainTool eAcute3] eAcute3 1).
  cbn [scoredFor map descending].
  assert (H : scoreFor Js.toLowerCase eAcute3 (plainTool eAcute3)
              = scoreFor Js.toLowerCase eAcute3 (plainTool "aaa"))
    by (vm_compute; reflexivity).
  split; [|split; [constructor | exact I]].
  constructor; [cbn [snd]; rewrite H; apply Z.le_refl | constructor].
Defined.

(** A word of four letters counts, and the ranking brings the tool it
    names to the front. *)
Example filterToolsForMessage_ranks :
  ToolFilter.filterToolsForMessage Js.toLowerCase
    [plainTool "aaa"; plainTool "repo_list"] "the list" 1
  = [plainTool "repo_list"].
Proof. vm_compute. reflexivity. Qed.


(** ** The form that runs a tool by hand *)

Section ToolFormFacts.
Import Js Json Monad ToolForm.
Context (Number : json -> json) (JSON_parse : string -> option json).
Context (w : World) (window : Window) (serviceId : string).








End ToolFormFacts.



(** ** The ways [onToolCall] ends without a result *)

Section ToolCallErrors.
Import Json Monad Actions UseChat.
Context (w : World) (aiTools : list AISDKTool).
Context (serviceConfigs : gmap string json) (messages : list string).
Context (initialModel : ChatModel).

(** What [onToolCall] does for a tool of the manifest whose service has a
    truthy configuration, in terms of the two server actions. *)
Lemma onToolCall_run (tc : ModelToolCall) (tool : AISDKTool)
    (serviceConfig : json) (s : Sys) :
  List.find (fun t => String.eqb (ai_name t) (toolName tc)) aiTools
  = Some tool ->
  serviceConfigs !! ai_serviceId tool = Some serviceConfig ->
  truthy serviceConfig = true ->
  onToolCall w aiTools serviceConfigs messages initialModel tc s
  = match callMCPToolWithConfig w serviceConfig (toolName tc) (args tc) s with
    | (Val (Success (content, _)), s1) =>
        match Summarize.summarizeToolResult w
                (summaryParams messages initialModel tc content) s1 with
        | (Val (Success summary), s2) =>
            (Val (if Js.truthy summary
                  then RetResult content (Some summary) (Some content)
                  else RetResult content None None), s2)
        | (Val (Failure _), s2) => (Val (RetResult content None None), s2)
        | (Thrown error, s2) =>
            (Val (RetError (messageOr error "Unknown error")), s2)
        end
    | (Val (Failure error), s1) => (Val (RetError error), s1)
    | (Thrown error, s1) =>
        (Val (RetError (messageOr error "Unknown error")), s1)
    end.
Proof.
  intros Hfind Hcfg Ht. unfold onToolCall. rewrite Hfind, Hcfg, Ht.
  cbn [negb]. unfold try_catch, bind, summaryParams.
  destruct (callMCPToolWithConfig w serviceConfig (toolName tc) (args tc) s)
    as [[[[content isError]|error]|error] s1]; [|reflexivity..].
  destruct (Summarize.summarizeToolResult w _ s1)
    as [[[summary|e]|e] s2]; [destruct (Js.truthy summary)|..]; reflexivity.
Qed.

(** X29.  [onToolCall] never throws.  A call of a tool that is not in the
    manifest, or whose service has no truthy configuration in the closure,
    is answered with an error object and nothing is sent; a call the
    server action reports as failed is answered with its error and no
    summary is asked for; and a result is returned as a result also when
    the server flagged it as an error, the flag being dropped. *)
Theorem onToolCall_error_paths (tc : ModelToolCall) (s : Sys) :
  let found :=
    List.find (fun t => String.eqb (ai_name t) (toolName tc)) aiTools in
  let run := onToolCall w aiTools serviceConfigs messages initialModel tc s in
  (exists r s', run = (Val r, s')) /\
  (found = None -> run = (Val (RetError "Tool not found"), s)) /\
  (forall tool,
     found = Some tool ->
     truthy_opt (serviceConfigs !! ai_serviceId tool) = false ->
     run = (Val (RetError "Service configuration not found"), s)) /\
  (forall tool serviceConfig,
     found = Some tool ->
     serviceConfigs !! ai_serviceId tool = Some serviceConfig ->
     truthy serviceConfig = true ->
     match callMCPToolWithConfig w serviceConfig (toolName tc) (args tc) s with
     | (Val (Failure error), s') => run = (Val (RetError error), s')
     | (Val (Success (content, isError)), s') =>
         exists summary rawResult s'',
           run = (Val (RetResult content summary rawResult), s'')
     | (Thrown error, s') =>
         run = (Val (RetError (messageOr error "Unknown error")), s')
     end).
Proof.
  cbn zeta.
  assert (Hcall : forall tool serviceConfig,
            List.find (fun t => String.eqb (ai_name t) (toolName tc)) aiTools
            = Some tool ->
            serviceConfigs !! ai_serviceId tool = Some serviceConfig ->
            truthy serviceConfig = true ->
            match callMCPToolWithConfig w serviceConfig (toolName tc) (args tc) s
            with
            | (Val (Failure error), s') =>
                onToolCall w aiTools serviceConfigs messages initialModel tc s
                = (Val (RetError error), s')
            | (Val (Success (content, isError)), s') =>
                exists summary rawResult s'',
                  onToolCall w aiTools serviceConfigs messages initialModel tc s
                  = (Val (RetResult content summary rawResult), s'')
            | (Thrown error, s') =>
                onToolCall w aiTools serviceConfigs messages initialModel tc s
                = (Val (RetError (messageOr error "Unknown error")), s')
            end).
  { intros tool serviceConfig Hfind Hcfg Ht.
    rewrite (onToolCall_run tc tool serviceConfig s Hfind Hcfg Ht).
    destruct (callMCPToolWithConfig w serviceConfig (toolName tc) (args tc) s)
      as [[[[content isError]|error]|error] s1]; [|reflexivity..].
    destruct (summarizeToolResult_returns w
                (summaryParams messages initialModel tc content) s1)
      as (sr & s2 & ->).
    destruct sr as [summary|e]; [destruct (Js.truthy summary)|];
      do 3 eexists; reflexivity. }
  split; [|split; [|split; [|exact Hcall]]].
  - destruct (List.find (fun t => String.eqb (ai_name t) (toolName tc)) aiTools)
      as [tool|] eqn:Hfind; [|unfold onToolCall; rewrite Hfind; eauto].
    destruct (serviceConfigs !! ai_serviceId tool) as [serviceConfig|] eqn:Hcfg;
      [|unfold onToolCall; rewrite Hfind, Hcfg; eauto].
    destruct (truthy serviceConfig) eqn:Ht;
      [|unfold onToolCall; rewrite Hfind, Hcfg, Ht; eauto].
    specialize (Hcall tool serviceConfig eq_refl Hcfg Ht).
    destruct (callMCPToolWithConfig w serviceConfig (toolName tc) (args tc) s)
      as [[[[content isError]|error]|error] s1].
    + destruct Hcall as (summary & raw & s2 & ->). eauto.
    + rewrite Hcall. eauto.
    + rewrite Hcall. eauto.
  - intros Hfind. unfold onToolCall. now rewrite Hfind.
  - intros tool Hfind Hf. unfold onToolCall. rewrite Hfind.
    destruct (serviceConfigs !! ai_serviceId tool) as [serviceConfig|];
      [|reflexivity].
    cbn in Hf. now rewrite Hf.
Qed.

End ToolCallErrors.

Lemma onToolCall_error_paths_witness :
  UseChat.onToolCall sampleWorld [] ∅ [] claude proposedCall sampleSys
  = (Val (RetError "Tool not found"), sampleSys).
Proof.
  apply (onToolCall_error_paths sampleWorld [] ∅ [] claude proposedCall
           sampleSys).
  reflexivity.
Defined.

(** ** The card of a tool invocation *)

Section InvocationCard.
Import Json ChatPanel.

(** X30.  The summary [onToolCall] has obtained never reaches the
    [summary] property of the card: the chat panel looks for the keys
    [raw] and [summary] in the result of the invocation, and the object
    [onToolCall] returns has [rawResult] but never [raw].  So for every
    return value the summary handed to the card is undefined and the raw
    result is the whole returned object; and since that object is truthy,
    an [{ error }] return is handed over with the status "result" too. *)
Theorem summary_never_reaches_the_card (r : ToolCallReturn) (state : string) :
  let card := toolCard state (Some (returned r)) in
  cp_summary card = None /\
  cp_rawResult card = Some (returned r) /\
  (state <> "partial-call" ->
   cp_status card = "result" /\ cp_error card = None).
Proof.
  cbn zeta.
  assert (Hraw : isEnhanced (Some (returned r)) = false).
  { destruct r as [e|result [text|] [raw|]]; reflexivity. }
  unfold toolCard. rewrite Hraw.
  split; [reflexivity|]. split; [reflexivity|].
  intros Hs. apply String.eqb_neq in Hs. cbn [cp_status cp_error].
  rewrite Hs. destruct r as [e|result summary raw]; split; reflexivity.
Qed.

Lemma summary_never_reaches_the_card_witness :
  cp_summary
    (toolCard "result"
       (Some (returned (RetResult [JStr "done"]
                          (Some "The repository was deleted.")
                          (Some [JStr "done"])))))
  = None /\
  cp_status (toolCard "result" (Some (returned (RetError "Tool not found"))))
  = "result".
Proof.
  split.
  - apply (summary_never_reaches_the_card
             (RetResult [JStr "done"] (Some "The repository was deleted.")
                (Some [JStr "done"])) "result").
  - apply (summary_never_reaches_the_card (RetError "Tool not found")
             "result").
    discriminate.
Defined.

End InvocationCard.
